(** * AI Team Planner: the planning and scheduling engine

    A shallow embedding of [backend/src/services/scheduler.ts] (class
    [Scheduler]) and [backend/src/services/aiPlanner.ts] (class [AIPlanner]),
    with the properties the design document states about them.

    Conventions of the embedding:
    - a [dayjs] instant is its number of milliseconds since the Unix epoch, an
      integer; local time is UTC, so that the time line is linear (no clock
      change), and an ISO-8601 text produced by [toISOString] is identified
      with the instant it denotes wherever the code only stores it;
    - a JavaScript number holding a count of minutes, an hour or a part is an
      integer of [Z];
    - a text is the sequence of the bytes of its UTF-8 encoding;
    - [dayjs()] is the parameter [now] of the function that reads the clock;
    - a [while] loop runs on fuel: one unit per iteration, shared by a whole
      pass, so that a bound on the fuel is a bound on the work. *)

From Stdlib Require Import ZArith QArith Lia Sorted.
From stdpp Require Import base option list gmap strings pretty.

Local Open Scope Z_scope.

(** ** Instants: the part of [dayjs] the planner uses *)

Module Dayjs.

Definition MS_SECOND : Z := 1000.
Definition MS_MINUTE : Z := 60000.
Definition MS_HOUR : Z := 3600000.
Definition MS_DAY : Z := 86400000.

Inductive unit_ := Minute | Hour | Day.

Definition unitMs (u : unit_) : Z :=
  match u with Minute => MS_MINUTE | Hour => MS_HOUR | Day => MS_DAY end.

(** Days since the epoch, and the fields of the clock face. *)
Definition dayNumber (t : Z) : Z := t / MS_DAY.
Definition hour (t : Z) : Z := (t mod MS_DAY) / MS_HOUR.
Definition minute (t : Z) : Z := (t mod MS_HOUR) / MS_MINUTE.
Definition second (t : Z) : Z := (t mod MS_MINUTE) / MS_SECOND.
Definition millisecond (t : Z) : Z := t mod MS_SECOND.

(** [day()]: 0 is Sunday; 1970-01-01 was a Thursday. *)
Definition day (t : Z) : Z := (dayNumber t + 4) mod 7.

(** The setters go through [Date.setHours] and the like: the field is
    replaced, the other fields stay, and a value out of range carries over. *)
Definition setHour (t h : Z) : Z := t + (h - hour t) * MS_HOUR.
Definition setMinute (t m : Z) : Z := t + (m - minute t) * MS_MINUTE.
Definition setSecond (t s : Z) : Z := t + (s - second t) * MS_SECOND.

Definition add (t n : Z) (u : unit_) : Z := t + n * unitMs u.

Definition isBefore (a b : Z) : bool := a <? b.
Definition isAfter (a b : Z) : bool := b <? a.

(** [t.hour(h).minute(0).second(0)]: the milliseconds are kept. *)
Definition atHour (t h : Z) : Z := setSecond (setMinute (setHour t h) 0) 0.

End Dayjs.

Import Dayjs.

(** ** Outcomes and the fuel monad *)

Inductive exn := TypeError | AIServiceError.

Inductive outcome (A : Type) :=
| Done (a : A)
| Throws (e : exn)
| Timeout.

Arguments Done {A} a.
Arguments Throws {A} e.
Arguments Timeout {A}.

(** A computation takes the fuel it may burn and hands back what is left. *)
Definition M (A : Type) : Type := nat -> outcome (A * nat).

#[global] Instance M_ret : MRet M := fun A a fuel => Done (a, fuel).

#[global] Instance M_bind : MBind M := fun A B k m fuel =>
  match m fuel with
  | Done (a, fuel') => k a fuel'
  | Throws e => Throws e
  | Timeout => Timeout
  end.

(** [while (cond(s)) s = body(s)]: each iteration costs one unit of fuel. *)
Fixpoint while_ {S : Type} (cond : S -> bool) (body : S -> S) (s : S)
    (fuel : nat) {struct fuel} : outcome (S * nat) :=
  if cond s then
    match fuel with
    | O => Timeout
    | Datatypes.S fuel' => while_ cond body (body s) fuel'
    end
  else Done (s, fuel).

(** [l.forEach(x => ...)] with the variables the callback updates as state. *)
Fixpoint forEach {A S : Type} (f : S -> A -> M S) (l : list A) (s : S) : M S :=
  match l with
  | [] => mret s
  | x :: l' => s' ← f s x; forEach f l' s'
  end.

(** ** JavaScript helpers *)

(** [Array.prototype.includes] on numbers. *)
Definition includes (l : list Z) (x : Z) : bool := bool_decide (x ∈ l).

(** [Array.prototype.sort(cmp)]: the sort is stable, so with a consistent
    comparator it is the insertion of each element before the first later
    element that does not compare below it. *)
Fixpoint insertBy {A : Type} (cmp : A -> A -> Z) (x : A) (l : list A) : list A :=
  match l with
  | [] => [x]
  | y :: l' => if cmp x y <=? 0 then x :: y :: l' else y :: insertBy cmp x l'
  end.

Definition sort {A : Type} (cmp : A -> A -> Z) (l : list A) : list A :=
  foldr (insertBy cmp) [] l.

(** [a || b] on numbers and on strings: [0] and the empty string are falsy. *)
Definition orZ (a b : Z) : Z := if a =? 0 then b else a.
Definition orStr (a b : string) : string := if String.eqb a "" then b else a.
Definition truthyStr (a : string) : bool := negb (String.eqb a "").
Definition truthyZ (a : Z) : bool := negb (a =? 0).

(** The value of a string of decimal digits. *)
Fixpoint digitsValue (s : string) (acc : N) : option N :=
  match s with
  | EmptyString => Some acc
  | String c s' =>
      let n := Ascii.N_of_ascii c in
      if ((48 <=? n) && (n <=? 57))%N
      then digitsValue s' (acc * 10 + (n - 48))%N
      else None
  end.

(** ** ISO-8601 texts

    [Date.prototype.toISOString] and the reading of such a text by
    [dayjs(text)], for the years 0000 to 9999: [YYYY-MM-DDTHH:mm:ss.sssZ]. *)

Module ISO8601.

(** The civil date of a day number, and back (proleptic Gregorian calendar,
    years starting in March inside the computation). *)
Definition civilFromDays (d : Z) : Z * Z * Z :=
  let z := d + 719468 in
  let era := z / 146097 in
  let doe := z - era * 146097 in
  let yoe := (doe - doe / 1460 + doe / 36524 - doe / 146096) / 365 in
  let doy := doe - (365 * yoe + yoe / 4 - yoe / 100) in
  let mp := (5 * doy + 2) / 153 in
  let dd := doy - (153 * mp + 2) / 5 + 1 in
  let m := if mp <? 10 then mp + 3 else mp - 9 in
  (yoe + era * 400 + (if m <=? 2 then 1 else 0), m, dd).

Definition daysFromCivil (y m d : Z) : Z :=
  let y' := if m <=? 2 then y - 1 else y in
  let era := y' / 400 in
  let yoe := y' - era * 400 in
  let doy := (153 * (if 2 <? m then m - 3 else m + 9) + 2) / 5 + d - 1 in
  let doe := yoe * 365 + yoe / 4 - yoe / 100 + doy in
  era * 146097 + doe - 719468.

Fixpoint zeros (n : nat) : string :=
  match n with O => "" | S n' => "0" +:+ zeros n' end.

Definition pad (width : nat) (n : Z) : string :=
  let digits := pretty (Z.to_N n) in
  zeros (width - String.length digits) +:+ digits.

Definition toISOString (t : Z) : string :=
  let '(y, m, d) := civilFromDays (dayNumber t) in
  pad 4 y +:+ "-" +:+ pad 2 m +:+ "-" +:+ pad 2 d +:+ "T"
  +:+ pad 2 (hour t) +:+ ":" +:+ pad 2 (minute t) +:+ ":"
  +:+ pad 2 (second t) +:+ "." +:+ pad 3 (millisecond t) +:+ "Z".

Definition field (s : string) (from len : nat) : option Z :=
  Z.of_N <$> digitsValue (String.substring from len s) 0%N.

(** The instant of a text of that format; any other text is not a date
    here. *)
Definition parseDate (s : string) : option Z :=
  if negb (String.length s =? 24)%nat then None
  else if negb (String.eqb (String.substring 4 1 s) "-"
                && String.eqb (String.substring 7 1 s) "-"
                && String.eqb (String.substring 10 1 s) "T"
                && String.eqb (String.substring 13 1 s) ":"
                && String.eqb (String.substring 16 1 s) ":"
                && String.eqb (String.substring 19 1 s) "."
                && String.eqb (String.substring 23 1 s) "Z") then None
  else
    y ← field s 0 4; m ← field s 5 2; d ← field s 8 2;
    hh ← field s 11 2; mm ← field s 14 2; ss ← field s 17 2;
    ms ← field s 20 3;
    if negb ((1 <=? m) && (m <=? 12) && (1 <=? d) && (d <=? 31)
             && (hh <? 24) && (mm <? 60) && (ss <? 60)) then None
    else Some (daysFromCivil y m d * MS_DAY + hh * MS_HOUR + mm * MS_MINUTE
               + ss * MS_SECOND + ms).

End ISO8601.

(** ** Data model ([types.ts]) *)

Record SchedulingConstraints := {
  workHoursPerDay : Z;
  startHour : Z;
  endHour : Z;
  daysOfWeek : list Z
}.

Record Scheduled := { start : Z; end_ : Z }.

Record AISubtask := {
  part : Z;
  title : string;
  details : string;
  assignee : string;
  estimatedMinutes : Z;
  scheduled : Scheduled
}.

Record Member := { id : option Z; name : string; role : option string }.

Record PlanningInput := {
  inTitle : string;
  inDescription : string;
  inDueDate : Z;
  inParts : Z;
  inMembers : list Member;
  inConstraints : SchedulingConstraints
}.

Definition withScheduled (task : AISubtask) (s : Scheduled) : AISubtask :=
  {| part := part task; title := title task; details := details task;
     assignee := assignee task; estimatedMinutes := estimatedMinutes task;
     scheduled := s |}.

Definition withAssignee (task : AISubtask) (a : string) : AISubtask :=
  {| part := part task; title := title task; details := details task;
     assignee := a; estimatedMinutes := estimatedMinutes task;
     scheduled := scheduled task |}.

(** ** The scheduler ([scheduler.ts]) *)

Module Scheduler.

(** The loop looks for a working day, and gives up at the due date. *)
Definition findNextWorkingSlot (startTime dueDate : Z)
    (constraints : SchedulingConstraints) : M Z :=
  let slot :=
    if hour startTime <? startHour constraints then
      atHour startTime (startHour constraints)
    else if endHour constraints <=? hour startTime then
      atHour (add startTime 1 Day) (startHour constraints)
    else startTime in
  while_
    (fun slot => negb (includes (daysOfWeek constraints) (day slot))
                 && isBefore slot dueDate)
    (fun slot => atHour (add slot 1 Day) (startHour constraints))
    slot.

(** The comparator of the sort: part ascending, then longest first. *)
Definition byPartThenLongest (a b : AISubtask) : Z :=
  if negb (part a =? part b) then part a - part b
  else estimatedMinutes b - estimatedMinutes a.

(** The body of [for (const task of sortedTasks)]; the state is
    [memberSchedules] and [rescheduledTasks]. The warning on the console
    for a slot after the day before the due date has no effect on either. *)
Definition rescheduleTask (startDate dueDate : Z)
    (constraints : SchedulingConstraints)
    (st : gmap string Z * list AISubtask) (task : AISubtask)
    : M (gmap string Z * list AISubtask) :=
  let '(memberSchedules, rescheduledTasks) := st in
  let memberName := assignee task in
  let nextSlot :=
    default (atHour startDate (startHour constraints))
            (memberSchedules !! memberName) in
  nextSlot ← findNextWorkingSlot nextSlot dueDate constraints;
  let startTime := nextSlot in
  let endTime := add startTime (estimatedMinutes task) Minute in
  let rescheduledTask :=
    withScheduled task {| start := startTime; end_ := endTime |} in
  mret (<[memberName := add endTime 15 Minute]> memberSchedules,
        rescheduledTasks ++ [rescheduledTask]).

Definition rescheduleTasks (now : Z) (subtasks : list AISubtask)
    (dueDate : Z) (constraints : SchedulingConstraints)
    : M (list AISubtask) :=
  let startDate := add now 1 Day in
  let sortedTasks := sort byPartThenLongest subtasks in
  st ← forEach (rescheduleTask startDate dueDate constraints)
               sortedTasks (∅, []);
  mret st.2.

(** [calculateAvailableHours]: one iteration per day before the due date;
    the state is [currentDate] and [totalHours]. *)
Definition calculateAvailableHours (now dueDate : Z)
    (constraints : SchedulingConstraints) : M Z :=
  let hoursPerWorkDay := endHour constraints - startHour constraints in
  st ← while_
         (fun st : Z * Z => isBefore st.1 dueDate)
         (fun st : Z * Z =>
            (add st.1 1 Day,
             if includes (daysOfWeek constraints) (day st.1)
             then st.2 + hoursPerWorkDay else st.2))
         (atHour (add now 1 Day) (startHour constraints), 0);
  mret st.2.

Record FeasibilityReport := {
  feasible : bool;
  requiredHours : Q;
  availableHours : Z
}.

(** The hours are exact rationals here: [totalMinutes / 60] and
    [availableHours * 0.8] are not rounded. *)
Definition validateScheduleFeasibility (now : Z) (subtasks : list AISubtask)
    (dueDate : Z) (constraints : SchedulingConstraints) (memberCount : Z)
    : M FeasibilityReport :=
  let totalMinutes :=
    foldl (fun sum task => sum + estimatedMinutes task) 0 subtasks in
  let requiredHours := Qmake totalMinutes 60 in
  hours ← calculateAvailableHours now dueDate constraints;
  let availableHours := hours * memberCount in
  mret {| feasible :=
            Qle_bool requiredHours (inject_Z availableHours * Qmake 8 10);
          requiredHours := requiredHours;
          availableHours := availableHours |}.

End Scheduler.

(** ** The workload balancer ([Scheduler.balanceWorkload])

    The balancer writes into the subtask records it is given, so the records
    live in a store and an array is a list of references to them. *)

Module Balancer.

Definition loc := positive.

Record heap := {
  objects : gmap loc AISubtask;
  arrays : gmap loc (list loc)
}.

(** [memberWorkload]: a JavaScript object used as a map from names to
    minutes, kept with its keys in the order of their creation. Names are
    taken not to be properties of [Object.prototype]. *)
Definition Workload := list (string * Z).

Fixpoint getW (w : Workload) (k : string) : option Z :=
  match w with
  | [] => None
  | (k', v) :: w' => if String.eqb k' k then Some v else getW w' k
  end.

Fixpoint setW (w : Workload) (k : string) (v : Z) : Workload :=
  match w with
  | [] => [(k, v)]
  | (k', v') :: w' =>
      if String.eqb k' k then (k', v) :: w' else (k', v') :: setW w' k v
  end.

(** A key is an array index when it is the canonical decimal text of an
    integer below [2^32 - 1]. *)
Definition arrayIndex (k : string) : option N :=
  match k with
  | EmptyString => None
  | _ =>
      match digitsValue k 0%N with
      | Some n =>
          if ((n <? 4294967295)%N && String.eqb (pretty n) k)%bool
          then Some n else None
      | None => None
      end
  end.

(** [Object.keys]: the array indices in ascending order, then the other
    keys in the order of their creation. *)
Definition Object_keys (w : Workload) : list string :=
  let ks := w.*1 in
  let indices := omap (fun k => (fun n => (n, k)) <$> arrayIndex k) ks in
  let others := filter (fun k => arrayIndex k = None) ks in
  (sort (fun a b : N * string => Z.of_N a.1 - Z.of_N b.1) indices).*2
  ++ others.

(** [(a, b) => memberWorkload[a] - memberWorkload[b]]. *)
Definition byWorkload (w : Workload) (a b : string) : Z :=
  default 0 (getW w a) - default 0 (getW w b).

(** The first [forEach]: the minutes each name holds in the input. *)
Definition countWorkload (objs : gmap loc AISubtask) (w : Workload)
    (l : loc) : option Workload :=
  task ← objs !! l;
  let w1 :=
    if bool_decide (default 0 (getW w (assignee task)) = 0)
    then setW w (assignee task) 0 else w in
  Some (setW w1 (assignee task)
          (default 0 (getW w1 (assignee task)) + estimatedMinutes task)).

Record BalanceState := {
  bsObjects : gmap loc AISubtask;
  memberWorkload : Workload;
  sortedMembers : list string;
  memberIndex : nat
}.

(** The second [forEach]: [task.assignee = assignedMember] is a write into
    the record the caller holds. *)
Definition reassign (st : BalanceState) (l : loc) : option BalanceState :=
  task ← bsObjects st !! l;
  assignedMember ←
    sortedMembers st !! (memberIndex st mod length (sortedMembers st))%nat;
  let w :=
    setW (memberWorkload st) assignedMember
      (default 0 (getW (memberWorkload st) assignedMember)
       + estimatedMinutes task) in
  Some {| bsObjects := <[l := withAssignee task assignedMember]> (bsObjects st);
          memberWorkload := w;
          sortedMembers := sort (byWorkload w) (sortedMembers st);
          memberIndex := S (memberIndex st) |}.

Fixpoint foldOpt {A S : Type} (f : S -> A -> option S) (l : list A) (s : S)
    : option S :=
  match l with
  | [] => Some s
  | x :: l' => s' ← f s x; foldOpt f l' s'
  end.

(** [None] stands for a reference that is not in the store, which no
    JavaScript program can hold. *)
Definition balanceWorkload (h : heap) (subtasks : loc) : option (heap * loc) :=
  tasks ← arrays h !! subtasks;
  w ← foldOpt (countWorkload (objects h)) tasks [];
  let sorted := sort (byWorkload w) (Object_keys w) in
  let balancedTasks := fresh (dom (arrays h)) in
  st ← foldOpt reassign tasks
         {| bsObjects := objects h; memberWorkload := w;
            sortedMembers := sorted; memberIndex := 0 |};
  Some ({| objects := bsObjects st;
           arrays := <[balancedTasks := tasks]> (arrays h) |},
        balancedTasks).

(** What a caller reads through an array. *)
Definition readArray (h : heap) (a : loc) : option (list AISubtask) :=
  ls ← arrays h !! a; mapM (fun l => objects h !! l) ls.

(** The minutes assigned to a name in a list of subtasks. *)
Definition totalMinutes (tasks : list AISubtask) (m : string) : Z :=
  foldr (fun task sum =>
           if String.eqb (assignee task) m
           then estimatedMinutes task + sum else sum) 0 tasks.

End Balancer.

(** ** The planner ([aiPlanner.ts]) *)

Module AIPlanner.

(** *** Strings *)

(** [String.prototype.toLowerCase], on ASCII letters. *)
Definition lowerChar (c : Ascii.ascii) : Ascii.ascii :=
  let n := Ascii.N_of_ascii c in
  if ((65 <=? n) && (n <=? 90))%N then Ascii.ascii_of_N (n + 32) else c.

Fixpoint toLowerCase (s : string) : string :=
  match s with
  | EmptyString => EmptyString
  | String c s' => String (lowerChar c) (toLowerCase s')
  end.

Fixpoint startsWith (s p : string) : bool :=
  match p, s with
  | EmptyString, _ => true
  | String _ _, EmptyString => false
  | String b p', String a s' => Ascii.eqb a b && startsWith s' p'
  end.

(** [String.prototype.includes]. *)
Fixpoint includesStr (s p : string) : bool :=
  startsWith s p
  || match s with
     | EmptyString => false
     | String _ s' => includesStr s' p
     end.

(** *** Repair of a candidate plan *)

(** A candidate record as it comes out of [JSON.parse]: any field may be
    missing, and the timestamps are arbitrary text. *)
Record RawScheduled := { rStart : option string; rEnd : option string }.

Record RawSubtask := {
  rPart : option Z;
  rTitle : option string;
  rDetails : option string;
  rAssignee : option string;
  rEstimatedMinutes : option Z;
  rScheduled : option RawScheduled
}.

(** [planSubtasks] is [None] when [plan] is missing or [plan.subtasks] is
    not an array. *)
Record RawPlanResponse := { planSubtasks : option (list RawSubtask) }.

Section Repair.

(** [dayjs(text)]: the instant a text denotes, [None] when [isValid()]
    is false. *)
Variable parseDate : string -> option Z.

(** [toISOString()]. *)
Variable toISOString : Z -> string.

Definition validateDateTime (dateStr : option string) : option Z :=
  match dateStr with
  | None => None
  | Some s => if truthyStr s then parseDate s else None
  end.

Definition getDefaultStartTime (now : Z) (index : nat)
    (input : PlanningInput) : Z :=
  let startDate :=
    atHour (add now 1 Day) (startHour (inConstraints input)) in
  add startDate (Z.of_nat index * 2) Hour.

Definition getDefaultEndTime (now : Z) (index : nat) (input : PlanningInput)
    (estimatedMinutes : Z) : Z :=
  add (getDefaultStartTime now index input) estimatedMinutes Minute.

(** The callback of [aiResponse.plan.subtasks.forEach]; [len] is the
    length of the array. With no member at all the assignee is
    [undefined], which the empty string stands for. *)
Definition repairSubtask (now : Z) (input : PlanningInput) (len : nat)
    (memberNames : list string) (index : nat) (subtask : RawSubtask)
    : AISubtask :=
  let fallback :=
    default "" (memberNames !! (index mod length memberNames)%nat) in
  let rawStart := s ← rScheduled subtask; rStart s in
  let rawEnd := s ← rScheduled subtask; rEnd s in
  {| part := orZ (default 0 (rPart subtask))
                 (Z.of_nat index * inParts input / Z.of_nat len + 1);
     title := orStr (default "" (rTitle subtask))
                    ("Task " +:+ pretty (Z.of_nat index + 1));
     details := orStr (default "" (rDetails subtask)) "No details provided";
     assignee :=
       match rAssignee subtask with
       | Some a => if bool_decide (a ∈ memberNames) then a else fallback
       | None => fallback
       end;
     estimatedMinutes :=
       match rEstimatedMinutes subtask with
       | Some m => if 0 <? m then m else 60
       | None => 60
       end;
     scheduled :=
       {| start := default (getDefaultStartTime now index input)
                           (validateDateTime rawStart);
          end_ := default
                    (getDefaultEndTime now index input
                       (orZ (default 0 (rEstimatedMinutes subtask)) 60))
                    (validateDateTime rawEnd) |} |}.

Definition validateAndRepairPlan (now : Z) (aiResponse : RawPlanResponse)
    (input : PlanningInput) : outcome (list AISubtask) :=
  match planSubtasks aiResponse with
  | None => Throws AIServiceError
  | Some subtasks =>
      let memberNames := name <$> inMembers input in
      Done (imap (repairSubtask now input (length subtasks) memberNames)
                 subtasks)
  end.

(** A repaired plan as the candidate of a second repair: the JSON of the
    typed records. *)
Definition toRaw (task : AISubtask) : RawSubtask :=
  {| rPart := Some (part task);
     rTitle := Some (title task);
     rDetails := Some (details task);
     rAssignee := Some (assignee task);
     rEstimatedMinutes := Some (estimatedMinutes task);
     rScheduled :=
       Some {| rStart := Some (toISOString (start (scheduled task)));
               rEnd := Some (toISOString (end_ (scheduled task))) |} |}.

Definition toResponse (subtasks : list AISubtask) : RawPlanResponse :=
  {| planSubtasks := Some (toRaw <$> subtasks) |}.

End Repair.

(** *** The fallback scheduling pass *)

Definition offWorkingDay (constraints : SchedulingConstraints) (slot : Z)
    : bool :=
  negb (includes (daysOfWeek constraints) (day slot)).

Definition nextDay (constraints : SchedulingConstraints) (slot : Z) : Z :=
  atHour (add slot 1 Day) (startHour constraints).

(** The body of [subtasks.forEach(task => ...)]; the tasks are written in
    place, so the state carries the array elements already visited. *)
Definition scheduleTask (currentDate : Z) (constraints : SchedulingConstraints)
    (st : gmap string Z * list AISubtask) (task : AISubtask)
    : M (gmap string Z * list AISubtask) :=
  let '(memberSchedules, visited) := st in
  if negb (truthyStr (assignee task))
     || negb (truthyZ (estimatedMinutes task))
  then mret (memberSchedules, visited ++ [task])
  else
    let memberName := assignee task in
    let nextSlot :=
      default (atHour currentDate (startHour constraints))
              (memberSchedules !! memberName) in
    nextSlot ← while_ (offWorkingDay constraints) (nextDay constraints)
                      nextSlot;
    let dayEndTime := setHour nextSlot (endHour constraints) in
    let taskDuration := estimatedMinutes task in
    let taskEndTime := add nextSlot taskDuration Minute in
    nextSlot ←
      (if isAfter taskEndTime dayEndTime
       then while_ (offWorkingDay constraints) (nextDay constraints)
                   (nextDay constraints nextSlot)
       else mret nextSlot);
    let startTime := nextSlot in
    let endTime := add startTime taskDuration Minute in
    mret (<[memberName := add endTime 15 Minute]> memberSchedules,
          visited ++ [withScheduled task
                        {| start := startTime; end_ := endTime |}]).

Definition scheduleTasks (now : Z) (subtasks : list AISubtask) (dueDate : Z)
    (constraints : SchedulingConstraints) : M (list AISubtask) :=
  let currentDate := add now 1 Day in
  st ← forEach (scheduleTask currentDate constraints) subtasks (∅, []);
  mret st.2.

(** *** The fallback decomposition *)

Record Template := { tTitle : string; tDetails : string; tMinutes : Z }.

Definition taskTemplates : list Template :=
  [ {| tTitle := "Research and Planning";
       tDetails := "Initial research and planning phase"; tMinutes := 120 |};
    {| tTitle := "Analysis and Investigation";
       tDetails := "Detailed analysis of requirements"; tMinutes := 180 |};
    {| tTitle := "Development and Creation";
       tDetails := "Main development or creation work"; tMinutes := 240 |};
    {| tTitle := "Review and Testing";
       tDetails := "Quality review and testing"; tMinutes := 90 |};
    {| tTitle := "Documentation";
       tDetails := "Create documentation and reports"; tMinutes := 60 |};
    {| tTitle := "Finalization";
       tDetails := "Final review and polish"; tMinutes := 60 |} ].

(** [Partial<AISubtask>]: every field may be missing. *)
Record PartialSubtask := {
  pPart : option Z;
  pTitle : option string;
  pDetails : option string;
  pAssignee : option string;
  pEstimatedMinutes : option Z;
  pScheduled : option Scheduled
}.

(** The index [i % taskTemplates.length] is always in range. *)
Definition generatePartTasks (partNumber tasksPerPart : Z)
    (title description : string) : list PartialSubtask :=
  omap (fun i : Z =>
          template ← taskTemplates !! Z.to_nat (i mod Z.of_nat (length taskTemplates));
          Some {| pPart := Some partNumber;
                  pTitle := Some ("Part " +:+ pretty partNumber +:+ ": "
                                  +:+ tTitle template);
                  pDetails := Some (tDetails template +:+ " for " +:+ title);
                  pAssignee := None;
                  pEstimatedMinutes := Some (tMinutes template);
                  pScheduled := None |})
       (seqZ 0 tasksPerPart).

Definition rolePreferences (role : string) : option (list string) :=
  if String.eqb role "Research" then Some ["Research"; "Analysis"; "Investigation"]
  else if String.eqb role "Writing" then Some ["Documentation"; "Creation"; "Development"]
  else if String.eqb role "Review" then Some ["Review"; "Testing"; "Finalization"]
  else if String.eqb role "Analysis" then Some ["Analysis"; "Investigation"; "Research"]
  else if String.eqb role "Design" then Some ["Development"; "Creation"; "Planning"]
  else None.

(** The test of [for (const member of members)]: the member has a role of
    the table and one of its words occurs in the text of the task. *)
Definition prefers (taskText : string) (member : Member) : bool :=
  match role member with
  | Some r =>
      truthyStr r
      && match rolePreferences r with
         | Some preferences =>
             existsb (fun pref => includesStr taskText (toLowerCase pref))
                     preferences
         | None => false
         end
  | None => false
  end.

(** The member a task of a given index goes to; reading [name] of a member
    that does not exist throws. *)
Definition assignMember (members : list Member) (index : nat)
    (task : AISubtask) : outcome AISubtask :=
  match members !! (index mod length members)%nat with
  | None => Throws TypeError
  | Some roundRobin =>
      let assignedMember :=
        if truthyStr (title task) && truthyStr (details task) then
          let taskText := toLowerCase (title task +:+ " " +:+ details task) in
          default roundRobin (List.find (prefers taskText) members)
        else roundRobin in
      Done (withAssignee task (name assignedMember))
  end.

Fixpoint assignMembersFrom (members : list Member) (index : nat)
    (subtasks : list AISubtask) : outcome (list AISubtask) :=
  match subtasks with
  | [] => Done []
  | task :: rest =>
      match assignMember members index task with
      | Done task' =>
          match assignMembersFrom members (S index) rest with
          | Done rest' => Done (task' :: rest')
          | Throws e => Throws e
          | Timeout => Timeout
          end
      | Throws e => Throws e
      | Timeout => Timeout
      end
  end.

Definition assignMembersToTasks (subtasks : list AISubtask)
    (members : list Member) : outcome (list AISubtask) :=
  assignMembersFrom members 0 subtasks.

(** [task.assignee || members[0].name] and the other defaults of
    [completeTask]. *)
Definition completeTask (now : Z) (members : list Member) (part : Z)
    (task : PartialSubtask) : outcome AISubtask :=
  let withName (a : string) :=
    Done {| part := orZ (default 0 (pPart task)) part;
            title := orStr (default "" (pTitle task))
                           ("Part " +:+ pretty part +:+ " Task");
            details := orStr (default "" (pDetails task)) "No details provided";
            assignee := a;
            estimatedMinutes := orZ (default 0 (pEstimatedMinutes task)) 60;
            scheduled :=
              default {| start := add now 1 Day;
                         end_ := add (add now 1 Day) 1 Hour |}
                      (pScheduled task) |} in
  if truthyStr (default "" (pAssignee task))
  then withName (default "" (pAssignee task))
  else match members with
       | [] => Throws TypeError
       | m :: _ => withName (name m)
       end.

Fixpoint sequence {A : Type} (l : list (outcome A)) : outcome (list A) :=
  match l with
  | [] => Done []
  | Done a :: l' =>
      match sequence l' with
      | Done r => Done (a :: r)
      | Throws e => Throws e
      | Timeout => Timeout
      end
  | Throws e :: _ => Throws e
  | Timeout :: _ => Timeout
  end.

Definition lift {A : Type} (o : outcome A) : M A := fun fuel =>
  match o with
  | Done a => Done (a, fuel)
  | Throws e => Throws e
  | Timeout => Timeout
  end.

Definition generateFallbackPlan (now : Z) (input : PlanningInput)
    : M (list AISubtask) :=
  let parts := inParts input in
  let members := inMembers input in
  let tasksPerPart := Z.max 2 (8 / parts) in
  subtasks ← lift (sequence
    (mjoin ((fun part =>
               completeTask now members part
                 <$> generatePartTasks part tasksPerPart
                       (inTitle input) (inDescription input))
            <$> seqZ 1 parts)));
  subtasks ← lift (assignMembersToTasks subtasks members);
  scheduleTasks now subtasks (inDueDate input) (inConstraints input).

(** *** Reading the reply of the provider ([callGemini]) *)

(** [text.replace(/```json|```/gi, '')]: reading from the left, each code
    fence is dropped, with the word json after it when there is one, in any
    case of letters. [skip] counts the characters of a fence still to drop. *)
Fixpoint dropFencesFrom (skip : nat) (text : string) : string :=
  match text with
  | EmptyString => EmptyString
  | String c rest =>
      match skip with
      | S skip' => dropFencesFrom skip' rest
      | O =>
          if startsWith (toLowerCase text) "```json" then dropFencesFrom 6 rest
          else if startsWith text "```" then dropFencesFrom 2 rest
          else String c (dropFencesFrom 0 rest)
      end
  end.

Definition dropFences (text : string) : string := dropFencesFrom 0 text.

(** The white space and line terminators of [String.prototype.trim], as the
    bytes of their UTF-8 encoding: tab, line feed, vertical tab, form feed,
    carriage return and space; U+00A0, U+1680, U+2000 to U+200A, U+2028,
    U+2029, U+202F, U+205F, U+3000 and U+FEFF. *)
Definition bytes (l : list N) : string :=
  String.string_of_list_ascii (Ascii.ascii_of_N <$> l).

Definition whiteSpace : list string :=
  (bytes <$> [[9]; [10]; [11]; [12]; [13]; [32]; [194; 160]; [225; 154; 128];
              [226; 128; 168]; [226; 128; 169]; [226; 128; 175];
              [226; 129; 159]; [227; 128; 128]; [239; 187; 191]])%N
  ++ ((fun b => bytes [226; 128; b]%N) <$> [128; 129; 130; 131; 132; 133; 134;
                                            135; 136; 137; 138]%N).

Fixpoint skipChars (n : nat) (s : string) : string :=
  match n, s with
  | S n', String _ s' => skipChars n' s'
  | _, _ => s
  end.

Fixpoint endsWith (s p : string) : bool :=
  String.eqb s p
  || match s with
     | EmptyString => false
     | String _ s' => endsWith s' p
     end.

(** One round of [trimStart] drops one white space; [fuel] bounds the
    rounds by the length of the text. *)
Fixpoint trimStartWith (fuel : nat) (s : string) : string :=
  match fuel with
  | O => s
  | S fuel' =>
      match List.find (startsWith s) whiteSpace with
      | Some w => trimStartWith fuel' (skipChars (String.length w) s)
      | None => s
      end
  end.

Definition trimStart (s : string) : string := trimStartWith (String.length s) s.

Fixpoint trimEndWith (fuel : nat) (s : string) : string :=
  match fuel with
  | O => s
  | S fuel' =>
      match List.find (endsWith s) whiteSpace with
      | Some w =>
          trimEndWith fuel'
            (String.substring 0 (String.length s - String.length w) s)
      | None => s
      end
  end.

Definition trimEnd (s : string) : string := trimEndWith (String.length s) s.

Definition trim (s : string) : string := trimEnd (trimStart s).

(** The characters [{] and [}]. *)
Definition leftBrace : Ascii.ascii := Ascii.ascii_of_N 123.
Definition rightBrace : Ascii.ascii := Ascii.ascii_of_N 125.

(** [text.indexOf('{')]. *)
Fixpoint indexOfBrace (s : string) : option nat :=
  match s with
  | EmptyString => None
  | String c s' => if Ascii.eqb c leftBrace then Some O else S <$> indexOfBrace s'
  end.

(** The loop over [text[i]]: [open] counts the braces that are open, and the
    result is the number of characters read when it comes back to 0. *)
Fixpoint matchBraces (s : string) (open : Z) : option nat :=
  match s with
  | EmptyString => None
  | String c s' =>
      let open := if Ascii.eqb c leftBrace then open + 1 else open in
      let open := if Ascii.eqb c rightBrace then open - 1 else open in
      if open =? 0 then Some 1%nat else S <$> matchBraces s' open
  end.

Definition extractFirstJSONObject (text : string) : option string :=
  let text := trim (dropFences text) in
  match indexOfBrace text with
  | None => None
  | Some start =>
      match matchBraces (skipChars start text) 0 with
      | Some len => Some (String.substring start len text)
      | None => None
      end
  end.

Section Provider.

(** [JSON.parse], read as a plan: [None] when the text is not JSON. *)
Variable jsonParse : string -> option RawPlanResponse.
Variable parseDate : string -> option Z.

(** The end of [callGemini], from the text of the reply on. *)
Definition readContent (content : string) : outcome RawPlanResponse :=
  if negb (truthyStr content) then Throws AIServiceError
  else
    match extractFirstJSONObject content with
    | None => Throws AIServiceError
    | Some jsonString =>
        match jsonParse jsonString with
        | Some response => Done response
        | None => Throws AIServiceError
        end
    end.

(** [generatePlan]; [reply] is what the request to the provider gave: the
    text of its first candidate, a failure (no connection, a status that is
    not ok, a reply without a text), or nothing as long as one waits.
    Whatever is thrown on the way leads to the fallback plan. *)
Definition generatePlan (apiKey : string) (reply : outcome string) (now : Z)
    (input : PlanningInput) : M (list AISubtask) :=
  if negb (truthyStr apiKey) then generateFallbackPlan now input
  else
    let aiResponse :=
      match reply with
      | Done content => readContent content
      | Throws e => Throws e
      | Timeout => Timeout
      end in
    let plan :=
      match aiResponse with
      | Done response => validateAndRepairPlan parseDate now response input
      | Throws e => Throws e
      | Timeout => Timeout
      end in
    match plan with
    | Done subtasks => mret subtasks
    | Throws _ => generateFallbackPlan now input
    | Timeout => fun _ => Timeout
    end.

End Provider.

End AIPlanner.

(** ** The routes that call the planner ([routes/ai.ts]) *)

Module Routes.

(** The constraints of a request: any field may be missing. *)
Record RawConstraints := {
  rWorkHoursPerDay : option Z;
  rStartHour : option Z;
  rEndHour : option Z;
  rDaysOfWeek : option (list Z)
}.

(** [constraints?.startHour || 9] and the like: a number that is missing or
    0 gives way to the default; an array, even empty, is kept. *)
Definition withDefaults (constraints : option RawConstraints)
    : SchedulingConstraints :=
  {| workHoursPerDay :=
       orZ (default 0 (constraints ≫= rWorkHoursPerDay)) 6;
     startHour := orZ (default 0 (constraints ≫= rStartHour)) 9;
     endHour := orZ (default 0 (constraints ≫= rEndHour)) 18;
     daysOfWeek := default [1; 2; 3; 4; 5] (constraints ≫= rDaysOfWeek) |}.

(** What a handler answers: the body of a reply with status 200, or the
    message of a [ValidationError] (status 400) or of any other error
    (status 500). *)
Inductive response (A : Type) :=
| Json (a : A)
| BadRequest (message : string)
| ServerError (message : string).

Arguments Json {A} a.
Arguments BadRequest {A} message.
Arguments ServerError {A} message.

(** [try { ... } catch (error) { res.status(500) ... }], for the errors that
    are no [ValidationError]. *)
Definition orServerError {A : Type} (message : string) (m : M (response A))
    : M (response A) :=
  fun fuel =>
    match m fuel with
    | Throws _ => Done (ServerError message, fuel)
    | r => r
    end.

(** [new Set(subtasks.map(t => t.assignee)).size]. *)
Definition distinctAssignees (subtasks : list AISubtask) : Z :=
  Z.of_nat (length (remove_dups (assignee <$> subtasks))).

(** [POST /reschedule]: [subtasks] is [None] when the body holds no array,
    [dueDate] when it holds no due date; [parseDate] is [dayjs(dueDate)].
    The clock is read twice: [now] when the tasks are placed, [later] when
    the hours are counted. *)
Definition reschedule (parseDate : string -> option Z) (now later : Z)
    (subtasks : option (list AISubtask)) (dueDate : option string)
    (constraints : option RawConstraints)
    : M (response (list AISubtask * Scheduler.FeasibilityReport)) :=
  orServerError "Failed to reschedule tasks"
    match subtasks with
    | None | Some [] => mret (BadRequest "Subtasks array is required")
    | Some subtasks =>
        if negb (truthyStr (default "" dueDate))
        then mret (BadRequest "Due date is required")
        else
          match parseDate (default "" dueDate) with
          | None => mret (BadRequest "Invalid due date format")
          | Some dueDateObj =>
              let schedulingConstraints := withDefaults constraints in
              rescheduledTasks ←
                Scheduler.rescheduleTasks now subtasks dueDateObj
                  schedulingConstraints;
              feasibility ←
                Scheduler.validateScheduleFeasibility later rescheduledTasks
                  dueDateObj schedulingConstraints
                  (distinctAssignees subtasks);
              mret (Json (rescheduledTasks, feasibility))
          end
    end.

End Routes.
(** * Properties *)

(** ** Facts about instants *)

Section DayjsFacts.

Lemma clock_face t :
  t = MS_DAY * dayNumber t + MS_HOUR * hour t + MS_MINUTE * minute t
      + MS_SECOND * second t + millisecond t
  /\ 0 <= hour t < 24 /\ 0 <= minute t < 60 /\ 0 <= second t < 60
  /\ 0 <= millisecond t < 1000.
Proof.
  unfold dayNumber, hour, minute, second, millisecond,
    MS_DAY, MS_HOUR, MS_MINUTE, MS_SECOND.
  Z.to_euclidean_division_equations. lia.
Qed.

Lemma clock_face_unique t d h m s ms :
  t = MS_DAY * d + MS_HOUR * h + MS_MINUTE * m + MS_SECOND * s + ms ->
  0 <= h < 24 -> 0 <= m < 60 -> 0 <= s < 60 -> 0 <= ms < 1000 ->
  dayNumber t = d /\ hour t = h /\ minute t = m /\ second t = s
  /\ millisecond t = ms.
Proof.
  unfold dayNumber, hour, minute, second, millisecond,
    MS_DAY, MS_HOUR, MS_MINUTE, MS_SECOND.
  intros -> Hh Hm Hs Hms.
  Z.to_euclidean_division_equations. lia.
Qed.

End DayjsFacts.

Section AtHourFacts.

Lemma atHour_eq t h :
  0 <= h < 24 ->
  atHour t h = MS_DAY * dayNumber t + MS_HOUR * h + millisecond t.
Proof.
  intros Hh. unfold atHour.
  destruct (clock_face t) as (Ht & H1 & H2 & H3 & H4).
  assert (E1 : setHour t h = MS_DAY * dayNumber t + MS_HOUR * h
               + MS_MINUTE * minute t + MS_SECOND * second t + millisecond t)
    by (unfold setHour; lia).
  destruct (clock_face_unique _ _ _ _ _ _ E1 Hh H2 H3 H4) as (_ & _ & Em & Es & _).
  assert (E2 : setMinute (setHour t h) 0 = MS_DAY * dayNumber t + MS_HOUR * h
               + MS_MINUTE * 0 + MS_SECOND * second t + millisecond t)
    by (unfold setMinute; rewrite Em; lia).
  destruct (clock_face_unique _ _ _ _ _ _ E2 Hh ltac:(lia) H3 H4)
    as (_ & _ & _ & Es' & _).
  unfold setSecond. rewrite Es'. lia.
Qed.

Lemma atHour_fields t h :
  0 <= h < 24 ->
  dayNumber (atHour t h) = dayNumber t /\ hour (atHour t h) = h
  /\ minute (atHour t h) = 0 /\ second (atHour t h) = 0
  /\ millisecond (atHour t h) = millisecond t.
Proof.
  intros Hh. destruct (clock_face t) as (_ & _ & _ & _ & H4).
  apply clock_face_unique; try lia. rewrite atHour_eq by done. lia.
Qed.

Lemma atHour_day t h : 0 <= h < 24 -> day (atHour t h) = day t.
Proof.
  intros Hh. unfold day.
  by destruct (atHour_fields t h Hh) as (-> & _).
Qed.

Lemma add_day_fields t :
  dayNumber (add t 1 Day) = dayNumber t + 1 /\ hour (add t 1 Day) = hour t
  /\ minute (add t 1 Day) = minute t /\ second (add t 1 Day) = second t
  /\ millisecond (add t 1 Day) = millisecond t.
Proof.
  destruct (clock_face t) as (Ht & H1 & H2 & H3 & H4).
  apply clock_face_unique; try lia. unfold add, unitMs. lia.
Qed.

Lemma add_day_day t : day (add t 1 Day) = (day t + 1) mod 7.
Proof.
  unfold day. destruct (add_day_fields t) as (-> & _).
  rewrite Zplus_mod_idemp_l. f_equal. lia.
Qed.

(** Putting the clock forward to a later hour of the same day. *)
Lemma atHour_later t h : 0 <= h < 24 -> hour t < h -> t <= atHour t h.
Proof.
  intros Hh Hlt. rewrite atHour_eq by done.
  destruct (clock_face t) as (Ht & H1 & H2 & H3 & H4).
  unfold MS_DAY, MS_HOUR, MS_MINUTE, MS_SECOND in *. lia.
Qed.

(** The next day at any hour is after every instant of this day. *)
Lemma next_day_later t h : 0 <= h < 24 -> t < atHour (add t 1 Day) h.
Proof.
  intros Hh. rewrite atHour_eq by done.
  destruct (add_day_fields t) as (-> & _ & _ & _ & ->).
  destruct (clock_face t) as (Ht & H1 & H2 & H3 & H4).
  unfold MS_DAY, MS_HOUR, MS_MINUTE, MS_SECOND in *. lia.
Qed.

Lemma day_range t : 0 <= day t < 7.
Proof. unfold day. apply Z.mod_pos_bound. lia. Qed.

End AtHourFacts.

(** ** The fuel monad *)

Section MonadFacts.

Context {A B S : Type}.

Lemma bind_Done (m : M A) (k : A -> M B) fuel r :
  (m ≫= k) fuel = Done r ->
  exists a fuel1, m fuel = Done (a, fuel1) /\ k a fuel1 = Done r.
Proof.
  unfold mbind, M_bind. destruct (m fuel) as [[a f1]| |]; [eauto | done..].
Qed.

Lemma bind_run (m : M A) (k : A -> M B) fuel a fuel1 :
  m fuel = Done (a, fuel1) -> (m ≫= k) fuel = k a fuel1.
Proof. unfold mbind, M_bind. by intros ->. Qed.

(** An invariant of the body holds when the loop is left, with the test
    false; and a loop only burns fuel. *)
Lemma while_inv (P : S -> Prop) (cond : S -> bool) (body : S -> S) :
  (forall s, P s -> cond s = true -> P (body s)) ->
  forall fuel s r fuel',
    P s -> while_ cond body s fuel = Done (r, fuel') ->
    P r /\ cond r = false /\ (fuel' <= fuel)%nat.
Proof.
  intros Hstep. induction fuel as [|fuel IH]; intros s r fuel' Hs; simpl;
    destruct (cond s) eqn:Hc; try done.
  - intros [= <- <-]. auto.
  - intros Hrun. destruct (IH _ _ _ (Hstep _ Hs Hc) Hrun) as (? & ? & ?).
    repeat split; auto with lia.
  - intros [= <- <-]. auto.
Qed.

(** A loop whose test fails after [k] rounds of the body stops after at
    most [k] rounds, and burns one unit for each. *)
Lemma while_within (cond : S -> bool) (body : S -> S) (k : nat) :
  forall s fuel,
    cond (Nat.iter k body s) = false -> (k <= fuel)%nat ->
    exists j, (j <= k)%nat
              /\ while_ cond body s fuel
                 = Done (Nat.iter j body s, (fuel - j)%nat)
              /\ cond (Nat.iter j body s) = false.
Proof.
  induction k as [|k IH]; intros s fuel Hk Hfuel.
  - simpl in Hk. exists 0%nat. rewrite Nat.sub_0_r. simpl.
    destruct fuel; simpl; rewrite Hk; auto.
  - destruct (cond s) eqn:Hc.
    + destruct fuel as [|fuel]; [lia|]. simpl. rewrite Hc.
      rewrite Nat.iter_succ_r in Hk.
      destruct (IH (body s) fuel Hk ltac:(lia)) as (j & Hj & -> & Hcj).
      exists (Datatypes.S j). rewrite Nat.iter_succ_r. auto with lia.
    + exists 0%nat. rewrite Nat.sub_0_r. simpl.
      destruct fuel; simpl; rewrite Hc; auto with lia.
Qed.

End MonadFacts.

(** ** Constraints *)

(** The invariants of a constraint set: hours of the day with
    [startHour < endHour], and a non-empty set of days of the week. *)
Definition validConstraints (c : SchedulingConstraints) : Prop :=
  0 <= startHour c /\ startHour c < endHour c /\ endHour c <= 23
  /\ daysOfWeek c <> [] /\ Forall (fun d => 0 <= d <= 6) (daysOfWeek c).

Section WorkingDays.

Variable c : SchedulingConstraints.
Hypothesis Hvalid : validConstraints c.

Lemma startHour_range : 0 <= startHour c < 24.
Proof. destruct Hvalid as (? & ? & ? & _). lia. Qed.

Lemma nextDay_day s : day (AIPlanner.nextDay c s) = (day s + 1) mod 7.
Proof.
  unfold AIPlanner.nextDay. rewrite atHour_day by apply startHour_range.
  apply add_day_day.
Qed.

Lemma nextDay_iter_day k s :
  day (Nat.iter k (AIPlanner.nextDay c) s) = (day s + Z.of_nat k) mod 7.
Proof.
  induction k as [|k IH].
  - simpl. rewrite Z.add_0_r. symmetry. apply Z.mod_small, day_range.
  - rewrite Nat.iter_succ, nextDay_day, IH, Zplus_mod_idemp_l.
    f_equal. lia.
Qed.

(** Within six days of any instant there is a working day. *)
Lemma working_day_within s :
  exists k, (k <= 6)%nat
            /\ includes (daysOfWeek c)
                 (day (Nat.iter k (AIPlanner.nextDay c) s)) = true.
Proof.
  destruct Hvalid as (_ & _ & _ & Hne & Hall).
  destruct (daysOfWeek c) as [|d ds] eqn:E; [done|].
  apply Forall_cons in Hall as [Hd _].
  pose proof (day_range s) as Hs.
  exists (Z.to_nat ((d - day s) mod 7)).
  pose proof (Z.mod_pos_bound (d - day s) 7 ltac:(lia)) as Hb.
  split; [lia|].
  rewrite nextDay_iter_day, Z2Nat.id by lia.
  rewrite Zplus_mod_idemp_r.
  replace (day s + (d - day s)) with d by lia.
  rewrite Z.mod_small by lia.
  unfold includes. apply bool_decide_eq_true. left.
Qed.

End WorkingDays.

(** ** The scheduler: one slot *)

Section FindNextWorkingSlot.

Variable c : SchedulingConstraints.
Hypothesis Hvalid : validConstraints c.

Let inWindow (s : Z) : Prop := startHour c <= hour s < endHour c.

Lemma nextDay_hour s : hour (AIPlanner.nextDay c s) = startHour c.
Proof.
  unfold AIPlanner.nextDay.
  by destruct (atHour_fields (add s 1 Day) _ (startHour_range c Hvalid))
    as (_ & -> & _).
Qed.

Lemma nextDay_inWindow s : inWindow (AIPlanner.nextDay c s).
Proof.
  unfold inWindow. rewrite nextDay_hour.
  destruct Hvalid as (? & ? & _). lia.
Qed.

Lemma nextDay_later s : s < AIPlanner.nextDay c s.
Proof. apply next_day_later, startHour_range, Hvalid. Qed.

(** The slot found is not before the instant asked for, its hour is in the
    working window, and its day is a working day unless the search reached
    the due date. Six units of fuel are enough. *)
Lemma findNextWorkingSlot_total s dueDate fuel :
  (6 <= fuel)%nat ->
  exists r fuel',
    Scheduler.findNextWorkingSlot s dueDate c fuel = Done (r, fuel')
    /\ (fuel' <= fuel <= fuel' + 6)%nat
    /\ s <= r /\ inWindow r
    /\ (includes (daysOfWeek c) (day r) = true \/ dueDate <= r).
Proof.
  intros Hfuel. unfold Scheduler.findNextWorkingSlot.
  set (s0 := if hour s <? startHour c then _ else _).
  assert (Hs0 : s <= s0 /\ inWindow s0).
  { subst s0. destruct (Z.ltb_spec (hour s) (startHour c)) as [Hlt|Hge].
    - split; [apply atHour_later; [apply startHour_range, Hvalid | done]|].
      unfold inWindow.
      destruct (atHour_fields s _ (startHour_range c Hvalid)) as (_ & -> & _).
      destruct Hvalid as (? & ? & _). lia.
    - destruct (Z.leb_spec (endHour c) (hour s)) as [Hle|Hlt].
      + split; [|apply nextDay_inWindow].
        pose proof (nextDay_later s) as Hl. unfold AIPlanner.nextDay in Hl. lia.
      + unfold inWindow. lia. }
  change (fun slot => atHour (add slot 1 Day) (startHour c))
    with (AIPlanner.nextDay c).
  set (cond := fun slot => _ && _).
  destruct (working_day_within c Hvalid s0) as (k & Hk & Hday).
  destruct (while_within cond (AIPlanner.nextDay c) k s0 fuel)
    as (j & Hj & Hrun & _).
  { subst cond. simpl. by rewrite Hday. }
  { lia. }
  eexists _, _. split; [exact Hrun|].
  assert (Hstep : forall x, (s <= x /\ inWindow x) -> cond x = true ->
                        s <= AIPlanner.nextDay c x
                        /\ inWindow (AIPlanner.nextDay c x)).
  { intros x [? _] _. split; [pose proof (nextDay_later x); lia|].
    apply nextDay_inWindow. }
  destruct (while_inv _ cond _ Hstep _ _ _ _ Hs0 Hrun) as ((? & ?) & Hc & ?).
  split; [lia|]. split; [done|]. split; [done|].
  subst cond. simpl in Hc. apply andb_false_iff in Hc as [Hc|Hc].
  - left. by apply negb_false_iff.
  - right. unfold isBefore in Hc. lia.
Qed.

End FindNextWorkingSlot.

(** ** The scheduling passes: what a pass leaves behind *)

Definition startOf (t : AISubtask) : Z := start (scheduled t).
Definition endOf (t : AISubtask) : Z := end_ (scheduled t).

(** A task the fallback pass leaves alone: no assignee or no duration. *)
Definition unplaced (t : AISubtask) : bool :=
  negb (truthyStr (assignee t)) || negb (truthyZ (estimatedMinutes t)).

(** The trace of the cursors: each task a pass places starts at or after the
    cursor of its assignee, and moves it to a quarter of an hour after its
    end. *)
Fixpoint chained (skip : AISubtask -> bool) (cursors : gmap string Z)
    (l : list AISubtask) : Prop :=
  match l with
  | [] => True
  | t :: l' =>
      if skip t then chained skip cursors l'
      else (forall cur, cursors !! assignee t = Some cur -> cur <= startOf t)
           /\ chained skip (<[assignee t := add (endOf t) 15 Minute]> cursors) l'
  end.

(** Tasks of one member, in the order of the list, are a quarter of an hour
    apart. *)
Definition separated (skip : AISubtask -> bool) (l : list AISubtask) : Prop :=
  forall (i j : nat) a b,
    (i < j)%nat -> l !! i = Some a -> l !! j = Some b ->
    skip a = false -> skip b = false -> assignee a = assignee b ->
    add (endOf a) 15 Minute <= startOf b.

Section Chained.

Variable skip : AISubtask -> bool.

Lemma chained_bounds l : forall cursors,
  chained skip cursors l ->
  Forall (fun t => skip t = false -> startOf t <= endOf t) l ->
  (forall b cur, b ∈ l -> skip b = false ->
                 cursors !! assignee b = Some cur -> cur <= startOf b)
  /\ separated skip l.
Proof.
  induction l as [|t l IH]; intros cursors Hch Hpos.
  - split; [intros b cur Hb; by apply elem_of_nil in Hb|].
    intros i j a b _ Hi. by rewrite lookup_nil in Hi.
  - apply Forall_cons in Hpos as [Ht Hpos]. simpl in Hch.
    destruct (skip t) eqn:Hskip.
    + destruct (IH _ Hch Hpos) as [Hb Hsep]. split.
      * intros b cur [->|Hin]%elem_of_cons; [congruence | eauto].
      * intros [|i] [|j] a b Hij; simpl; try lia.
        -- intros [= <-]. congruence.
        -- intros Ha Hbj. eapply Hsep; [|done..]. lia.
    + destruct Hch as [Hcur Hch]. specialize (Ht eq_refl).
      destruct (IH _ Hch Hpos) as [Hb Hsep].
      assert (Hafter : forall b, b ∈ l -> skip b = false ->
                assignee b = assignee t -> add (endOf t) 15 Minute <= startOf b).
      { intros b Hin Hsb Hab. apply (Hb b _ Hin Hsb).
        rewrite Hab. apply lookup_insert_eq. }
      split.
      * intros b cur [->|Hin]%elem_of_cons Hsb Hlk; [by apply Hcur|].
        destruct (decide (assignee b = assignee t)) as [Hab|Hab].
        -- specialize (Hafter b Hin Hsb Hab). rewrite Hab in Hlk.
           specialize (Hcur _ Hlk). unfold add, unitMs, MS_MINUTE in *. lia.
        -- apply (Hb b cur Hin Hsb). by rewrite lookup_insert_ne.
      * intros [|i] [|j] a b Hij; simpl; try lia.
        -- intros [= <-] Hbj _ Hsb Hab. apply Hafter; [|done..].
           apply list_elem_of_lookup. eauto.
        -- intros Ha Hbj. eapply Hsep; [|done..]. lia.
Qed.

End Chained.

(** ** The fallback pass: the search for a working day *)

Section ToWorkingDay.

Variable c : SchedulingConstraints.
Hypothesis Hvalid : validConstraints c.

Lemma nextDay_iter_later k s : s <= Nat.iter k (AIPlanner.nextDay c) s.
Proof.
  induction k as [|k IH]; simpl; [lia|].
  pose proof (nextDay_later c Hvalid (Nat.iter k (AIPlanner.nextDay c) s)). lia.
Qed.

(** The loop stops within six days, on a working day that is not before
    the instant it started from. *)
Lemma toWorkingDay_total s fuel :
  (6 <= fuel)%nat ->
  exists j, (j <= 6)%nat
    /\ while_ (AIPlanner.offWorkingDay c) (AIPlanner.nextDay c) s fuel
       = Done (Nat.iter j (AIPlanner.nextDay c) s, (fuel - j)%nat)
    /\ includes (daysOfWeek c)
         (day (Nat.iter j (AIPlanner.nextDay c) s)) = true
    /\ (includes (daysOfWeek c) (day s) = true -> j = 0%nat).
Proof.
  intros Hfuel.
  destruct (working_day_within c Hvalid s) as (k & Hk & Hday).
  destruct (while_within (AIPlanner.offWorkingDay c) (AIPlanner.nextDay c)
              k s fuel) as (j & Hj & Hrun & Hc).
  { unfold AIPlanner.offWorkingDay. by rewrite Hday. }
  { lia. }
  exists j. split; [lia|]. split; [done|]. split.
  - unfold AIPlanner.offWorkingDay in Hc. by apply negb_false_iff.
  - intros Hs. destruct j as [|j]; [done|]. exfalso.
    destruct fuel as [|fuel]; [lia|]. simpl in Hrun.
    unfold AIPlanner.offWorkingDay at 1 in Hrun. rewrite Hs in Hrun.
    simpl in Hrun. injection Hrun as _ Hf. lia.
Qed.

End ToWorkingDay.

(** ** [Scheduler.rescheduleTasks] *)

Section Sorting.

Context {A : Type} (cmp : A -> A -> Z).

Lemma insertBy_perm x l : insertBy cmp x l ≡ₚ x :: l.
Proof.
  induction l as [|y l IH]; simpl; [done|].
  destruct (cmp x y <=? 0); [done|]. rewrite IH. apply Permutation_swap.
Qed.

Lemma sort_perm l : sort cmp l ≡ₚ l.
Proof.
  induction l as [|x l IH]; simpl; [done|].
  unfold sort in *. simpl. by rewrite insertBy_perm, IH.
Qed.

Lemma sort_length l : length (sort cmp l) = length l.
Proof. by rewrite sort_perm. Qed.

(** With a comparator that is total and transitive the result is in order. *)
Hypothesis cmp_total : forall a b, 0 < cmp a b -> cmp b a <= 0.
Hypothesis cmp_trans : forall a b d, cmp a b <= 0 -> cmp b d <= 0 -> cmp a d <= 0.

Lemma insertBy_sorted x l :
  StronglySorted (fun a b => cmp a b <= 0) l ->
  StronglySorted (fun a b => cmp a b <= 0) (insertBy cmp x l).
Proof.
  induction 1 as [|y l Hl IH Hy]; simpl; [repeat constructor|].
  destruct (Z.leb_spec (cmp x y) 0) as [Hxy|Hxy].
  - constructor; [by constructor|]. constructor; [done|].
    eapply Forall_impl; [exact Hy|]. intros z Hz. by eapply cmp_trans.
  - constructor; [done|]. rewrite insertBy_perm. constructor; [|done].
    by apply cmp_total.
Qed.

Lemma sort_sorted l : StronglySorted (fun a b => cmp a b <= 0) (sort cmp l).
Proof.
  induction l as [|x l IH]; [constructor|]. by apply insertBy_sorted.
Qed.

End Sorting.

(** The tasks are visited by part, and by decreasing duration in a part. *)
Lemma sortedTasks_in_order subtasks :
  StronglySorted (fun a b => Scheduler.byPartThenLongest a b <= 0)
    (sort Scheduler.byPartThenLongest subtasks).
Proof.
  apply sort_sorted; unfold Scheduler.byPartThenLongest.
  - intros a b. destruct (Z.eqb_spec (part a) (part b)) as [E|E];
      destruct (Z.eqb_spec (part b) (part a)); simpl; lia.
  - intros a b d. destruct (Z.eqb_spec (part a) (part b));
      destruct (Z.eqb_spec (part b) (part d));
      destruct (Z.eqb_spec (part a) (part d)); simpl; lia.
Qed.

(** What the pass writes into a task: a start and the end that follows from
    the duration; nothing else changes. *)
Definition slotted (task t' : AISubtask) : Prop :=
  t' = withScheduled task
         {| start := startOf t';
            end_ := add (startOf t') (estimatedMinutes task) Minute |}.

Lemma slotted_end task t' :
  slotted task t' ->
  endOf t' = add (startOf t') (estimatedMinutes t') Minute
  /\ assignee t' = assignee task /\ estimatedMinutes t' = estimatedMinutes task.
Proof. intros H. unfold endOf. by rewrite H. Qed.

Section Reschedule.

Variables (c : SchedulingConstraints) (startDate dueDate : Z).

Let step := Scheduler.rescheduleTask startDate dueDate c.

(** Whatever the constraints, a pass that returns has written consistent
    slots into the tasks in the order it visited them. *)
Lemma reschedule_loop_shape tasks : forall cursors out fuel cursors' out2 fuel',
  forEach step tasks (cursors, out) fuel = Done ((cursors', out2), fuel') ->
  exists out', out2 = out ++ out' /\ Forall2 slotted tasks out'.
Proof.
  induction tasks as [|task tasks IH]; intros cursors out fuel cursors' out2 fuel'.
  - simpl. intros [= <- <- <-]. exists []. by rewrite app_nil_r.
  - simpl. intros Hrun. apply bind_Done in Hrun as ([cs1 out1] & f1 & Hstep & Hrun).
    subst step. unfold Scheduler.rescheduleTask in Hstep.
    apply bind_Done in Hstep as (slot & f0 & _ & Hret).
    injection Hret as <- <- <-.
    apply IH in Hrun as (out' & -> & Hall).
    eexists (_ :: out'). rewrite <- app_assoc. split; [done|].
    by constructor.
Qed.

Hypothesis Hvalid : validConstraints c.

Definition inWorkingWindow (t : AISubtask) : Prop :=
  startHour c <= hour (startOf t) < endHour c.

Definition onWorkingDay (t : AISubtask) : Prop :=
  day (startOf t) ∈ daysOfWeek c.

Lemma reschedule_loop tasks : forall cursors out fuel,
  (6 * length tasks <= fuel)%nat ->
  exists cursors' out' fuel',
    forEach step tasks (cursors, out) fuel = Done ((cursors', out ++ out'), fuel')
    /\ (fuel' <= fuel <= fuel' + 6 * length tasks)%nat
    /\ Forall2 slotted tasks out'
    /\ Forall (fun t => inWorkingWindow t
                        /\ (onWorkingDay t \/ dueDate <= startOf t)) out'
    /\ chained (fun _ => false) cursors out'.
Proof.
  induction tasks as [|task tasks IH]; intros cursors out fuel Hfuel.
  - exists cursors, [], fuel. rewrite app_nil_r. simpl. auto with lia.
  - simpl in Hfuel.
    set (from := default (atHour startDate (startHour c))
                         (cursors !! assignee task)).
    destruct (findNextWorkingSlot_total c Hvalid from dueDate fuel)
      as (slot & f1 & Hslot & Hf1 & Hfrom & Hwin & Hday); [lia|].
    set (t' := withScheduled task
                 {| start := slot;
                    end_ := add slot (estimatedMinutes task) Minute |}).
    destruct (IH (<[assignee task := add (endOf t') 15 Minute]> cursors)
                 (out ++ [t']) f1) as (cs' & out' & f' & Hrun & Hf' & Hsl & Hok & Hch);
      [lia|].
    exists cs', (t' :: out'), f'.
    split; [|split; [simpl; lia|split; [by constructor|split]]].
    + simpl. subst step. unfold Scheduler.rescheduleTask at 1.
      fold from. erewrite bind_run; [|erewrite bind_run; [|exact Hslot]; done].
      etrans; [exact Hrun|]. by rewrite <- app_assoc.
    + constructor; [|done]. split; [exact Hwin|].
      destruct Hday as [Hday|Hdue]; [left|by right].
      by apply bool_decide_eq_true in Hday.
    + simpl. split; [|exact Hch].
      intros cur Hcur. subst from. simpl in Hfrom. rewrite Hcur in Hfrom.
      exact Hfrom.
Qed.

End Reschedule.

(** ** The fallback pass [AIPlanner.scheduleTasks] *)

Section FallbackPass.

Variables (c : SchedulingConstraints) (currentDate : Z).

Let step := AIPlanner.scheduleTask currentDate c.

(** What the pass leaves in the place of a task. *)
Definition visitedAs (task t' : AISubtask) : Prop :=
  if unplaced task then t' = task else slotted task t'.

Lemma visitedAs_unplaced task t' :
  visitedAs task t' -> unplaced t' = unplaced task.
Proof.
  unfold visitedAs. destruct (unplaced task) eqn:E; [by intros ->|].
  intros H. unfold unplaced in *. by rewrite H.
Qed.

Lemma scheduleTasks_loop_shape tasks : forall cursors out fuel cursors' out2 fuel',
  forEach step tasks (cursors, out) fuel = Done ((cursors', out2), fuel') ->
  exists out', out2 = out ++ out' /\ Forall2 visitedAs tasks out'.
Proof.
  induction tasks as [|task tasks IH]; intros cursors out fuel cursors' out2 fuel'.
  - simpl. intros [= <- <- <-]. exists []. by rewrite app_nil_r.
  - simpl. intros Hrun.
    apply bind_Done in Hrun as ([cs1 out1] & f1 & Hstep & Hrun).
    apply IH in Hrun as (out' & -> & Hall).
    subst step. unfold AIPlanner.scheduleTask in Hstep.
    fold (unplaced task) in Hstep.
    destruct (unplaced task) eqn:Hun.
    + injection Hstep as <- <- <-. exists (task :: out').
      rewrite <- app_assoc. split; [done|]. constructor; [|done].
      unfold visitedAs. by rewrite Hun.
    + apply bind_Done in Hstep as (s1 & f2 & _ & Hstep).
      apply bind_Done in Hstep as (s2 & f3 & _ & Hret).
      injection Hret as <- <- <-.
      eexists (_ :: out'). rewrite <- app_assoc. split; [done|].
      constructor; [|done]. unfold visitedAs. by rewrite Hun.
Qed.

Hypothesis Hvalid : validConstraints c.

(** One placed task: the slot is a working day at or after the cursor of
    the member; it is the first working day from the cursor when the task
    ends by the end of that day. *)
Lemma scheduleTask_total cursors out task fuel :
  (12 <= fuel)%nat -> unplaced task = false ->
  let from := default (atHour currentDate (startHour c))
                      (cursors !! assignee task) in
  exists slot fuel' j,
    step (cursors, out) task fuel
    = Done ((<[assignee task :=
                 add (add slot (estimatedMinutes task) Minute) 15 Minute]> cursors,
             out ++ [withScheduled task
                       {| start := slot;
                          end_ := add slot (estimatedMinutes task) Minute |}]),
            fuel')
    /\ (fuel' <= fuel <= fuel' + 12)%nat
    /\ from <= slot
    /\ includes (daysOfWeek c) (day slot) = true
    /\ (j <= 6)%nat
    /\ (includes (daysOfWeek c) (day from) = true -> j = 0%nat)
    /\ (isAfter (add (Nat.iter j (AIPlanner.nextDay c) from)
                     (estimatedMinutes task) Minute)
                (setHour (Nat.iter j (AIPlanner.nextDay c) from) (endHour c))
        = false ->
        slot = Nat.iter j (AIPlanner.nextDay c) from).
Proof.
  intros Hfuel Hun from.
  destruct (toWorkingDay_total c Hvalid from fuel) as (j & Hj & Hrun1 & Hd1 & Hj0);
    [lia|].
  set (s1 := Nat.iter j (AIPlanner.nextDay c) from) in *.
  assert (Hs1 : from <= s1) by apply (nextDay_iter_later c Hvalid).
  subst step. unfold AIPlanner.scheduleTask. fold (unplaced task).
  rewrite Hun. fold from.
  destruct (isAfter (add s1 (estimatedMinutes task) Minute)
                    (setHour s1 (endHour c))) eqn:Hafter.
  - destruct (toWorkingDay_total c Hvalid (AIPlanner.nextDay c s1) (fuel - j))
      as (j2 & Hj2 & Hrun2 & Hd2 & _); [lia|].
    set (s2 := Nat.iter j2 (AIPlanner.nextDay c) (AIPlanner.nextDay c s1)) in *.
    exists s2, (fuel - j - j2)%nat, j.
    split_and!; try done; try lia.
    + erewrite bind_run; [|exact Hrun1]. rewrite Hafter.
      erewrite bind_run; [|exact Hrun2]. done.
    + pose proof (nextDay_iter_later c Hvalid j2 (AIPlanner.nextDay c s1)) as Hl.
      pose proof (nextDay_later c Hvalid s1). fold s2 in Hl. lia.
    + fold s1. congruence.
  - exists s1, (fuel - j)%nat, j.
    split_and!; try done; try lia.
    erewrite bind_run; [|exact Hrun1]. rewrite Hafter. done.
Qed.

Lemma scheduleTasks_loop tasks : forall cursors out fuel,
  (12 * length tasks <= fuel)%nat ->
  exists cursors' out' fuel',
    forEach step tasks (cursors, out) fuel = Done ((cursors', out ++ out'), fuel')
    /\ (fuel' <= fuel <= fuel' + 12 * length tasks)%nat
    /\ Forall2 visitedAs tasks out'
    /\ Forall (fun t => unplaced t = false -> onWorkingDay c t) out'
    /\ chained unplaced cursors out'.
Proof.
  induction tasks as [|task tasks IH]; intros cursors out fuel Hfuel.
  - exists cursors, [], fuel. rewrite app_nil_r. simpl. auto with lia.
  - simpl in Hfuel. destruct (unplaced task) eqn:Hun.
    + destruct (IH cursors (out ++ [task]) fuel)
        as (cs' & out' & f' & Hrun & Hf' & Hsl & Hok & Hch); [lia|].
      exists cs', (task :: out'), f'.
      split; [|split; [simpl; lia|split; [|split]]].
      * simpl. subst step. unfold AIPlanner.scheduleTask at 1.
        fold (unplaced task). rewrite Hun.
        etrans; [exact Hrun|]. by rewrite <- app_assoc.
      * constructor; [|done]. unfold visitedAs. by rewrite Hun.
      * constructor; [congruence|done].
      * simpl. by rewrite Hun.
    + destruct (scheduleTask_total cursors out task fuel ltac:(lia) Hun)
        as (slot & f1 & j & Hstep & Hf1 & Hfrom & Hday & _).
      set (t' := withScheduled task
                   {| start := slot;
                      end_ := add slot (estimatedMinutes task) Minute |}) in *.
      destruct (IH (<[assignee task := add (endOf t') 15 Minute]> cursors)
                   (out ++ [t']) f1)
        as (cs' & out' & f' & Hrun & Hf' & Hsl & Hok & Hch); [lia|].
      exists cs', (t' :: out'), f'.
      split; [|split; [simpl; lia|split; [|split]]].
      * simpl. erewrite bind_run; [|exact Hstep].
        etrans; [exact Hrun|]. by rewrite <- app_assoc.
      * constructor; [|done]. unfold visitedAs. by rewrite Hun.
      * constructor; [|done]. intros _.
        by apply bool_decide_eq_true in Hday.
      * simpl. change (unplaced t') with (unplaced task). rewrite Hun.
        split; [|exact Hch]. intros cur Hcur. simpl in Hfrom.
        change (assignee t') with (assignee task) in Hcur.
        rewrite Hcur in Hfrom. exact Hfrom.
Qed.

End FallbackPass.

(** ** The two passes as a whole *)

Section Passes.

Variables (now : Z) (subtasks : list AISubtask) (dueDate : Z)
          (c : SchedulingConstraints).

Lemma rescheduleTasks_shape fuel out fuel' :
  Scheduler.rescheduleTasks now subtasks dueDate c fuel = Done (out, fuel') ->
  Forall2 slotted (sort Scheduler.byPartThenLongest subtasks) out.
Proof.
  unfold Scheduler.rescheduleTasks. intros Hrun.
  apply bind_Done in Hrun as ([cs out2] & f1 & Hloop & [= <- <-]).
  by apply reschedule_loop_shape in Hloop as (out' & -> & ?).
Qed.

Lemma scheduleTasks_shape fuel out fuel' :
  AIPlanner.scheduleTasks now subtasks dueDate c fuel = Done (out, fuel') ->
  Forall2 visitedAs subtasks out.
Proof.
  unfold AIPlanner.scheduleTasks. intros Hrun.
  apply bind_Done in Hrun as ([cs out2] & f1 & Hloop & [= <- <-]).
  by apply scheduleTasks_loop_shape in Hloop as (out' & -> & ?).
Qed.

Hypothesis Hvalid : validConstraints c.

Lemma rescheduleTasks_total fuel :
  (6 * length subtasks <= fuel)%nat ->
  exists out fuel',
    Scheduler.rescheduleTasks now subtasks dueDate c fuel = Done (out, fuel')
    /\ (fuel' <= fuel <= fuel' + 6 * length subtasks)%nat
    /\ Forall2 slotted (sort Scheduler.byPartThenLongest subtasks) out
    /\ Forall (fun t => inWorkingWindow c t
                        /\ (onWorkingDay c t \/ dueDate <= startOf t)) out
    /\ chained (fun _ => false) ∅ out.
Proof.
  intros Hfuel. unfold Scheduler.rescheduleTasks.
  destruct (reschedule_loop c (add now 1 Day) dueDate Hvalid
              (sort Scheduler.byPartThenLongest subtasks) ∅ [] fuel)
    as (cs & out & f' & Hrun & Hf & Hsl & Hok & Hch).
  { by rewrite sort_length. }
  rewrite sort_length in Hf.
  exists out, f'. split; [|done]. by erewrite bind_run; [|exact Hrun].
Qed.

Lemma scheduleTasks_total fuel :
  (12 * length subtasks <= fuel)%nat ->
  exists out fuel',
    AIPlanner.scheduleTasks now subtasks dueDate c fuel = Done (out, fuel')
    /\ (fuel' <= fuel <= fuel' + 12 * length subtasks)%nat
    /\ Forall2 visitedAs subtasks out
    /\ Forall (fun t => unplaced t = false -> onWorkingDay c t) out
    /\ chained unplaced ∅ out.
Proof.
  intros Hfuel. unfold AIPlanner.scheduleTasks.
  destruct (scheduleTasks_loop c (add now 1 Day) Hvalid subtasks ∅ [] fuel Hfuel)
    as (cs & out & f' & Hrun & Hf & Hsl & Hok & Hch).
  exists out, f'. split; [|done]. by erewrite bind_run; [|exact Hrun].
Qed.

End Passes.

(** ** Claims about the scheduling passes *)

(** Two intervals [[start, end)] with an instant in common. *)
Definition overlap (a b : AISubtask) : Prop :=
  startOf a < endOf b /\ startOf b < endOf a.

(** The running example of the design document: 09:00 to 17:00, Monday to
    Friday. *)
Definition officeHours : SchedulingConstraints :=
  {| workHoursPerDay := 8; startHour := 9; endHour := 17;
     daysOfWeek := [1; 2; 3; 4; 5] |}.

Lemma officeHours_valid : validConstraints officeHours.
Proof.
  unfold validConstraints, officeHours; simpl.
  split_and!; try lia; try done.
  repeat constructor; lia.
Qed.

Definition someTask (a : string) (m : Z) : AISubtask :=
  {| part := 1; title := "Draft"; details := "Write the draft";
     assignee := a; estimatedMinutes := m;
     scheduled := {| start := 0; end_ := 0 |} |}.




Section Durations.

Variable subtasks : list AISubtask.
Hypothesis Hlong : Forall (fun t => 1 <= estimatedMinutes t) subtasks.

Lemma slotted_forward tasks out :
  Forall (fun t => 1 <= estimatedMinutes t) tasks ->
  Forall2 slotted tasks out ->
  Forall (fun t => startOf t <= endOf t) out.
Proof.
  intros Hall Hsl. induction Hsl as [|task t' tasks out Ht _ IH]; [done|].
  apply Forall_cons in Hall as [Hm Hall]. constructor; [|by apply IH].
  destruct (slotted_end _ _ Ht) as (-> & _ & ->).
  unfold add, unitMs, MS_MINUTE. lia.
Qed.

Lemma visited_forward tasks out :
  Forall (fun t => 1 <= estimatedMinutes t) tasks ->
  Forall2 visitedAs tasks out ->
  Forall (fun t => (unplaced t = false -> startOf t <= endOf t)
                   /\ (assignee t <> "" -> unplaced t = false)) out.
Proof.
  intros Hall Hsl. induction Hsl as [|task t' tasks out Ht _ IH]; [done|].
  apply Forall_cons in Hall as [Hm Hall]. constructor; [|by apply IH].
  pose proof (visitedAs_unplaced _ _ Ht) as Hun.
  unfold visitedAs in Ht. split.
  - rewrite Hun. intros E. rewrite E in Ht.
    destruct (slotted_end _ _ Ht) as (-> & _ & ->).
    unfold add, unitMs, MS_MINUTE. lia.
  - intros Hname. rewrite Hun.
    assert (assignee t' = assignee task /\ estimatedMinutes t' = estimatedMinutes task)
      as [Ha _].
    { destruct (unplaced task); [by subst|].
      by destruct (slotted_end _ _ Ht) as (_ & ? & ?). }
    rewrite Ha in Hname. unfold unplaced, truthyStr, truthyZ.
    apply String.eqb_neq in Hname. rewrite Hname.
    destruct (Z.eqb_spec (estimatedMinutes task) 0); [lia|done].
Qed.

End Durations.

(** A member without a name, and the scenario with that member. *)
Definition unnamed : Member := {| id := None; name := ""; role := None |}.

Definition unnamedScenario : PlanningInput :=
  {| inTitle := "X"; inDescription := ""; inDueDate := 864000000;
     inParts := 1; inMembers := [unnamed]; inConstraints := officeHours |}.






(** ** The fallback decomposition *)

Section SingleMember.

Variable m : Member.

Lemma assignMember_single index task :
  AIPlanner.assignMember [m] index task = Done (withAssignee task (name m)).
Proof.
  unfold AIPlanner.assignMember. simpl length. rewrite Nat.mod_1_r. simpl.
  destruct (truthyStr (title task) && truthyStr (details task)); [|done].
  by destruct (AIPlanner.prefers _ m).
Qed.

Lemma assignMembers_single subtasks : forall index,
  AIPlanner.assignMembersFrom [m] index subtasks
  = Done ((fun t => withAssignee t (name m)) <$> subtasks).
Proof.
  induction subtasks as [|task rest IH]; intros index; [done|].
  cbn [AIPlanner.assignMembersFrom]. by rewrite assignMember_single, IH.
Qed.

End SingleMember.

(** The scenario of the design document: one part, one member called Alice,
    office hours, and the title "X". *)
Definition alice (i : option Z) (r : option string) : Member :=
  {| id := i; name := "Alice"; role := r |}.

Definition scenario (i : option Z) (r : option string) (description : string)
    (dueDate : Z) : PlanningInput :=
  {| inTitle := "X"; inDescription := description; inDueDate := dueDate;
     inParts := 1; inMembers := [alice i r]; inConstraints := officeHours |}.

(** A subtask lies within the office hours of a weekday. *)
Definition withinOfficeHours (t : AISubtask) : Prop :=
  day (startOf t) ∈ [1; 2; 3; 4; 5]
  /\ MS_DAY * dayNumber (startOf t) + 9 * MS_HOUR <= startOf t
  /\ startOf t <= endOf t
  /\ endOf t <= MS_DAY * dayNumber (startOf t) + 17 * MS_HOUR.

(** A window late in the evening: 22:00 to 23:00, Monday to Friday. *)
Definition lateHours : SchedulingConstraints :=
  {| workHoursPerDay := 1; startHour := 22; endHour := 23;
     daysOfWeek := [1; 2; 3; 4; 5] |}.

(** The fallback pass does not bring the hour of a cursor back into the
    window: after a task that ends at midnight the next one starts at 00:15,
    on a working day. [findNextWorkingSlot] would move it to 22:00. *)
Lemma fallback_start_after_midnight :
  exists t1 t2 rest fuel',
    AIPlanner.generateFallbackPlan 0
      {| inTitle := "X"; inDescription := ""; inDueDate := 864000000;
         inParts := 1; inMembers := [alice None None];
         inConstraints := lateHours |} 96%nat
    = Done (t1 :: t2 :: rest, fuel')
    /\ hour (startOf t1) = 22 /\ hour (endOf t1) = 0
    /\ hour (startOf t2) = 0 /\ minute (startOf t2) = 15
    /\ day (startOf t2) = 2.
Proof. eexists _, _, _, _. split; [vm_compute; reflexivity|]. by vm_compute. Qed.


(** A task of the scenario as it comes out of the templates, before the
    scheduling pass. *)
Definition templateTask (now : Z) (ttl dtl : string) (mins : Z) : AISubtask :=
  {| part := 1; title := ttl; details := dtl; assignee := "Alice";
     estimatedMinutes := mins;
     scheduled := {| start := add now 1 Day;
                     end_ := add (add now 1 Day) 1 Hour |} |}.

Lemma scenario_tasks now i r description dueDate :
  exists rest,
    length rest = 6%nat
    /\ Forall (fun t => assignee t = "Alice") rest
    /\ forall fuel,
      AIPlanner.generateFallbackPlan now (scenario i r description dueDate) fuel
      = AIPlanner.scheduleTasks now
          (templateTask now "Part 1: Research and Planning"
             "Initial research and planning phase for X" 120
           :: templateTask now "Part 1: Analysis and Investigation"
                "Detailed analysis of requirements for X" 180
           :: rest) dueDate officeHours fuel.
Proof.
  eexists. split; [|split]; cycle 2.
  - intros fuel. unfold AIPlanner.generateFallbackPlan.
    set (cands := AIPlanner.sequence _).
    cbv -[add] in cands.
    subst cands. erewrite bind_run; [|reflexivity].
    unfold AIPlanner.assignMembersToTasks. cbn [inMembers scenario].
    rewrite assignMembers_single.
    erewrite bind_run; [|reflexivity].
    cbn [fmap list_fmap withAssignee part title details assignee estimatedMinutes scheduled name alice inDueDate inConstraints].
    reflexivity.
  - reflexivity.
  - by repeat constructor.
Qed.

Lemma atHour_face y h :
  0 <= h < 24 ->
  atHour y h = MS_DAY * dayNumber (atHour y h) + MS_HOUR * h
               + millisecond (atHour y h)
  /\ 0 <= millisecond (atHour y h) < 1000.
Proof.
  intros Hh. destruct (atHour_fields y h Hh) as (_ & Eh & Em & Es & _).
  destruct (clock_face (atHour y h)) as (E & _ & _ & _ & Hms).
  rewrite Eh, Em, Es in E. split; [lia|done].
Qed.

Lemma officeMorning j x :
  let s := Nat.iter j (AIPlanner.nextDay officeHours) (atHour x 9) in
  s = MS_DAY * dayNumber s + MS_HOUR * 9 + millisecond s
  /\ 0 <= millisecond s < 1000.
Proof.
  destruct j as [|j]; simpl; apply atHour_face; lia.
Qed.

Lemma visitedAs_assignee tasks out n :
  Forall (fun t => assignee t = n) tasks ->
  Forall2 visitedAs tasks out ->
  Forall (fun t => assignee t = n) out.
Proof.
  intros Hall Hv. induction Hv as [|task t' tasks out Ht _ IH]; [done|].
  apply Forall_cons in Hall as [Hn Hall]. constructor; [|by apply IH].
  unfold visitedAs in Ht. destruct (unplaced task); [by subst|].
  destruct (slotted_end _ _ Ht) as (_ & -> & _). done.
Qed.



(** ** Feasibility *)

Section AvailableHours.

Variable c : SchedulingConstraints.
Hypothesis Hhours : startHour c <= endHour c.

Let body (st : Z * Z) : Z * Z :=
  (add st.1 1 Day,
   if includes (daysOfWeek c) (day st.1)
   then st.2 + (endHour c - startHour c) else st.2).

Let before (dueDate : Z) (st : Z * Z) : bool := isBefore st.1 dueDate.

Lemma hours_grow dueDate fuel st r fuel' :
  while_ (before dueDate) body st fuel = Done (r, fuel') -> st.2 <= r.2.
Proof.
  intros Hrun.
  destruct (while_inv (fun x => st.2 <= x.2) (before dueDate) body)
    with (fuel := fuel) (s := st) (r := r) (fuel' := fuel') as (? & _); auto with lia.
  intros x Hx _. subst body. simpl. destruct (includes _ _); lia.
Qed.

(** A later due date only adds days to the count. *)
Lemma hours_monotone due1 due2 :
  due1 <= due2 ->
  forall fuel1 fuel2 st r1 r2 f1 f2,
    while_ (before due1) body st fuel1 = Done (r1, f1) ->
    while_ (before due2) body st fuel2 = Done (r2, f2) ->
    r1.2 <= r2.2.
Proof.
  intros Hdue. induction fuel1 as [|fuel1 IH]; intros fuel2 st r1 r2 f1 f2;
    simpl; destruct (before due1 st) eqn:Hb1; try done.
  - intros [= <- <-] Hrun2. by eapply hours_grow.
  - assert (Hb2 : before due2 st = true).
    { unfold before, isBefore in *. lia. }
    destruct fuel2 as [|fuel2]; simpl; rewrite Hb2; [done|]. apply IH.
  - intros [= <- <-] Hrun2. by eapply hours_grow.
Qed.

Lemma body_iter k st : (Nat.iter k body st).1 = st.1 + Z.of_nat k * MS_DAY.
Proof.
  induction k as [|k IH]; [simpl; lia|].
  rewrite Nat.iter_succ. unfold body at 1. cbn [fst]. rewrite IH.
  unfold add, unitMs. lia.
Qed.

(** The rounds of the loop: the days from the first instant to the due
    date. *)
Definition daysUntil (from dueDate : Z) : nat :=
  Z.to_nat ((dueDate - from) / MS_DAY + 1).

Lemma hours_total dueDate st fuel :
  (daysUntil st.1 dueDate <= fuel)%nat ->
  exists r fuel', while_ (before dueDate) body st fuel = Done (r, fuel').
Proof.
  intros Hfuel.
  destruct (while_within (before dueDate) body (daysUntil st.1 dueDate) st fuel)
    as (j & _ & Hrun & _); [|done|eauto].
  unfold before, isBefore. rewrite body_iter. unfold daysUntil.
  apply Z.ltb_ge.
  pose proof (Z.div_mod (dueDate - st.1) MS_DAY ltac:(done)) as Hdm.
  pose proof (Z.mod_pos_bound (dueDate - st.1) MS_DAY ltac:(done)) as Hmod.
  destruct (Z.le_gt_cases 0 ((dueDate - st.1) / MS_DAY + 1)) as [Hq|Hq].
  - rewrite Z2Nat.id by done. lia.
  - rewrite Z2Nat.nonpos by lia. unfold MS_DAY in *. lia.
Qed.

End AvailableHours.

Section Feasibility.

Variables (now : Z) (subtasks : list AISubtask) (c : SchedulingConstraints)
          (memberCount : Z).
Hypothesis Hhours : startHour c <= endHour c.
Hypothesis Hcount : 0 <= memberCount.

Lemma calculateAvailableHours_monotone due1 due2 fuel1 fuel2 h1 h2 f1 f2 :
  due1 <= due2 ->
  Scheduler.calculateAvailableHours now due1 c fuel1 = Done (h1, f1) ->
  Scheduler.calculateAvailableHours now due2 c fuel2 = Done (h2, f2) ->
  h1 <= h2.
Proof.
  unfold Scheduler.calculateAvailableHours. intros Hdue H1 H2.
  apply bind_Done in H1 as (r1 & g1 & H1 & [= <- <-]).
  apply bind_Done in H2 as (r2 & g2 & H2 & [= <- <-]).
  eapply (hours_monotone c Hhours due1 due2 Hdue); [exact H1|exact H2].
Qed.

Lemma calculateAvailableHours_total dueDate fuel :
  (daysUntil (atHour (add now 1 Day) (startHour c)) dueDate <= fuel)%nat ->
  exists h fuel',
    Scheduler.calculateAvailableHours now dueDate c fuel = Done (h, fuel').
Proof.
  intros Hfuel. unfold Scheduler.calculateAvailableHours.
  destruct (hours_total c dueDate (atHour (add now 1 Day) (startHour c), 0) fuel Hfuel)
    as (r & f' & Hrun).
  exists r.2, f'. by erewrite bind_run; [|exact Hrun].
Qed.

Lemma daysUntil_mono from due1 due2 :
  due1 <= due2 -> (daysUntil from due1 <= daysUntil from due2)%nat.
Proof.
  intros Hdue. unfold daysUntil.
  assert ((due1 - from) / MS_DAY <= (due2 - from) / MS_DAY)
    by (apply Z.div_le_mono; [done|lia]).
  lia.
Qed.

End Feasibility.



(** ** The workload balancer *)

Import Balancer.

(** Two records that differ at most in their assignee. *)
Definition sameButAssignee (t t' : AISubtask) : Prop :=
  part t' = part t /\ title t' = title t /\ details t' = details t
  /\ estimatedMinutes t' = estimatedMinutes t /\ scheduled t' = scheduled t.

(** A store whose records are those of another, up to their assignees. *)
Definition framed (objs objs' : gmap loc AISubtask) : Prop :=
  forall l, match objs !! l, objs' !! l with
            | Some t, Some t' => sameButAssignee t t'
            | None, None => True
            | _, _ => False
            end.

Section BalancerFacts.

Lemma framed_refl objs : framed objs objs.
Proof. intros l. by destruct (objs !! l). Qed.

Lemma framed_reassign objs objs' l task a :
  framed objs objs' -> objs' !! l = Some task ->
  framed objs (<[l := withAssignee task a]> objs').
Proof.
  intros Hfr Hl l'. specialize (Hfr l').
  destruct (decide (l = l')) as [<-|Hne].
  - rewrite lookup_insert_eq. rewrite Hl in Hfr.
    destruct (objs !! l); [|done]. exact Hfr.
  - by rewrite lookup_insert_ne.
Qed.

Lemma setW_nonempty w k v : setW w k v <> [].
Proof. destruct w as [|[k' v'] w]; simpl; [done|]. by destruct (String.eqb k' k). Qed.

Lemma countWorkload_fold objs tasks : forall w,
  (forall l, l ∈ tasks -> is_Some (objs !! l)) ->
  exists w', foldOpt (countWorkload objs) tasks w = Some w'
             /\ (tasks <> [] -> w' <> []).
Proof.
  induction tasks as [|l tasks IH]; intros w Hall; [by exists w|].
  destruct (Hall l) as [task Hl]; [left|].
  destruct (countWorkload objs w l) as [w1|] eqn:Hstep;
    [|unfold countWorkload in Hstep; by rewrite Hl in Hstep].
  cbn [foldOpt]. rewrite Hstep. cbn [mbind option_bind].
  destruct (IH w1) as (w' & Hrun & Hne).
  { intros l' Hl'. apply Hall. by right. }
  exists w'. split; [done|]. intros _.
  destruct tasks as [|l2 tasks]; [|by apply Hne].
  simpl in Hrun. injection Hrun as <-.
  unfold countWorkload in Hstep. rewrite Hl in Hstep. injection Hstep as <-.
  apply setW_nonempty.
Qed.

Lemma Object_keys_length w : length (Object_keys w) = length w.
Proof.
  unfold Object_keys. rewrite length_app, length_fmap, sort_length.
  rewrite <- (length_fmap fst w).
  induction (w.*1) as [|k ks IH]; [done|].
  cbn [omap list_omap]. rewrite filter_cons.
  destruct (arrayIndex k) eqn:E; simpl.
  - destruct (decide (Some n = None)); [done|]. simpl. lia.
  - destruct (decide (@None N = None)); [|done]. simpl. lia.
Qed.

Lemma reassign_fold tasks : forall st,
  (forall l, l ∈ tasks -> is_Some (bsObjects st !! l)) ->
  (tasks <> [] -> sortedMembers st <> []) ->
  exists st', foldOpt reassign tasks st = Some st'
              /\ framed (bsObjects st) (bsObjects st')
              /\ (forall l, l ∉ tasks -> bsObjects st' !! l = bsObjects st !! l).
Proof.
  induction tasks as [|l tasks IH]; intros st Hall Hne.
  - exists st. split; [done|]. split; [apply framed_refl|done].
  - destruct (Hall l) as [task Hl]; [left|].
    assert (Hlen : (0 < length (sortedMembers st))%nat).
    { destruct (sortedMembers st); [by destruct Hne|simpl; lia]. }
    destruct (lookup_lt_is_Some_2 (sortedMembers st)
                (memberIndex st mod length (sortedMembers st))) as [a Ha].
    { apply Nat.mod_upper_bound. lia. }
    destruct (reassign st l) as [st1|] eqn:Hstep;
      [|unfold reassign in Hstep; rewrite Hl in Hstep; simpl in Hstep;
        by rewrite Ha in Hstep].
    assert (Hobj : bsObjects st1 = <[l := withAssignee task a]> (bsObjects st)
                   /\ length (sortedMembers st1) = length (sortedMembers st)).
    { unfold reassign in Hstep. rewrite Hl in Hstep. simpl in Hstep.
      rewrite Ha in Hstep. injection Hstep as <-. simpl.
      by rewrite sort_length. }
    destruct Hobj as [Hobj Hsorted].
    cbn [foldOpt]. rewrite Hstep. cbn [mbind option_bind].
    destruct (IH st1) as (st' & Hrun & Hfr & Hout).
    { intros l' Hl'. rewrite Hobj. destruct (decide (l = l')) as [<-|Hneq].
      - rewrite lookup_insert_eq. eauto.
      - rewrite lookup_insert_ne by done. apply Hall. by right. }
    { intros _ E. rewrite E in Hsorted. simpl in Hsorted. lia. }
    rewrite Hobj in Hfr, Hout.
    exists st'. split; [done|]. split.
    + intros l'. specialize (Hfr l').
      pose proof (framed_reassign (bsObjects st) (bsObjects st) l task a
                    (framed_refl _) Hl l') as H1.
      destruct (bsObjects st !! l'), (<[l:=withAssignee task a]> (bsObjects st) !! l'),
        (bsObjects st' !! l'); try done.
      unfold sameButAssignee in *. intuition congruence.
    + intros l' Hl'. rewrite Hout by (intros ?; apply Hl'; by right).
      apply lookup_insert_ne. intros ->. apply Hl'. left.
Qed.

End BalancerFacts.


(** ** Repair of a candidate plan *)

Section RepairFacts.

Variable parseDate : string -> option Z.
Variable toISOString : Z -> string.

(** An instant whose ISO text is read back as that instant. *)
Definition readsBack (x : Z) : Prop :=
  toISOString x <> "" /\ parseDate (toISOString x) = Some x.

Lemma validate_readsBack x :
  readsBack x ->
  AIPlanner.validateDateTime parseDate (Some (toISOString x)) = Some x.
Proof.
  intros [Hne Hparse]. unfold AIPlanner.validateDateTime, truthyStr.
  apply String.eqb_neq in Hne. by rewrite Hne.
Qed.

Lemma orZ_idem a d : orZ (orZ a d) d = orZ a d.
Proof.
  unfold orZ. destruct (Z.eqb_spec a 0) as [->|Ha].
  - by destruct (d =? 0).
  - by apply Z.eqb_neq in Ha as ->.
Qed.

Lemma orStr_idem a d : orStr (orStr a d) d = orStr a d.
Proof.
  unfold orStr. destruct (String.eqb a "") eqn:Ha; [|by rewrite Ha].
  by destruct (String.eqb d "").
Qed.

Variables (input : PlanningInput) (len : nat) (memberNames : list string).

(** Repairing a repaired record again, at the same index, gives it back,
    whatever the clock reads the second time. *)
Lemma repairSubtask_idem now now' index raw :
  let t := AIPlanner.repairSubtask parseDate now input len memberNames index raw in
  readsBack (startOf t) -> readsBack (endOf t) ->
  AIPlanner.repairSubtask parseDate now' input len memberNames index
    (AIPlanner.toRaw toISOString t) = t.
Proof.
  intros t Hs He.
  unfold AIPlanner.repairSubtask at 1. cbn [AIPlanner.toRaw AIPlanner.rPart
    AIPlanner.rTitle AIPlanner.rDetails AIPlanner.rAssignee
    AIPlanner.rEstimatedMinutes AIPlanner.rScheduled AIPlanner.rStart
    AIPlanner.rEnd mbind option_bind default].
  fold (startOf t) (endOf t).
  rewrite (validate_readsBack _ Hs), (validate_readsBack _ He).
  cbn [default].
  assert (Hm : (0 <? estimatedMinutes t) = true).
  { subst t. cbn [estimatedMinutes AIPlanner.repairSubtask].
    destruct (AIPlanner.rEstimatedMinutes raw) as [m|]; [|done].
    by destruct (0 <? m) eqn:E. }
  rewrite Hm.
  assert (Ha : (if bool_decide (assignee t ∈ memberNames) then assignee t
                else default "" (memberNames !! (index mod length memberNames)%nat))
               = assignee t).
  { destruct (bool_decide (assignee t ∈ memberNames)) eqn:E; [done|].
    apply bool_decide_eq_false in E. subst t.
    cbn [assignee AIPlanner.repairSubtask] in *.
    destruct (AIPlanner.rAssignee raw) as [a|]; [|done].
    destruct (bool_decide (a ∈ memberNames)) eqn:E'; [|done].
    by apply bool_decide_eq_true in E'. }
  rewrite Ha.
  subst t. unfold AIPlanner.repairSubtask, startOf, endOf.
  cbn [part title details assignee estimatedMinutes scheduled start end_].
  unfold Datatypes.id. by rewrite orZ_idem, !orStr_idem.
Qed.

End RepairFacts.

(** C7: a second repair of a repaired plan returns the repaired plan. This
    holds for every candidate plan, well-formed or not, and whatever the
    clock reads at either repair; the texts of the timestamps of the repaired
    plan are read back as the instants they were written from. *)
Theorem C7_repair_idempotent parseDate toISOString now now' aiResponse input
    repaired :
  AIPlanner.validateAndRepairPlan parseDate now aiResponse input = Done repaired ->
  Forall (fun t => readsBack parseDate toISOString (startOf t)
                   /\ readsBack parseDate toISOString (endOf t)) repaired ->
  AIPlanner.validateAndRepairPlan parseDate now'
    (AIPlanner.toResponse toISOString repaired) input = Done repaired.
Proof.
  unfold AIPlanner.validateAndRepairPlan.
  destruct (AIPlanner.planSubtasks aiResponse) as [subtasks|]; [|done].
  intros [= <-] Hread. cbn [AIPlanner.toResponse AIPlanner.planSubtasks].
  f_equal. rewrite length_fmap, length_imap.
  apply list_eq. intros i.
  rewrite !list_lookup_imap, list_lookup_fmap, list_lookup_imap.
  destruct (subtasks !! i) as [raw|] eqn:Hi; [|done]. simpl. f_equal.
  rewrite Forall_lookup in Hread.
  destruct (Hread i _ ltac:(by rewrite list_lookup_imap, Hi)) as [Hs He].
  by apply repairSubtask_idem.
Qed.

(** A candidate plan of two records: the first is well-formed, the second
    has nothing but a negative duration. *)
Definition candidatePlan : AIPlanner.RawPlanResponse :=
  {| AIPlanner.planSubtasks := Some
       [ {| AIPlanner.rPart := Some 1;
            AIPlanner.rTitle := Some "Outline";
            AIPlanner.rDetails := Some "Write the outline";
            AIPlanner.rAssignee := Some "Bob";
            AIPlanner.rEstimatedMinutes := Some 60;
            AIPlanner.rScheduled := Some
              {| AIPlanner.rStart := Some "2025-09-01T09:00:00.000Z";
                 AIPlanner.rEnd := Some "2025-09-01T11:00:00.000Z" |} |};
         {| AIPlanner.rPart := None; AIPlanner.rTitle := None;
            AIPlanner.rDetails := None;
            AIPlanner.rAssignee := Some "Unknown Person";
            AIPlanner.rEstimatedMinutes := Some (-5);
            AIPlanner.rScheduled := None |} ] |}.

Definition twoMembers : PlanningInput :=
  {| inTitle := "Essay"; inDescription := ""; inDueDate := 1757000000000;
     inParts := 1;
     inMembers := [ {| id := None; name := "Bob"; role := None |};
                    {| id := None; name := "Carol"; role := None |} ];
     inConstraints := officeHours |}.

Lemma C7_repair_idempotent_witness :
  exists repaired,
    AIPlanner.validateAndRepairPlan ISO8601.parseDate 1756500000000
      candidatePlan twoMembers = Done repaired
    /\ AIPlanner.validateAndRepairPlan ISO8601.parseDate 1756500060000
         (AIPlanner.toResponse ISO8601.toISOString repaired) twoMembers
       = Done repaired.
Proof.
  eexists. split; [vm_compute; reflexivity|].
  apply (C7_repair_idempotent ISO8601.parseDate ISO8601.toISOString
           1756500000000 1756500060000 candidatePlan twoMembers).
  - vm_compute. reflexivity.
  - repeat constructor; vm_compute; congruence.
Defined.

(** ** The durations the fallback decomposition hands to its pass *)

Section FallbackDurations.

Lemma sequence_Done {A : Type} (l : list (outcome A)) r :
  AIPlanner.sequence l = Done r -> Forall2 (fun o a => o = Done a) l r.
Proof.
  revert r. induction l as [|o l IH]; intros r; simpl.
  - intros [= <-]. constructor.
  - destruct o as [a| |]; [|done..].
    destruct (AIPlanner.sequence l) as [r'| |]; [|done..].
    intros [= <-]. constructor; [done|]. by apply IH.
Qed.

Lemma completeTask_minutes now members part task t :
  AIPlanner.completeTask now members part task = Done t ->
  estimatedMinutes t <> 0.
Proof.
  unfold AIPlanner.completeTask.
  assert (Hm : orZ (default 0 (AIPlanner.pEstimatedMinutes task)) 60 <> 0).
  { unfold orZ. destruct (Z.eqb_spec (default 0 (AIPlanner.pEstimatedMinutes task)) 0);
      [done|lia]. }
  destruct (truthyStr _); [by intros [= <-]|].
  destruct members; [done|]. by intros [= <-].
Qed.

Lemma assignMembersFrom_minutes members subtasks : forall index assigned,
  AIPlanner.assignMembersFrom members index subtasks = Done assigned ->
  Forall (fun t => estimatedMinutes t <> 0) subtasks ->
  Forall (fun t => estimatedMinutes t <> 0) assigned.
Proof.
  induction subtasks as [|task rest IH]; intros index assigned; simpl.
  - by intros [= <-].
  - destruct (AIPlanner.assignMember members index task) as [t'| |] eqn:Ht; [|done..].
    destruct (AIPlanner.assignMembersFrom members (S index) rest) as [r'| |] eqn:Hr;
      [|done..].
    intros [= <-] [Hm Hall]%Forall_cons. constructor; [|by eapply IH].
    unfold AIPlanner.assignMember in Ht.
    destruct (members !! _); [|done]. injection Ht as <-. exact Hm.
Qed.

Lemma lift_Done {A : Type} (o : outcome A) fuel a fuel' :
  AIPlanner.lift o fuel = Done (a, fuel') -> o = Done a /\ fuel' = fuel.
Proof. unfold AIPlanner.lift. destruct o; [|done..]. by intros [= <- <-]. Qed.

(** What the fallback decomposition returns comes out of its scheduling
    pass, which was given tasks of a non-zero duration. *)
Lemma generateFallbackPlan_shape now input fuel out fuel' :
  AIPlanner.generateFallbackPlan now input fuel = Done (out, fuel') ->
  exists assigned,
    Forall (fun t => estimatedMinutes t <> 0) assigned
    /\ AIPlanner.scheduleTasks now assigned (inDueDate input)
         (inConstraints input) fuel = Done (out, fuel').
Proof.
  unfold AIPlanner.generateFallbackPlan. intros Hrun.
  apply bind_Done in Hrun as (cands & f1 & Hc & Hrun).
  apply lift_Done in Hc as [Hc ->].
  apply bind_Done in Hrun as (assigned & f2 & Ha & Hrun).
  apply lift_Done in Ha as [Ha ->].
  exists assigned. split; [|done].
  eapply assignMembersFrom_minutes; [exact Ha|].
  apply sequence_Done in Hc. apply Forall_forall. intros t Ht.
  apply list_elem_of_lookup in Ht as [i Hi].
  destruct (Forall2_lookup_r _ _ _ _ _ Hc Hi) as (o & Ho & ->).
  apply list_elem_of_lookup_2 in Ho.
  apply list_elem_of_join in Ho as (l & Ho & Hl).
  apply list_elem_of_fmap in Hl as (part & -> & _).
  apply list_elem_of_fmap in Ho as (task & Ho & _).
  symmetry in Ho. by eapply completeTask_minutes.
Qed.

End FallbackDurations.

(** ** The end of a scheduled interval *)

(** The end is the start plus the estimated minutes. *)
Definition endFollowsStart (t : AISubtask) : Prop :=
  endOf t = add (startOf t) (estimatedMinutes t) Minute.




(** ** The balancer on a store of two records *)

(** Two subtasks, of 100 minutes for "a" and of 1 minute for "b", in an
    array at reference 3. *)
Definition twoTasks : heap :=
  {| objects := <[1%positive := someTask "a" 100]>
                  (<[2%positive := someTask "b" 1]> ∅);
     arrays := {[ 3%positive := [1%positive; 2%positive] ]} |}.


(** The assignment as the design document words it: the minutes each name
    holds in the input are counted, and each subtask in turn goes to the name
    that holds the least, which then holds the minutes of that subtask too. *)
Definition tally (tasks : list AISubtask) : Workload :=
  foldl (fun w task =>
           let w1 :=
             if bool_decide (default 0 (getW w (assignee task)) = 0)
             then setW w (assignee task) 0 else w in
           setW w1 (assignee task)
             (default 0 (getW w1 (assignee task)) + estimatedMinutes task))
        [] tasks.

Fixpoint leastLoadedFirst (w : Workload) (sorted : list string)
    (tasks : list AISubtask) : list AISubtask :=
  match tasks, sorted with
  | task :: rest, least :: _ =>
      let w' := setW w least (default 0 (getW w least) + estimatedMinutes task) in
      withAssignee task least
      :: leastLoadedFirst w' (sort (byWorkload w') sorted) rest
  | _, _ => tasks
  end.

Definition balanceAsStated (tasks : list AISubtask) : list AISubtask :=
  let w := tally tasks in
  leastLoadedFirst w (sort (byWorkload w) (Object_keys w)) tasks.

(** C5 on the code: the second subtask goes to "b", which holds 101 minutes
    by then, and not to "a", which holds 100: the code takes the name at
    position [memberIndex % sortedMembers.length] of the sorted names, not
    the first of them. *)
Theorem C5_second_task_not_to_least_loaded :
  exists h' balanced out,
    balanceWorkload twoTasks 3%positive = Some (h', balanced)
    /\ readArray h' balanced = Some out
    /\ assignee <$> out = ["b"; "b"]
    /\ assignee <$> balanceAsStated [someTask "a" 100; someTask "b" 1]
       = ["b"; "a"].
Proof.
  eexists _, _, _. split; [vm_compute; reflexivity|].
  split; [vm_compute; reflexivity|]. split; reflexivity.
Qed.

(** The largest duration of a list of subtasks. *)
Definition largestMinutes (tasks : list AISubtask) : Z :=
  foldr (fun task m => Z.max (estimatedMinutes task) m) 0 tasks.

(** C6 on the code: both subtasks end with "b", so "b" holds 101 minutes and
    "a" none, and the difference is more than the 100 minutes of the largest
    subtask. *)
Theorem C6_totals_further_apart_than_largest :
  exists h' balanced out,
    balanceWorkload twoTasks 3%positive = Some (h', balanced)
    /\ readArray h' balanced = Some out
    /\ totalMinutes out "b" = 101 /\ totalMinutes out "a" = 0
    /\ largestMinutes out = 100
    /\ totalMinutes out "b" - totalMinutes out "a" > largestMinutes out.
Proof.
  eexists _, _, _. split; [vm_compute; reflexivity|].
  split; [vm_compute; reflexivity|]. by vm_compute.
Qed.

(** * Further properties of the code *)

(** ** The search for a slot *)

Section SlotSearch.

Variable c : SchedulingConstraints.

(** A slot in the window, on a working day or at the due date already, is
    returned as it is, and no fuel is burnt. *)
Lemma findNextWorkingSlot_keeps s dueDate fuel :
  startHour c <= hour s < endHour c ->
  includes (daysOfWeek c) (day s) = true \/ dueDate <= s ->
  Scheduler.findNextWorkingSlot s dueDate c fuel = Done (s, fuel).
Proof.
  intros Hwin Hday. unfold Scheduler.findNextWorkingSlot.
  destruct (Z.ltb_spec (hour s) (startHour c)); [lia|].
  destruct (Z.leb_spec (endHour c) (hour s)); [lia|].
  assert (Hc : negb (includes (daysOfWeek c) (day s)) && isBefore s dueDate = false).
  { destruct Hday as [->|Hdue]; [done|].
    apply andb_false_iff. right. unfold isBefore. lia. }
  destruct fuel; simpl; by rewrite Hc.
Qed.

Hypothesis Hstart : 0 <= startHour c < 24.

Lemma nextDay_dayNumber s :
  dayNumber (AIPlanner.nextDay c s) = dayNumber s + 1.
Proof.
  unfold AIPlanner.nextDay.
  destruct (atHour_fields (add s 1 Day) _ Hstart) as (-> & _).
  by destruct (add_day_fields s) as (-> & _).
Qed.

Lemma nextDay_iter_dayNumber k s :
  dayNumber (Nat.iter k (AIPlanner.nextDay c) s) = dayNumber s + Z.of_nat k.
Proof.
  induction k as [|k IH]; [simpl; lia|].
  rewrite Nat.iter_succ, nextDay_dayNumber, IH. lia.
Qed.

Lemma dayNumber_bounds t : MS_DAY * dayNumber t <= t < MS_DAY * (dayNumber t + 1).
Proof.
  destruct (clock_face t) as (Ht & H1 & H2 & H3 & H4).
  unfold MS_DAY, MS_HOUR, MS_MINUTE, MS_SECOND in *. lia.
Qed.

End SlotSearch.

(** X1: under valid constraints the slot found is never before the instant
    asked for, and it is a fixed point of the search: asking again from it
    returns it and burns no fuel; an instant already in the window on a
    working day is itself the slot found. *)
Theorem findNextWorkingSlot_fixed_point c s dueDate fuel :
  validConstraints c -> (6 <= fuel)%nat ->
  exists r fuel',
    Scheduler.findNextWorkingSlot s dueDate c fuel = Done (r, fuel')
    /\ s <= r
    /\ Scheduler.findNextWorkingSlot r dueDate c fuel' = Done (r, fuel')
    /\ (startHour c <= hour s < endHour c ->
        includes (daysOfWeek c) (day s) = true -> r = s /\ fuel' = fuel).
Proof.
  intros Hvalid Hfuel.
  destruct (findNextWorkingSlot_total c Hvalid s dueDate fuel Hfuel)
    as (r & f' & Hrun & _ & Hle & Hwin & Hday).
  exists r, f'. split_and!; [done|done| |].
  - by apply findNextWorkingSlot_keeps.
  - intros Hs Hd.
    rewrite (findNextWorkingSlot_keeps c s dueDate fuel Hs (or_introl Hd)) in Hrun.
    by injection Hrun as <- <-.
Qed.

Lemma findNextWorkingSlot_fixed_point_witness :
  exists r fuel',
    Scheduler.findNextWorkingSlot 190000000 864000000 officeHours 6%nat
    = Done (r, fuel')
    /\ 190000000 <= r
    /\ Scheduler.findNextWorkingSlot r 864000000 officeHours fuel' = Done (r, fuel')
    /\ (startHour officeHours <= hour 190000000 < endHour officeHours ->
        includes (daysOfWeek officeHours) (day 190000000) = true ->
        r = 190000000 /\ fuel' = 6%nat).
Proof.
  apply (findNextWorkingSlot_fixed_point officeHours 190000000 864000000 6%nat
           officeHours_valid).
  lia.
Defined.

(** X2: whatever the days of the week, even none, the search for a slot in
    [Scheduler.findNextWorkingSlot] ends: its loop runs at most once for each
    day up to the due date, and the slot is a working day or is not before
    the due date. *)
Theorem findNextWorkingSlot_ends_at_due_date c s dueDate fuel :
  0 <= startHour c < 24 ->
  (Z.to_nat (dayNumber dueDate - dayNumber s + 1) <= fuel)%nat ->
  exists r fuel',
    Scheduler.findNextWorkingSlot s dueDate c fuel = Done (r, fuel')
    /\ (fuel - fuel' <= Z.to_nat (dayNumber dueDate - dayNumber s + 1))%nat
    /\ (day r ∈ daysOfWeek c \/ dueDate <= r).
Proof.
  intros Hstart Hfuel. unfold Scheduler.findNextWorkingSlot.
  set (s0 := if hour s <? startHour c then _ else _).
  assert (Hs0 : dayNumber s <= dayNumber s0).
  { subst s0. destruct (hour s <? startHour c).
    - destruct (atHour_fields s _ Hstart) as (-> & _). lia.
    - destruct (endHour c <=? hour s); [|lia].
      pose proof (nextDay_dayNumber c Hstart s) as Hn.
      unfold AIPlanner.nextDay in Hn. lia. }
  change (fun slot => atHour (add slot 1 Day) (startHour c))
    with (AIPlanner.nextDay c).
  set (cond := fun slot => _ && _).
  set (k := Z.to_nat (dayNumber dueDate - dayNumber s + 1)) in *.
  destruct (while_within cond (AIPlanner.nextDay c) k s0 fuel)
    as (j & Hj & Hrun & Hc); [|done|].
  - subst cond. simpl. apply andb_false_iff. right. unfold isBefore.
    apply Z.ltb_ge.
    pose proof (dayNumber_bounds (Nat.iter k (AIPlanner.nextDay c) s0)) as Hb.
    rewrite (nextDay_iter_dayNumber c Hstart) in Hb.
    pose proof (dayNumber_bounds dueDate). unfold MS_DAY in *. lia.
  - eexists _, _. split; [exact Hrun|]. split; [lia|].
    subst cond. simpl in Hc. apply andb_false_iff in Hc as [Hc|Hc].
    + left. apply negb_false_iff in Hc. by apply bool_decide_eq_true in Hc.
    + right. unfold isBefore in Hc. lia.
Qed.

(** No working day at all: the search stops at the due date. *)
Definition noWorkingDay : SchedulingConstraints :=
  {| workHoursPerDay := 8; startHour := 9; endHour := 17; daysOfWeek := [] |}.

Lemma findNextWorkingSlot_ends_at_due_date_witness :
  exists r fuel',
    Scheduler.findNextWorkingSlot 0 432000000 noWorkingDay 6%nat = Done (r, fuel')
    /\ (6 - fuel' <= Z.to_nat (dayNumber 432000000 - dayNumber 0 + 1))%nat
    /\ (day r ∈ daysOfWeek noWorkingDay \/ 432000000 <= r).
Proof.
  apply (findNextWorkingSlot_ends_at_due_date noWorkingDay 0 432000000 6%nat).
  - simpl. lia.
  - vm_compute. lia.
Defined.

(** ** The fallback pass without a working day *)

Section NoWorkingDay.

Lemma while_forever {S : Type} (cond : S -> bool) (body : S -> S) :
  (forall s, cond s = true) ->
  forall fuel s, while_ cond body s fuel = Timeout.
Proof.
  intros Hc. induction fuel as [|fuel IH]; intros s; simpl; rewrite Hc; [done|].
  apply IH.
Qed.

Variable c : SchedulingConstraints.
Hypothesis Hnone : forall d, d ∈ daysOfWeek c -> ~ (0 <= d <= 6).

Lemma offWorkingDay_always s : AIPlanner.offWorkingDay c s = true.
Proof.
  unfold AIPlanner.offWorkingDay, includes. apply negb_true_iff.
  apply bool_decide_eq_false. intros Hin.
  apply (Hnone _ Hin). pose proof (day_range s). lia.
Qed.

Lemma scheduleTask_forever currentDate st task fuel :
  unplaced task = false ->
  AIPlanner.scheduleTask currentDate c st task fuel = Timeout.
Proof.
  intros Hun. destruct st as [cursors visited].
  unfold AIPlanner.scheduleTask. fold (unplaced task). rewrite Hun.
  unfold mbind, M_bind at 1.
  by rewrite (while_forever _ _ offWorkingDay_always).
Qed.

Lemma scheduleTasks_loop_forever currentDate tasks : forall st fuel,
  Exists (fun t => unplaced t = false) tasks ->
  forEach (AIPlanner.scheduleTask currentDate c) tasks st fuel = Timeout.
Proof.
  induction tasks as [|task tasks IH]; intros st fuel Hex; [by inversion Hex|].
  cbn [forEach]. unfold mbind, M_bind.
  destruct (unplaced task) eqn:Hun.
  - destruct st as [cursors visited].
    unfold AIPlanner.scheduleTask at 1. fold (unplaced task). rewrite Hun.
    unfold mret, M_ret. apply IH.
    apply Exists_cons in Hex as [Hex|Hex]; [congruence|done].
  - by rewrite scheduleTask_forever.
Qed.

End NoWorkingDay.



(** ** The order of the rescheduled tasks *)

(** X4: [Scheduler.rescheduleTasks] returns the subtasks it was given, each
    with a new [scheduled] and nothing else changed, in the order of their
    part and, within a part, of decreasing duration. *)
Theorem rescheduleTasks_reorders now subtasks dueDate c fuel out fuel' :
  Scheduler.rescheduleTasks now subtasks dueDate c fuel = Done (out, fuel') ->
  (exists sorted,
     sorted ≡ₚ subtasks
     /\ Forall2 (fun task t => t = withScheduled task (scheduled t)) sorted out)
  /\ StronglySorted
       (fun a b => part a < part b
                   \/ (part a = part b /\ estimatedMinutes b <= estimatedMinutes a))
       out.
Proof.
  intros Hrun. apply rescheduleTasks_shape in Hrun.
  pose proof (sortedTasks_in_order subtasks) as Hsorted.
  split.
  - exists (sort Scheduler.byPartThenLongest subtasks). split; [apply sort_perm|].
    eapply Forall2_impl; [exact Hrun|]. intros task t Ht.
    unfold slotted in Ht. by rewrite Ht.
  - revert Hrun Hsorted. generalize (sort Scheduler.byPartThenLongest subtasks).
    intros sorted Hrun Hsl. revert out Hrun.
    induction Hsl as [|a sorted Hsl IH Ha]; intros out Hrun.
    + apply Forall2_nil_inv_l in Hrun as ->. constructor.
    + apply Forall2_cons_inv_l in Hrun as (a' & out' & Ha' & Hrest & ->).
      constructor; [by apply IH|].
      rewrite Forall_forall in Ha. apply Forall_forall. intros b' Hb'.
      apply list_elem_of_lookup in Hb' as [i Hi].
      destruct (Forall2_lookup_r _ _ _ _ _ Hrest Hi) as (b & Hb & Hsb).
      apply list_elem_of_lookup_2 in Hb. specialize (Ha b Hb).
      destruct (slotted_end _ _ Ha') as (_ & _ & Hma).
      destruct (slotted_end _ _ Hsb) as (_ & _ & Hmb).
      assert (part a' = part a) as -> by (by rewrite Ha').
      assert (part b' = part b) as -> by (by rewrite Hsb).
      rewrite Hma, Hmb. unfold Scheduler.byPartThenLongest in Ha.
      destruct (Z.eqb_spec (part a) (part b)); simpl in Ha; lia.
Qed.

Lemma rescheduleTasks_reorders_witness :
  exists out fuel',
    Scheduler.rescheduleTasks 0 [someTask "Bob" 60; someTask "Eve" 600]
      864000000 officeHours 12%nat = Done (out, fuel')
    /\ (exists sorted,
          sorted ≡ₚ [someTask "Bob" 60; someTask "Eve" 600]
          /\ Forall2 (fun task t => t = withScheduled task (scheduled t)) sorted out)
    /\ StronglySorted
         (fun a b => part a < part b
                     \/ (part a = part b
                         /\ estimatedMinutes b <= estimatedMinutes a))
         out.
Proof.
  eexists _, _. split; [vm_compute; reflexivity|].
  apply (rescheduleTasks_reorders 0 [someTask "Bob" 60; someTask "Eve" 600]
           864000000 officeHours 12%nat _ 12%nat).
  vm_compute. reflexivity.
Defined.

(** ** The hours before the due date *)

(** The rounds of the loop of [calculateAvailableHours]: the days from the
    first instant that begin before the due date. *)
Definition rounds (from dueDate : Z) : nat :=
  Z.to_nat ((dueDate - from + MS_DAY - 1) / MS_DAY).

(** The working days among [n] days in a row, the first being the day of
    [from]. *)
Fixpoint countWorking (c : SchedulingConstraints) (from : Z) (n : nat) : Z :=
  match n with
  | O => 0
  | S n' =>
      (if includes (daysOfWeek c) (day from) then 1 else 0)
      + countWorking c (add from 1 Day) n'
  end.

Section HoursClosedForm.

Variable c : SchedulingConstraints.

Lemma rounds_zero from dueDate : dueDate <= from -> rounds from dueDate = 0%nat.
Proof.
  intros Hle. unfold rounds.
  assert ((dueDate - from + MS_DAY - 1) / MS_DAY < 1); [|lia].
  apply Z.div_lt_upper_bound; unfold MS_DAY; lia.
Qed.

Lemma rounds_step from dueDate :
  from < dueDate -> rounds from dueDate = S (rounds (add from 1 Day) dueDate).
Proof.
  intros Hlt. unfold rounds, add, unitMs.
  replace (dueDate - from + MS_DAY - 1)
    with (dueDate - (from + 1 * MS_DAY) + MS_DAY - 1 + 1 * MS_DAY) by lia.
  rewrite Z.div_add by done.
  assert (0 <= (dueDate - (from + 1 * MS_DAY) + MS_DAY - 1) / MS_DAY)
    by (apply Z.div_pos; unfold MS_DAY; lia).
  lia.
Qed.

Lemma countWorking_range from n : 0 <= countWorking c from n <= Z.of_nat n.
Proof.
  revert from. induction n as [|n IH]; intros from; [simpl; lia|].
  cbn [countWorking]. specialize (IH (add from 1 Day)).
  destruct (includes _ _); lia.
Qed.

Lemma hours_closed_form dueDate n : forall from total fuel,
  rounds from dueDate = n -> (n <= fuel)%nat ->
  while_ (fun st : Z * Z => isBefore st.1 dueDate)
    (fun st : Z * Z =>
       (add st.1 1 Day,
        if includes (daysOfWeek c) (day st.1)
        then st.2 + (endHour c - startHour c) else st.2))
    (from, total) fuel
  = Done ((add from (Z.of_nat n) Day,
           total + (endHour c - startHour c) * countWorking c from n),
          (fuel - n)%nat).
Proof.
  induction n as [|n IH]; intros from total fuel Hn Hfuel.
  - assert (Hle : dueDate <= from).
    { destruct (Z.le_gt_cases dueDate from) as [|Hlt]; [done|].
      rewrite rounds_step in Hn by done. done. }
    assert (Hc : isBefore from dueDate = false) by (unfold isBefore; lia).
    rewrite Nat.sub_0_r. cbn [countWorking].
    replace (add from (Z.of_nat 0) Day) with from by (unfold add; simpl; lia).
    replace (total + (endHour c - startHour c) * 0) with total by lia.
    destruct fuel; simpl; by rewrite Hc.
  - assert (Hlt : from < dueDate).
    { destruct (Z.le_gt_cases dueDate from) as [Hle|]; [|lia].
      rewrite rounds_zero in Hn by done. done. }
    rewrite rounds_step in Hn by done. injection Hn as Hn.
    destruct fuel as [|fuel]; [lia|].
    assert (Hc : isBefore from dueDate = true) by (unfold isBefore; lia).
    simpl while_. rewrite Hc. rewrite (IH _ _ fuel Hn) by lia.
    f_equal. f_equal. f_equal.
    + unfold add, unitMs. lia.
    + cbn [countWorking]. destruct (includes _ _); lia.
Qed.

End HoursClosedForm.

Lemma calculateAvailableHours_closed now dueDate c fuel :
  let from := atHour (add now 1 Day) (startHour c) in
  (rounds from dueDate <= fuel)%nat ->
  Scheduler.calculateAvailableHours now dueDate c fuel
  = Done ((endHour c - startHour c) * countWorking c from (rounds from dueDate),
          (fuel - rounds from dueDate)%nat).
Proof.
  intros from Hfuel. unfold Scheduler.calculateAvailableHours.
  erewrite bind_run;
    [|exact (hours_closed_form c dueDate _ from 0 fuel eq_refl Hfuel)].
  done.
Qed.

(** X5: [calculateAvailableHours] is the length of the working window,
    [endHour - startHour], times the number of working days among the days
    that begin before the due date, counted from tomorrow at [startHour]; a
    day that has begun counts in full. The loop burns one unit of fuel a
    day. *)
Theorem calculateAvailableHours_counts_working_days now dueDate c fuel :
  let from := atHour (add now 1 Day) (startHour c) in
  (rounds from dueDate <= fuel)%nat ->
  Scheduler.calculateAvailableHours now dueDate c fuel
  = Done ((endHour c - startHour c) * countWorking c from (rounds from dueDate),
          (fuel - rounds from dueDate)%nat).
Proof. exact (calculateAvailableHours_closed now dueDate c fuel). Qed.

Lemma calculateAvailableHours_counts_working_days_witness :
  Scheduler.calculateAvailableHours 0 864000000 officeHours 12%nat
  = Done ((endHour officeHours - startHour officeHours)
          * countWorking officeHours (atHour (add 0 1 Day) (startHour officeHours))
              (rounds (atHour (add 0 1 Day) (startHour officeHours)) 864000000),
          (12 - rounds (atHour (add 0 1 Day) (startHour officeHours)) 864000000)%nat).
Proof.
  apply (calculateAvailableHours_counts_working_days 0 864000000 officeHours 12%nat).
  vm_compute. lia.
Defined.

(** The minutes of a list of subtasks, as [reduce] adds them up. *)
Definition sumMinutes (subtasks : list AISubtask) : Z :=
  foldl (fun sum task => sum + estimatedMinutes task) 0 subtasks.

(** X6: with a due date that is not after tomorrow at [startHour] there are
    no hours at all, whatever the constraints and the number of members, and
    no fuel is burnt; a plan is then feasible only if its minutes add up to
    nothing. *)
Theorem no_hours_before_tomorrow now subtasks dueDate c memberCount fuel :
  dueDate <= atHour (add now 1 Day) (startHour c) ->
  exists r,
    Scheduler.validateScheduleFeasibility now subtasks dueDate c memberCount fuel
    = Done (r, fuel)
    /\ Scheduler.availableHours r = 0
    /\ (Scheduler.feasible r = true <-> sumMinutes subtasks <= 0).
Proof.
  intros Hdue. unfold Scheduler.validateScheduleFeasibility.
  pose proof (calculateAvailableHours_closed now dueDate c fuel) as Hrun.
  simpl in Hrun. rewrite rounds_zero in Hrun by done.
  rewrite Nat.sub_0_r in Hrun. cbn [countWorking] in Hrun.
  eexists. split; [by erewrite bind_run; [|apply Hrun; lia]|].
  cbn [Scheduler.availableHours Scheduler.feasible]. split; [lia|].
  fold (sumMinutes subtasks). rewrite Qle_bool_iff. unfold Qle. simpl.
  replace ((endHour c - startHour c) * 0 * memberCount * 8) with 0 by lia.
  lia.
Qed.

Lemma no_hours_before_tomorrow_witness :
  exists r,
    Scheduler.validateScheduleFeasibility 0 [someTask "Bob" 10000] 86400000
      officeHours 1 0%nat = Done (r, 0%nat)
    /\ Scheduler.availableHours r = 0
    /\ (Scheduler.feasible r = true <-> sumMinutes [someTask "Bob" 10000] <= 0).
Proof.
  apply (no_hours_before_tomorrow 0 [someTask "Bob" 10000] 86400000 officeHours
           1 0%nat).
  vm_compute. discriminate.
Defined.

Lemma sumMinutes_grows extra : forall a,
  Forall (fun t => 0 <= estimatedMinutes t) extra ->
  a <= foldl (fun sum task => sum + estimatedMinutes task) a extra.
Proof.
  induction extra as [|t extra IH]; intros a Hall; [simpl; lia|].
  apply Forall_cons in Hall as [Ht Hall]. simpl.
  specialize (IH (a + estimatedMinutes t) Hall). lia.
Qed.

(** X7: a plan that is feasible stays feasible with more members and with
    fewer tasks: given a window that is not inverted, if the report for some
    subtasks and further ones is feasible with [m1] members, the report for
    the subtasks alone with [m2 >= m1] members is feasible too, needs no more
    hours and has no fewer. *)
Theorem feasible_with_more_members_and_fewer_tasks now subtasks extra dueDate c
    m1 m2 fuel r1 fuel' :
  startHour c <= endHour c -> m1 <= m2 ->
  Forall (fun t => 0 <= estimatedMinutes t) extra ->
  Scheduler.validateScheduleFeasibility now (subtasks ++ extra) dueDate c m1 fuel
  = Done (r1, fuel') ->
  Scheduler.feasible r1 = true ->
  exists r2,
    Scheduler.validateScheduleFeasibility now subtasks dueDate c m2 fuel
    = Done (r2, fuel')
    /\ Scheduler.feasible r2 = true
    /\ (Scheduler.requiredHours r2 <= Scheduler.requiredHours r1)%Q
    /\ Scheduler.availableHours r1 <= Scheduler.availableHours r2.
Proof.
  intros Hhours Hm Hextra Hrun Hfeas.
  unfold Scheduler.validateScheduleFeasibility in *.
  apply bind_Done in Hrun as (h & f1 & Hcalc & [= <- <-]).
  assert (Hh : 0 <= h).
  { unfold Scheduler.calculateAvailableHours in Hcalc.
    apply bind_Done in Hcalc as (st & f2 & Hloop & [= <- <-]).
    by apply (hours_grow c Hhours) in Hloop. }
  eexists. split; [by erewrite bind_run; [|exact Hcalc]|].
  cbn [Scheduler.availableHours Scheduler.feasible Scheduler.requiredHours] in *.
  assert (Hav : h * m1 <= h * m2) by (by apply Z.mul_le_mono_nonneg_l).
  rewrite foldl_app in Hfeas |- *.
  pose proof (sumMinutes_grows extra
                (foldl (fun sum task => sum + estimatedMinutes task) 0 subtasks)
                Hextra) as Hsum.
  rewrite Qle_bool_iff in Hfeas |- *. unfold Qle in *. simpl in *.
  split_and!; lia.
Qed.

Lemma feasible_with_more_members_and_fewer_tasks_witness :
  exists r1 fuel' r2,
    Scheduler.validateScheduleFeasibility 0
      ([someTask "Bob" 600] ++ [someTask "Eve" 60]) 864000000 officeHours 1 12%nat
    = Done (r1, fuel')
    /\ Scheduler.validateScheduleFeasibility 0 [someTask "Bob" 600] 864000000
         officeHours 2 12%nat = Done (r2, fuel')
    /\ Scheduler.feasible r2 = true
    /\ (Scheduler.requiredHours r2 <= Scheduler.requiredHours r1)%Q
    /\ Scheduler.availableHours r1 <= Scheduler.availableHours r2.
Proof.
  eexists _, _. 
  assert (Hrun : Scheduler.validateScheduleFeasibility 0
            ([someTask "Bob" 600] ++ [someTask "Eve" 60]) 864000000 officeHours
            1 12%nat
          = Done ({| Scheduler.feasible := true;
                     Scheduler.requiredHours := Qmake 660 60;
                     Scheduler.availableHours := 48 |}, 3%nat))
    by (vm_compute; reflexivity).
  destruct (feasible_with_more_members_and_fewer_tasks 0 [someTask "Bob" 600]
              [someTask "Eve" 60] 864000000 officeHours 1 2 12%nat _ _
              ltac:(simpl; lia) ltac:(lia) ltac:(repeat constructor; simpl; lia)
              Hrun eq_refl) as (r2 & H2 & Hrest).
  exists r2. split; [exact Hrun|]. split; [exact H2|exact Hrest].
Defined.

(** ** The names the balancer hands out *)

Section BalancerNames.

Lemma setW_keys w k v k' : k' ∈ (setW w k v).*1 -> k' ∈ w.*1 \/ k' = k.
Proof.
  induction w as [|[k0 v0] w IH]; simpl.
  - intros ->%list_elem_of_singleton. by right.
  - destruct (String.eqb k0 k); simpl; [by left|].
    intros [->|Hin]%elem_of_cons; [left; left|].
    destruct (IH Hin) as [?|?]; [left; by right|by right].
Qed.

Lemma foldOpt_cons {A S : Type} (f : S -> A -> option S) x l s s' :
  foldOpt f (x :: l) s = Some s' ->
  exists s1, f s x = Some s1 /\ foldOpt f l s1 = Some s'.
Proof.
  cbn [foldOpt]. destruct (f s x) as [s1|]; [|done]. simpl. eauto.
Qed.

Variable objs : gmap loc AISubtask.
Variable tasks : list loc.

(** A name that some record of the array carries in the store given. *)
Definition nameOfInput (k : string) : Prop :=
  exists l0 t0, l0 ∈ tasks /\ objs !! l0 = Some t0 /\ assignee t0 = k.

Lemma countWorkload_keys ls : forall w w',
  (forall l, l ∈ ls -> l ∈ tasks) ->
  foldOpt (countWorkload objs) ls w = Some w' ->
  forall k, k ∈ w'.*1 -> k ∈ w.*1 \/ nameOfInput k.
Proof.
  induction ls as [|l ls IH]; intros w w' Hsub.
  - intros [= <-] k Hk. by left.
  - intros (w1 & Hstep & Hrun)%foldOpt_cons k Hk.
    destruct (IH w1 w' ltac:(intros; apply Hsub; by right) Hrun k Hk)
      as [Hk1|?]; [|by right].
    unfold countWorkload in Hstep.
    destruct (objs !! l) as [task|] eqn:Hl; [|done]. injection Hstep as <-.
    assert (Hname : nameOfInput (assignee task)).
    { exists l, task. split; [apply Hsub; left|done]. }
    apply setW_keys in Hk1 as [Hk1| ->]; [|by right].
    destruct (bool_decide _); [|by left].
    apply setW_keys in Hk1 as [Hk1| ->]; [by left|by right].
Qed.

Lemma Object_keys_sub w k : k ∈ Object_keys w -> k ∈ w.*1.
Proof.
  unfold Object_keys. intros [Hin|Hin]%elem_of_app.
  - apply list_elem_of_fmap in Hin as ([n k'] & -> & Hin).
    rewrite sort_perm in Hin.
    apply list_elem_of_omap in Hin as (k0 & Hk0 & Hn).
    destruct (arrayIndex k0); [|done]. by injection Hn as _ <-.
  - by apply list_elem_of_filter in Hin as [_ ?].
Qed.

(** While the tasks are reassigned, the sorted names are names of the
    input, and a record is as it was or carries such a name. *)
Definition namesKept (st : BalanceState) : Prop :=
  (forall a, a ∈ sortedMembers st -> nameOfInput a)
  /\ (forall l t, bsObjects st !! l = Some t ->
                  objs !! l = Some t \/ nameOfInput (assignee t)).

Lemma reassign_namesKept ls : forall st st',
  namesKept st -> foldOpt reassign ls st = Some st' -> namesKept st'.
Proof.
  induction ls as [|l ls IH]; intros st st' Hinv.
  - by intros [= <-].
  - intros (st1 & Hstep & Hrun)%foldOpt_cons. apply (IH st1 st'); [|done].
    unfold reassign in Hstep.
    destruct (bsObjects st !! l) as [task|] eqn:Hl; [|done]. simpl in Hstep.
    destruct (sortedMembers st !! _) as [a|] eqn:Ha; [|done].
    injection Hstep as <-. destruct Hinv as [Hsorted Hobjs].
    assert (Hname : nameOfInput a).
    { apply Hsorted. by eapply list_elem_of_lookup_2. }
    split; simpl.
    + intros b Hb. rewrite sort_perm in Hb. by apply Hsorted.
    + intros l' t. destruct (decide (l = l')) as [<-|Hne].
      * rewrite lookup_insert_eq. intros [= <-]. by right.
      * rewrite lookup_insert_ne by done. apply Hobjs.
Qed.

End BalancerNames.

Lemma balanced_names h subtasks tasks h' balanced :
  arrays h !! subtasks = Some tasks ->
  balanceWorkload h subtasks = Some (h', balanced) ->
  forall l t', l ∈ tasks -> objects h' !! l = Some t' ->
    nameOfInput (objects h) tasks (assignee t').
Proof.
  intros Harr. unfold balanceWorkload. rewrite Harr. simpl.
  destruct (foldOpt (countWorkload (objects h)) tasks []) as [w|] eqn:Hw; [|done].
  simpl. destruct (foldOpt reassign tasks _) as [st|] eqn:Hst; [|done].
  simpl. intros [= <- <-] l t' Hl Ht'. simpl in Ht'.
  apply (reassign_namesKept (objects h) tasks) in Hst as [_ Hobjs].
  - destruct (Hobjs l t' Ht') as [Hsame|?]; [by exists l, t'|done].
  - split; simpl; [|by left].
    intros a Ha. rewrite sort_perm in Ha. apply Object_keys_sub in Ha.
    destruct (countWorkload_keys (objects h) tasks tasks [] w ltac:(done) Hw a Ha)
      as [Hnil|?]; [|done].
    by apply elem_of_nil in Hnil.
Qed.




(** Two subtasks of one member, in an array at reference 3. *)
Definition sameName : heap :=
  {| objects := <[1%positive := someTask "a" 100]>
                  (<[2%positive := someTask "a" 1]> ∅);
     arrays := {[ 3%positive := [1%positive; 2%positive] ]} |}.


(** ** The layout of the fallback plan *)

Section FallbackLayout.

Lemma lookup_omap_total {A B : Type} (f : A -> option B) (l : list A) :
  (forall x, x ∈ l -> is_Some (f x)) ->
  forall j, omap f l !! j = l !! j ≫= f.
Proof.
  induction l as [|x l IH]; intros Hall j; [done|].
  destruct (Hall x) as [y Hy]; [left|]. cbn [omap list_omap]. rewrite Hy.
  destruct j as [|j]; simpl; [done|].
  apply IH. intros x' Hx'. apply Hall. by right.
Qed.

Lemma length_omap_total {A B : Type} (f : A -> option B) (l : list A) :
  (forall x, x ∈ l -> is_Some (f x)) -> length (omap f l) = length l.
Proof.
  induction l as [|x l IH]; intros Hall; [done|].
  destruct (Hall x) as [y Hy]; [left|]. cbn [omap list_omap]. rewrite Hy.
  simpl. f_equal. apply IH. intros x' Hx'. apply Hall. by right.
Qed.

(** The [j]-th element of lists of one length [n], joined. *)
Lemma lookup_join_uniform {A B : Type} (f : A -> list B) (n : nat) (l : list A) :
  (0 < n)%nat -> (forall x, x ∈ l -> length (f x) = n) ->
  forall i, mjoin (f <$> l) !! i
            = l !! (i / n)%nat ≫= fun x => f x !! (i mod n)%nat.
Proof.
  intros Hn. induction l as [|x l IH]; intros Hall i; [done|].
  change (mjoin (f <$> x :: l)) with (f x ++ mjoin (f <$> l)).
  assert (Hx : length (f x) = n) by (apply Hall; left).
  destruct (Nat.lt_ge_cases i n) as [Hlt|Hge].
  - rewrite lookup_app_l by lia.
    rewrite Nat.div_small, Nat.mod_small by done. done.
  - rewrite lookup_app_r by lia. rewrite Hx.
    rewrite IH by (intros x' Hx'; apply Hall; by right).
    assert (Hd : (i / n = S ((i - n) / n))%nat).
    { replace i with ((i - n) + 1 * n)%nat at 1 by lia.
      rewrite Nat.div_add by lia. lia. }
    assert (Hm : (i mod n = (i - n) mod n)%nat).
    { replace i with ((i - n) + 1 * n)%nat at 1 by lia.
      by rewrite Nat.Div0.mod_add. }
    by rewrite Hd, Hm.
Qed.

Lemma length_join_uniform {A B : Type} (f : A -> list B) (n : nat) (l : list A) :
  (forall x, x ∈ l -> length (f x) = n) ->
  length (mjoin (f <$> l)) = (length l * n)%nat.
Proof.
  induction l as [|x l IH]; intros Hall; [done|].
  change (mjoin (f <$> x :: l)) with (f x ++ mjoin (f <$> l)).
  rewrite length_app, IH.
  - rewrite (Hall x) by left. simpl. lia.
  - intros x' Hx'. apply Hall. by right.
Qed.

Lemma template_at (j : Z) :
  0 <= j ->
  is_Some (AIPlanner.taskTemplates
             !! Z.to_nat (j mod Z.of_nat (length AIPlanner.taskTemplates))).
Proof.
  intros Hj. apply lookup_lt_is_Some.
  pose proof (Z.mod_pos_bound j (Z.of_nat (length AIPlanner.taskTemplates))).
  simpl in *. lia.
Qed.

Lemma generatePartTasks_length partNumber tasksPerPart title description :
  length (AIPlanner.generatePartTasks partNumber tasksPerPart title description)
  = Z.to_nat tasksPerPart.
Proof.
  unfold AIPlanner.generatePartTasks. rewrite length_omap_total.
  - apply length_seqZ.
  - intros i [Hi _]%elem_of_seqZ.
    destruct (template_at i Hi) as [t ->]. by eexists.
Qed.

(** The [j]-th task of a part comes from the template [j % 6]. *)
Lemma generatePartTasks_lookup partNumber tasksPerPart title description j p :
  AIPlanner.generatePartTasks partNumber tasksPerPart title description !! j
  = Some p ->
  exists template,
    AIPlanner.taskTemplates !! (j mod 6)%nat = Some template
    /\ p = {| AIPlanner.pPart := Some partNumber;
              AIPlanner.pTitle :=
                Some ("Part " +:+ pretty partNumber +:+ ": "
                      +:+ AIPlanner.tTitle template);
              AIPlanner.pDetails :=
                Some (AIPlanner.tDetails template +:+ " for " +:+ title);
              AIPlanner.pAssignee := None;
              AIPlanner.pEstimatedMinutes := Some (AIPlanner.tMinutes template);
              AIPlanner.pScheduled := None |}.
Proof.
  unfold AIPlanner.generatePartTasks. rewrite lookup_omap_total.
  - destruct (seqZ 0 tasksPerPart !! j) as [i|] eqn:Hi; [|done].
    apply lookup_seqZ in Hi as [-> Hj]. cbn [mbind option_bind].
    assert (Hidx : Z.to_nat ((0 + Z.of_nat j)
                             mod Z.of_nat (length AIPlanner.taskTemplates))
                   = (j mod 6)%nat).
    { change (length AIPlanner.taskTemplates) with 6%nat.
      rewrite Z.add_0_l, <- Nat2Z.inj_mod. apply Nat2Z.id. }
    rewrite Hidx.
    destruct (AIPlanner.taskTemplates !! (j mod 6)%nat) as [t|]; [|done].
    intros [= <-]. by exists t.
  - intros i [Hi _]%elem_of_seqZ.
    destruct (template_at i Hi) as [t ->]. by eexists.
Qed.

End FallbackLayout.

(** The subtask at position [i] of a fallback plan with [perPart] tasks a
    part: its part is [i / perPart + 1] and it is cut from the template
    [(i % perPart) % 6]. *)
Definition laidOut (input : PlanningInput) (perPart i : nat) (t : AISubtask)
    : Prop :=
  part t = Z.of_nat (i / perPart) + 1
  /\ 1 <= part t <= inParts input
  /\ exists template,
       AIPlanner.taskTemplates !! ((i mod perPart) mod 6)%nat = Some template
       /\ title t = "Part " +:+ pretty (part t) +:+ ": "
                    +:+ AIPlanner.tTitle template
       /\ details t = AIPlanner.tDetails template +:+ " for " +:+ inTitle input
       /\ estimatedMinutes t = AIPlanner.tMinutes template.

(** The tasks of a part before they are completed, and the candidates of a
    plan as [generateFallbackPlan] lists them. *)
Definition candidates (now : Z) (input : PlanningInput)
    : list (outcome AISubtask) :=
  mjoin ((fun part =>
            AIPlanner.completeTask now (inMembers input) part
              <$> AIPlanner.generatePartTasks part
                    (Z.max 2 (8 / inParts input))
                    (inTitle input) (inDescription input))
         <$> seqZ 1 (inParts input)).

Section FallbackCandidates.

Variables (now : Z) (input : PlanningInput).

Let perPart : nat := Z.to_nat (Z.max 2 (8 / inParts input)).

Lemma orZ_same a : orZ a a = a.
Proof. unfold orZ. by destruct (Z.eqb_spec a 0). Qed.

Lemma completeTask_generated members partNumber template title :
  template ∈ AIPlanner.taskTemplates ->
  AIPlanner.completeTask now members partNumber
    {| AIPlanner.pPart := Some partNumber;
       AIPlanner.pTitle :=
         Some ("Part " +:+ pretty partNumber +:+ ": "
               +:+ AIPlanner.tTitle template);
       AIPlanner.pDetails :=
         Some (AIPlanner.tDetails template +:+ " for " +:+ title);
       AIPlanner.pAssignee := None;
       AIPlanner.pEstimatedMinutes := Some (AIPlanner.tMinutes template);
       AIPlanner.pScheduled := None |}
  = match members with
    | [] => Throws TypeError
    | m :: _ =>
        Done {| part := partNumber;
                title := "Part " +:+ pretty partNumber +:+ ": "
                         +:+ AIPlanner.tTitle template;
                details := AIPlanner.tDetails template +:+ " for " +:+ title;
                assignee := name m;
                estimatedMinutes := AIPlanner.tMinutes template;
                scheduled := {| start := add now 1 Day;
                                end_ := add (add now 1 Day) 1 Hour |} |}
    end.
Proof.
  intros Hin. unfold AIPlanner.completeTask.
  cbn [AIPlanner.pPart AIPlanner.pTitle AIPlanner.pDetails AIPlanner.pAssignee
       AIPlanner.pEstimatedMinutes AIPlanner.pScheduled default].
  unfold Datatypes.id. rewrite orZ_same.
  destruct members as [|m ms]; [done|].
  unfold AIPlanner.taskTemplates in Hin.
  repeat (apply elem_of_cons in Hin as [->|Hin]; [reflexivity|]).
  by apply elem_of_nil in Hin.
Qed.

Lemma candidates_length :
  length (candidates now input) = (Z.to_nat (inParts input) * perPart)%nat.
Proof.
  unfold candidates. rewrite (length_join_uniform _ perPart).
  - by rewrite length_seqZ.
  - intros part _. by rewrite length_fmap, generatePartTasks_length.
Qed.

(** The candidate at position [i]: it throws without a member, and is laid
    out as said with the name of the first member otherwise. *)
Lemma candidates_lookup i o :
  candidates now input !! i = Some o ->
  match inMembers input with
  | [] => o = Throws TypeError
  | m :: _ =>
      exists t, o = Done t /\ laidOut input perPart i t /\ assignee t = name m
                /\ title t <> "" /\ details t <> ""
  end.
Proof.
  unfold candidates.
  assert (Hpos : (0 < perPart)%nat) by (subst perPart; lia).
  rewrite (lookup_join_uniform _ perPart) by
    (done || intros part _; by rewrite length_fmap, generatePartTasks_length).
  destruct (seqZ 1 (inParts input) !! (i / perPart)%nat) as [part|] eqn:Hpart;
    [|done].
  apply lookup_seqZ in Hpart as [-> Hparts]. cbn [mbind option_bind].
  rewrite list_lookup_fmap.
  destruct (AIPlanner.generatePartTasks _ _ _ _ !! (i mod perPart)%nat)
    as [p|] eqn:Hp; [|done].
  apply generatePartTasks_lookup in Hp as (template & Htemplate & ->).
  simpl. intros [= <-].
  rewrite completeTask_generated by (by eapply list_elem_of_lookup_2).
  destruct (inMembers input) as [|m ms]; [done|].
  eexists. split; [done|]. split; [|split; [done|]].
  - split; [simpl; lia|]. split; [simpl; lia|]. exists template. split; [done|].
    cbn [part title details estimatedMinutes].
    by replace (1 + Z.of_nat (i / perPart)) with (Z.of_nat (i / perPart) + 1) by lia.
  - split; [done|]. cbn [details].
    apply list_elem_of_lookup_2 in Htemplate.
    unfold AIPlanner.taskTemplates in Htemplate.
    repeat (apply elem_of_cons in Htemplate as [->|Htemplate]; [done|]).
    by apply elem_of_nil in Htemplate.
Qed.

End FallbackCandidates.

Section AssignMembers.

Variable members : list Member.

Lemma assignMember_Done index task t' :
  AIPlanner.assignMember members index task = Done t' ->
  exists m, m ∈ members /\ t' = withAssignee task (name m).
Proof.
  unfold AIPlanner.assignMember.
  destruct (members !! _) as [roundRobin|] eqn:Hrr; [|done].
  apply list_elem_of_lookup_2 in Hrr. intros [= <-].
  destruct (truthyStr (title task) && truthyStr (details task)); [|eauto].
  destruct (List.find _ members) as [m|] eqn:Hfind; [|eauto].
  apply List.find_some in Hfind as [Hin _]. apply list_elem_of_In in Hin. eauto.
Qed.

(** Without a member that has a role, the choice is the round robin. *)
Lemma assignMember_no_role index task t' :
  (forall m, m ∈ members -> role m = None) ->
  AIPlanner.assignMember members index task = Done t' ->
  exists m, members !! (index mod length members)%nat = Some m
            /\ t' = withAssignee task (name m).
Proof.
  intros Hnone. unfold AIPlanner.assignMember.
  destruct (members !! _) as [roundRobin|] eqn:Hrr; [|done].
  intros [= <-]. exists roundRobin. split; [done|].
  destruct (truthyStr (title task) && truthyStr (details task)); [|done].
  destruct (List.find _ members) as [m|] eqn:Hfind; [|done].
  apply List.find_some in Hfind as [Hin Hp]. apply list_elem_of_In in Hin.
  unfold AIPlanner.prefers in Hp. by rewrite (Hnone m Hin) in Hp.
Qed.

Lemma assignMembersFrom_lookup subtasks : forall index assigned,
  AIPlanner.assignMembersFrom members index subtasks = Done assigned ->
  length assigned = length subtasks
  /\ forall k t', assigned !! k = Some t' ->
       exists t, subtasks !! k = Some t
                 /\ AIPlanner.assignMember members (index + k) t = Done t'.
Proof.
  induction subtasks as [|task rest IH]; intros index assigned; simpl.
  - intros [= <-]. split; [done|]. intros k t' Hk. by rewrite lookup_nil in Hk.
  - destruct (AIPlanner.assignMember members index task) as [t1| |] eqn:Ht; [|done..].
    destruct (AIPlanner.assignMembersFrom members (S index) rest) as [r| |] eqn:Hr;
      [|done..].
    intros [= <-]. destruct (IH _ _ Hr) as [Hlen Hlook].
    split; [simpl; by rewrite Hlen|].
    intros [|k] t'; simpl.
    + intros [= <-]. exists task. by rewrite Nat.add_0_r.
    + intros Hk. destruct (Hlook k t' Hk) as (t & ? & ?). exists t.
      by replace (index + S k)%nat with (S index + k)%nat by lia.
Qed.

Lemma assignMembersFrom_Done subtasks : forall index,
  members <> [] ->
  exists assigned, AIPlanner.assignMembersFrom members index subtasks = Done assigned.
Proof.
  induction subtasks as [|task rest IH]; intros index Hne; [by eexists|].
  simpl. unfold AIPlanner.assignMember at 1.
  destruct (lookup_lt_is_Some_2 members (index mod length members)) as [m ->].
  { apply Nat.mod_upper_bound. by destruct members. }
  destruct (IH (S index) Hne) as (r & ->). by eexists.
Qed.

End AssignMembers.

Section FallbackPlan.

Variables (now : Z) (input : PlanningInput).

Let perPart : nat := Z.to_nat (Z.max 2 (8 / inParts input)).

Lemma sequence_all_Done {A : Type} (l : list (outcome A)) :
  (forall o, o ∈ l -> exists a, o = Done a) ->
  exists r, AIPlanner.sequence l = Done r.
Proof.
  induction l as [|o l IH]; intros Hall; [by eexists|].
  destruct (Hall o) as [a ->]; [left|]. simpl.
  destruct IH as [r ->]; [|by eexists].
  intros o' Ho'. apply Hall. by right.
Qed.

Lemma generateFallbackPlan_unfold fuel :
  AIPlanner.generateFallbackPlan now input fuel
  = (subtasks ← AIPlanner.lift (AIPlanner.sequence (candidates now input));
     subtasks ← AIPlanner.lift
                  (AIPlanner.assignMembersToTasks subtasks (inMembers input));
     AIPlanner.scheduleTasks now subtasks (inDueDate input)
       (inConstraints input)) fuel.
Proof. reflexivity. Qed.

(** What comes out of a fallback plan, position by position. *)
Lemma generateFallbackPlan_lookup fuel out fuel' i t :
  AIPlanner.generateFallbackPlan now input fuel = Done (out, fuel') ->
  out !! i = Some t ->
  exists cand a, laidOut input perPart i cand
    /\ title cand <> "" /\ details cand <> ""
    /\ AIPlanner.assignMember (inMembers input) i cand = Done a
    /\ t = withScheduled a (scheduled t).
Proof.
  rewrite generateFallbackPlan_unfold. intros Hrun Hi.
  apply bind_Done in Hrun as (cands & f1 & Hc & Hrun).
  apply lift_Done in Hc as [Hc ->].
  apply bind_Done in Hrun as (assigned & f2 & Ha & Hrun).
  apply lift_Done in Ha as [Ha ->].
  apply scheduleTasks_shape in Hrun.
  destruct (Forall2_lookup_r _ _ _ _ _ Hrun Hi) as (a & Hai & Hv).
  apply assignMembersFrom_lookup in Ha as [_ Ha].
  destruct (Ha i a Hai) as (cand & Hci & Hassign). simpl in Hassign.
  apply sequence_Done in Hc.
  destruct (Forall2_lookup_r _ _ _ _ _ Hc Hci) as (o & Ho & ->).
  apply candidates_lookup in Ho.
  destruct (inMembers input) as [|m ms] eqn:Hm; [done|].
  destruct Ho as (t0 & [= <-] & Hlay & _ & Htitle & Hdetails).
  assert (Hsame : t = withScheduled a (scheduled t)).
  { unfold visitedAs in Hv. destruct (unplaced a); [by subst; destruct a|].
    unfold slotted in Hv. by rewrite Hv. }
  by exists cand, a.
Qed.

End FallbackPlan.

Lemma generateFallbackPlan_returns now input fuel :
  inMembers input <> [] -> validConstraints (inConstraints input) ->
  let size := (Z.to_nat (inParts input)
               * Z.to_nat (Z.max 2 (8 / inParts input)))%nat in
  (12 * size <= fuel)%nat ->
  exists out fuel',
    AIPlanner.generateFallbackPlan now input fuel = Done (out, fuel')
    /\ length out = size.
Proof.
  intros Hne Hvalid size Hfuel. rewrite generateFallbackPlan_unfold.
  destruct (sequence_all_Done (candidates now input)) as (cands & Hc).
  { intros o [i Hi]%list_elem_of_lookup. apply candidates_lookup in Hi.
    destruct (inMembers input); [done|]. destruct Hi as (t & -> & _). eauto. }
  assert (Hlen : length cands = size).
  { pose proof (sequence_Done _ _ Hc) as H2. apply Forall2_length in H2.
    by rewrite <- H2, candidates_length. }
  destruct (assignMembersFrom_Done (inMembers input) cands 0%nat Hne)
    as (assigned & Ha).
  pose proof (assignMembersFrom_lookup _ _ _ _ Ha) as [Hlen' _].
  destruct (scheduleTasks_total now assigned (inDueDate input)
              (inConstraints input) Hvalid fuel) as (out & f' & Hrun & _ & Hv & _).
  { rewrite Hlen', Hlen. exact Hfuel. }
  exists out, f'. split.
  - erewrite bind_run; [|by rewrite Hc].
    erewrite bind_run; [|unfold AIPlanner.assignMembersToTasks; by rewrite Ha].
    exact Hrun.
  - apply Forall2_length in Hv. by rewrite <- Hv, Hlen', Hlen.
Qed.


(** A plan of three parts for two members. *)
Definition threeParts : PlanningInput :=
  {| inTitle := "Essay"; inDescription := ""; inDueDate := 1757000000000;
     inParts := 3;
     inMembers := [ {| id := None; name := "Bob"; role := None |};
                    {| id := None; name := "Carol"; role := None |} ];
     inConstraints := officeHours |}.


(** X11: the subtask at position [i] of a fallback plan has the part
    [i / perPart + 1], between 1 and [parts], where [perPart] is
    [max(2, floor(8 / parts))]; its title, details and minutes are those of
    the template [(i % perPart) % 6], and its assignee is the name of one of
    the members. *)
Theorem fallback_plan_layout now input fuel out fuel' i t :
  AIPlanner.generateFallbackPlan now input fuel = Done (out, fuel') ->
  out !! i = Some t ->
  laidOut input (Z.to_nat (Z.max 2 (8 / inParts input))) i t
  /\ exists m, m ∈ inMembers input /\ assignee t = name m.
Proof.
  intros Hrun Hi.
  destruct (generateFallbackPlan_lookup now input fuel out fuel' i t Hrun Hi)
    as (cand & a & Hlay & _ & _ & Ha & Ht).
  destruct (assignMember_Done _ _ _ _ Ha) as (m & Hm & ->).
  rewrite Ht. split; [exact Hlay|]. by exists m.
Qed.

Lemma fallback_plan_layout_witness :
  exists out fuel' t,
    AIPlanner.generateFallbackPlan 0 threeParts 72%nat = Done (out, fuel')
    /\ out !! 3%nat = Some t
    /\ laidOut threeParts (Z.to_nat (Z.max 2 (8 / inParts threeParts))) 3 t
    /\ exists m, m ∈ inMembers threeParts /\ assignee t = name m.
Proof.
  eexists _, _, _. split; [vm_compute; reflexivity|]. split; [reflexivity|].
  eapply (fallback_plan_layout 0 threeParts 72%nat _ _ 3%nat).
  - vm_compute. reflexivity.
  - reflexivity.
Defined.

(** X12: without a member the fallback decomposition of at least one part
    throws a [TypeError], on reading the name of the first member. *)
Theorem fallback_plan_throws_without_member now input fuel :
  inMembers input = [] -> 1 <= inParts input ->
  AIPlanner.generateFallbackPlan now input fuel = Throws TypeError.
Proof.
  intros Hnone Hparts. rewrite generateFallbackPlan_unfold.
  pose proof (candidates_length now input) as Hlen.
  destruct (candidates now input) as [|o rest] eqn:Hc.
  { simpl in Hlen. lia. }
  pose proof (candidates_lookup now input 0%nat o) as Ho.
  rewrite Hc, Hnone in Ho. rewrite (Ho eq_refl). done.
Qed.

Lemma fallback_plan_throws_without_member_witness :
  AIPlanner.generateFallbackPlan 0
    {| inTitle := "X"; inDescription := ""; inDueDate := 864000000;
       inParts := 1; inMembers := []; inConstraints := officeHours |} 96%nat
  = Throws TypeError.
Proof.
  apply (fallback_plan_throws_without_member 0
           {| inTitle := "X"; inDescription := ""; inDueDate := 864000000;
              inParts := 1; inMembers := []; inConstraints := officeHours |}
           96%nat).
  - reflexivity.
  - simpl. lia.
Defined.

(** X13: when no member has a role, the fallback plan is a round robin: the
    subtask at position [i] goes to the member at position
    [i % members.length]. *)
Theorem fallback_plan_round_robin now input fuel out fuel' i t :
  (forall m, m ∈ inMembers input -> role m = None) ->
  AIPlanner.generateFallbackPlan now input fuel = Done (out, fuel') ->
  out !! i = Some t ->
  exists m, inMembers input !! (i mod length (inMembers input))%nat = Some m
            /\ assignee t = name m.
Proof.
  intros Hnone Hrun Hi.
  destruct (generateFallbackPlan_lookup now input fuel out fuel' i t Hrun Hi)
    as (cand & a & _ & _ & _ & Ha & Ht).
  destruct (assignMember_no_role _ _ _ _ Hnone Ha) as (m & Hm & ->).
  rewrite Ht. by exists m.
Qed.

Lemma fallback_plan_round_robin_witness :
  exists out fuel' t m,
    AIPlanner.generateFallbackPlan 0 threeParts 72%nat = Done (out, fuel')
    /\ out !! 3%nat = Some t
    /\ inMembers threeParts !! (3 mod length (inMembers threeParts))%nat = Some m
    /\ assignee t = name m.
Proof.
  destruct (fallback_plan_round_robin 0 threeParts 72%nat
              (match AIPlanner.generateFallbackPlan 0 threeParts 72%nat with
               | Done (out, _) => out | _ => [] end)
              (match AIPlanner.generateFallbackPlan 0 threeParts 72%nat with
               | Done (_, f) => f | _ => 0%nat end)
              3%nat
              (default (someTask "" 0)
                 (match AIPlanner.generateFallbackPlan 0 threeParts 72%nat with
                  | Done (out, _) => out !! 3%nat | _ => None end)))
    as (m & Hm & Ha).
  - intros m Hm. apply elem_of_cons in Hm as [->|Hm]; [done|].
    apply elem_of_cons in Hm as [->|Hm]; [done|]. by apply elem_of_nil in Hm.
  - vm_compute. reflexivity.
  - vm_compute. reflexivity.
  - eexists _, _, _, m. split; [vm_compute; reflexivity|].
    split; [vm_compute; reflexivity|]. split; [exact Hm|exact Ha].
Defined.

(** ** Roles and the title of the assignment *)

Section RoleWords.

Lemma toLowerCase_app a b :
  AIPlanner.toLowerCase (a +:+ b)
  = AIPlanner.toLowerCase a +:+ AIPlanner.toLowerCase b.
Proof. induction a as [|ch a IH]; simpl; [done|]. by rewrite IH. Qed.

Lemma includesStr_app_r a b p :
  AIPlanner.includesStr b p = true -> AIPlanner.includesStr (a +:+ b) p = true.
Proof.
  intros Hb. induction a as [|ch a IH]; [done|].
  change (String ch a +:+ b) with (String ch (a +:+ b)).
  cbn [AIPlanner.includesStr]. rewrite IH. apply orb_true_r.
Qed.

Lemma find_first {A : Type} (p : A -> bool) before x after :
  (forall y, y ∈ before -> p y = false) -> p x = true ->
  List.find p (before ++ x :: after) = Some x.
Proof.
  intros Hbefore Hx. induction before as [|y before IH]; simpl.
  - by rewrite Hx.
  - rewrite (Hbefore y) by left. apply IH. intros z Hz. apply Hbefore. by right.
Qed.

End RoleWords.

(** X14: the words of a role are looked for in the title of the assignment
    too, since the details of every subtask end with it. So when the title
    holds a word of the role of a member, in any case of letters, and no
    member before that one has a role, every subtask of the fallback plan
    goes to that member. *)
Theorem fallback_title_word_sends_all_to_one now input fuel out fuel' before m
    after r prefs pref :
  inMembers input = before ++ m :: after ->
  (forall m', m' ∈ before -> role m' = None) ->
  role m = Some r -> r <> "" ->
  AIPlanner.rolePreferences r = Some prefs -> pref ∈ prefs ->
  AIPlanner.includesStr (AIPlanner.toLowerCase (inTitle input))
    (AIPlanner.toLowerCase pref) = true ->
  AIPlanner.generateFallbackPlan now input fuel = Done (out, fuel') ->
  Forall (fun t => assignee t = name m) out.
Proof.
  intros Hmembers Hbefore Hrole Hr Hprefs Hpref Htitle Hrun.
  apply Forall_forall. intros t [i Hi]%list_elem_of_lookup.
  destruct (generateFallbackPlan_lookup now input fuel out fuel' i t Hrun Hi)
    as (cand & a & Hlay & Hct & Hcd & Ha & Ht).
  rewrite Ht. cbn [assignee withScheduled].
  unfold AIPlanner.assignMember in Ha.
  destruct (inMembers input !! _) as [roundRobin|]; [|done].
  injection Ha as <-. cbn [assignee withAssignee].
  apply String.eqb_neq in Hct, Hcd. unfold truthyStr. rewrite Hct, Hcd.
  cbn [negb andb]. rewrite Hmembers.
  rewrite (find_first _ before m after); [done| |].
  - intros m' Hm'. unfold AIPlanner.prefers. by rewrite (Hbefore m' Hm').
  - unfold AIPlanner.prefers. rewrite Hrole, Hprefs.
    apply String.eqb_neq in Hr. unfold truthyStr. rewrite Hr. cbn [negb andb].
    apply existsb_exists. exists pref. split; [by apply list_elem_of_In|].
    destruct Hlay as (_ & _ & template & _ & _ & Hdetails & _).
    rewrite Hdetails, !toLowerCase_app.
    by do 4 apply includesStr_app_r.
Qed.

(** An essay on research, for Bob and for Carol whose role is research. *)
Definition researchEssay : PlanningInput :=
  {| inTitle := "Essay on Research methods"; inDescription := "";
     inDueDate := 1757000000000; inParts := 1;
     inMembers := [ {| id := None; name := "Bob"; role := None |};
                    {| id := None; name := "Carol"; role := Some "Research" |} ];
     inConstraints := officeHours |}.

Lemma fallback_title_word_sends_all_to_one_witness :
  exists out fuel',
    AIPlanner.generateFallbackPlan 0 researchEssay 96%nat = Done (out, fuel')
    /\ Forall (fun t => assignee t = "Carol") out.
Proof.
  eexists _, _. split; [vm_compute; reflexivity|].
  eapply (fallback_title_word_sends_all_to_one 0 researchEssay 96%nat _ _
            [ {| id := None; name := "Bob"; role := None |} ]
            {| id := None; name := "Carol"; role := Some "Research" |} []
            "Research" _ "Research").
  - reflexivity.
  - intros m' Hm'. apply elem_of_cons in Hm' as [->|Hm']; [done|].
    by apply elem_of_nil in Hm'.
  - reflexivity.
  - done.
  - reflexivity.
  - left.
  - vm_compute. reflexivity.
  - vm_compute. reflexivity.
Defined.

(** ** Tasks and the end of the day in the fallback pass *)

Section ForEachInvariant.

Context {A S : Type}.

Lemma forEach_inv (step : S -> A -> M S) (P : S -> Prop) :
  (forall st x fuel st' fuel',
     P st -> step st x fuel = Done (st', fuel') -> P st') ->
  forall l st fuel st' fuel',
    P st -> forEach step l st fuel = Done (st', fuel') -> P st'.
Proof.
  intros Hstep. induction l as [|x l IH]; intros st fuel st' fuel' Hst.
  - by intros [= <- <-].
  - cbn [forEach]. intros (st1 & f1 & H1 & Hrun)%bind_Done.
    eapply IH; [|exact Hrun]. by eapply Hstep.
Qed.

End ForEachInvariant.

(** A task that ends by the end hour of the day it starts, the minutes and
    seconds of the end hour being those of the start; or that starts on the
    start hour. *)
Definition fitsOrOpensDay (c : SchedulingConstraints) (t : AISubtask) : Prop :=
  endOf t <= setHour (startOf t) (endHour c)
  \/ (hour (startOf t) = startHour c /\ minute (startOf t) = 0
      /\ second (startOf t) = 0).

Section FallbackFit.

Variable c : SchedulingConstraints.
Hypothesis Hstart : 0 <= startHour c < 24.

Lemma nextDay_opens s :
  hour (AIPlanner.nextDay c s) = startHour c
  /\ minute (AIPlanner.nextDay c s) = 0 /\ second (AIPlanner.nextDay c s) = 0.
Proof.
  unfold AIPlanner.nextDay.
  by destruct (atHour_fields (add s 1 Day) _ Hstart) as (_ & ? & ? & ? & _).
Qed.

Lemma scheduleTask_fit currentDate cursors visited task fuel st' fuel' :
  Forall (fun t => unplaced t = false -> fitsOrOpensDay c t) visited ->
  AIPlanner.scheduleTask currentDate c (cursors, visited) task fuel
  = Done (st', fuel') ->
  Forall (fun t => unplaced t = false -> fitsOrOpensDay c t) st'.2.
Proof.
  intros Hvis. unfold AIPlanner.scheduleTask. fold (unplaced task).
  destruct (unplaced task) eqn:Hun.
  - intros [= <- <-]. simpl. apply Forall_app. split; [done|].
    constructor; [congruence|done].
  - intros (s1 & f1 & _ & Hrun)%bind_Done.
    apply bind_Done in Hrun as (s2 & f2 & Hsecond & [= <- <-]).
    simpl. apply Forall_app. split; [done|]. constructor; [|done]. intros _.
    unfold fitsOrOpensDay, startOf, endOf. simpl.
    destruct (isAfter _ _) eqn:Hafter.
    + right.
      destruct (while_inv
                  (fun x => hour x = startHour c /\ minute x = 0 /\ second x = 0)
                  (AIPlanner.offWorkingDay c) (AIPlanner.nextDay c)
                  ltac:(intros; apply nextDay_opens)
                  _ _ _ _ (nextDay_opens s1) Hsecond) as [? _].
      done.
    + left. injection Hsecond as <- <-. unfold isAfter in Hafter. lia.
Qed.

End FallbackFit.

(** X15: a task the fallback pass places ends by the end hour of the day it
    starts on (with the minutes and seconds of its start), or else it was
    moved to the start hour of a day, on the hour: a task longer than what is
    left of a day opens a later day, and is not cut. *)
Theorem fallback_pass_fits_or_opens_day now subtasks dueDate c fuel out fuel' :
  0 <= startHour c < 24 ->
  AIPlanner.scheduleTasks now subtasks dueDate c fuel = Done (out, fuel') ->
  Forall (fun t => unplaced t = false -> fitsOrOpensDay c t) out.
Proof.
  intros Hstart. unfold AIPlanner.scheduleTasks.
  intros ([cs out2] & f1 & Hloop & [= <- <-])%bind_Done.
  eapply (forEach_inv (AIPlanner.scheduleTask (add now 1 Day) c)
            (fun st => Forall (fun t => unplaced t = false -> fitsOrOpensDay c t)
                         st.2)) in Hloop; [exact Hloop| |by constructor].
  intros [cursors visited] task fuel0 st' f0 Hvis Hstep.
  by eapply scheduleTask_fit.
Qed.

Lemma fallback_pass_fits_or_opens_day_witness :
  exists out fuel',
    AIPlanner.scheduleTasks 0 [someTask "Bob" 60; someTask "Bob" 600]
      864000000 officeHours 24%nat = Done (out, fuel')
    /\ Forall (fun t => unplaced t = false -> fitsOrOpensDay officeHours t) out.
Proof.
  eexists _, _. split; [vm_compute; reflexivity|].
  eapply (fallback_pass_fits_or_opens_day 0 [someTask "Bob" 60; someTask "Bob" 600]
            864000000 officeHours 24%nat).
  - simpl. lia.
  - vm_compute. reflexivity.
Defined.

(** ** What repair returns *)

(** A subtask with a part, a title, details, a member as assignee and a
    positive duration. *)
Definition wellFormed (memberNames : list string) (t : AISubtask) : Prop :=
  part t <> 0 /\ title t <> "" /\ details t <> ""
  /\ assignee t ∈ memberNames /\ 0 < estimatedMinutes t.

Section RepairShape.

Variable parseDate : string -> option Z.
Variables (now : Z) (input : PlanningInput) (len : nat).

Let memberNames := name <$> inMembers input.

Lemma orStr_nonempty a d : d <> "" -> orStr a d <> "".
Proof.
  intros Hd. unfold orStr. destruct (String.eqb a "") eqn:E; [done|].
  by apply String.eqb_neq.
Qed.

Lemma fallback_name index :
  inMembers input <> [] ->
  exists m, inMembers input !! (index mod length (inMembers input))%nat = Some m
            /\ default "" (memberNames !! (index mod length memberNames)%nat)
               = name m.
Proof.
  intros Hne.
  destruct (lookup_lt_is_Some_2 (inMembers input)
              (index mod length (inMembers input))) as [m Hm].
  { apply Nat.mod_upper_bound. by destruct (inMembers input). }
  exists m. split; [done|]. subst memberNames.
  by rewrite length_fmap, list_lookup_fmap, Hm.
Qed.

Lemma repairSubtask_wellFormed index raw :
  inMembers input <> [] -> 1 <= inParts input -> (index < len)%nat ->
  wellFormed memberNames
    (AIPlanner.repairSubtask parseDate now input len memberNames index raw).
Proof.
  intros Hne Hparts Hindex. unfold wellFormed, AIPlanner.repairSubtask.
  cbn [part title details assignee estimatedMinutes].
  destruct (fallback_name index Hne) as (m & Hm & Hname).
  assert (Hin : name m ∈ memberNames).
  { apply list_elem_of_fmap. exists m. split; [done|].
    by eapply list_elem_of_lookup_2. }
  split_and!.
  - unfold orZ. destruct (Z.eqb_spec (default 0 (AIPlanner.rPart raw)) 0); [|done].
    assert (0 <= Z.of_nat index * inParts input / Z.of_nat len); [|lia].
    apply Z.div_pos; lia.
  - by apply orStr_nonempty.
  - by apply orStr_nonempty.
  - rewrite Hname. destruct (AIPlanner.rAssignee raw) as [a|]; [|done].
    destruct (bool_decide (a ∈ memberNames)) eqn:E; [|done].
    by apply bool_decide_eq_true in E.
  - destruct (AIPlanner.rEstimatedMinutes raw) as [mins|]; [|lia].
    destruct (Z.ltb_spec 0 mins); lia.
Qed.

End RepairShape.



(** X17: a candidate at position [i] whose assignee is missing or is not the
    name of a member is given the member at position [i % members.length];
    an assignee that is the name of a member is kept. *)
Theorem repair_assigns_by_position parseDate now aiResponse input candidates
    repaired (i : nat) raw t m :
  AIPlanner.planSubtasks aiResponse = Some candidates ->
  AIPlanner.validateAndRepairPlan parseDate now aiResponse input = Done repaired ->
  candidates !! i = Some raw -> repaired !! i = Some t ->
  inMembers input !! (i mod length (inMembers input))%nat = Some m ->
  match AIPlanner.rAssignee raw with
  | Some a => if bool_decide (a ∈ name <$> inMembers input)
              then assignee t = a else assignee t = name m
  | None => assignee t = name m
  end.
Proof.
  intros Hplan. unfold AIPlanner.validateAndRepairPlan. rewrite Hplan.
  intros [= <-] Hraw. rewrite list_lookup_imap, Hraw. intros [= <-] Hm.
  unfold AIPlanner.repairSubtask. cbn [assignee].
  rewrite length_fmap, list_lookup_fmap, Hm. simpl.
  destruct (AIPlanner.rAssignee raw) as [a|]; [|done].
  by destruct (bool_decide _).
Qed.

Lemma repair_assigns_by_position_witness :
  exists repaired raw t,
    AIPlanner.validateAndRepairPlan ISO8601.parseDate 1756500000000
      candidatePlan twoMembers = Done repaired
    /\ default [] (AIPlanner.planSubtasks candidatePlan) !! 1%nat = Some raw
    /\ repaired !! 1%nat = Some t
    /\ match AIPlanner.rAssignee raw with
       | Some a => if bool_decide (a ∈ name <$> inMembers twoMembers)
                   then assignee t = a else assignee t = "Carol"
       | None => assignee t = "Carol"
       end.
Proof.
  eexists _, _, _. split; [vm_compute; reflexivity|].
  split; [reflexivity|]. split; [reflexivity|].
  eapply (repair_assigns_by_position ISO8601.parseDate 1756500000000
            candidatePlan twoMembers
            (default [] (AIPlanner.planSubtasks candidatePlan)) _ 1%nat _ _
            {| id := None; name := "Carol"; role := None |}).
  - reflexivity.
  - vm_compute. reflexivity.
  - reflexivity.
  - reflexivity.
  - reflexivity.
Defined.

(** X18: repair changes nothing in a plan that is well-formed: the JSON of
    well-formed subtasks whose timestamps are read back as they were written
    is repaired to those very subtasks. *)
Theorem repair_keeps_well_formed parseDate toISOString now input subtasks :
  Forall (fun t => wellFormed (name <$> inMembers input) t
                   /\ readsBack parseDate toISOString (startOf t)
                   /\ readsBack parseDate toISOString (endOf t)) subtasks ->
  AIPlanner.validateAndRepairPlan parseDate now
    (AIPlanner.toResponse toISOString subtasks) input = Done subtasks.
Proof.
  intros Hall. unfold AIPlanner.validateAndRepairPlan.
  cbn [AIPlanner.toResponse AIPlanner.planSubtasks]. f_equal.
  apply list_eq. intros i. rewrite list_lookup_imap, list_lookup_fmap.
  destruct (subtasks !! i) as [t|] eqn:Hi; [|done]. simpl. f_equal.
  rewrite Forall_lookup in Hall.
  destruct (Hall i t Hi) as ((Hp & Ht & Hd & Ha & Hm) & Hs & He).
  unfold AIPlanner.repairSubtask.
  cbn [AIPlanner.toRaw AIPlanner.rPart AIPlanner.rTitle AIPlanner.rDetails
       AIPlanner.rAssignee AIPlanner.rEstimatedMinutes AIPlanner.rScheduled
       AIPlanner.rStart AIPlanner.rEnd mbind option_bind default].
  fold (startOf t) (endOf t).
  rewrite (validate_readsBack _ _ _ Hs), (validate_readsBack _ _ _ He).
  cbn [default]. unfold Datatypes.id, orZ, orStr.
  apply Z.eqb_neq in Hp. apply String.eqb_neq in Ht, Hd.
  pose proof (bool_decide_eq_true_2 _ Ha) as Ha'. apply Z.ltb_lt in Hm.
  rewrite Hp, Ht, Hd, Ha', Hm. unfold startOf, endOf.
  by destruct t as [? ? ? ? ? []].
Qed.

Lemma repair_keeps_well_formed_witness :
  AIPlanner.validateAndRepairPlan ISO8601.parseDate 1756500000000
    (AIPlanner.toResponse ISO8601.toISOString
       [ {| part := 1; title := "Outline"; details := "Write the outline";
            assignee := "Bob"; estimatedMinutes := 60;
            scheduled := {| start := 1756717200000; end_ := 1756720800000 |} |} ])
    twoMembers
  = Done [ {| part := 1; title := "Outline"; details := "Write the outline";
              assignee := "Bob"; estimatedMinutes := 60;
              scheduled := {| start := 1756717200000;
                              end_ := 1756720800000 |} |} ].
Proof.
  apply (repair_keeps_well_formed ISO8601.parseDate ISO8601.toISOString).
  repeat constructor; try (vm_compute; congruence).
Defined.



(** ** The first JSON object of a reply *)

(** The braces opened and not closed in a text. *)
Fixpoint depth (s : string) : Z :=
  match s with
  | EmptyString => 0
  | String c s' =>
      (if Ascii.eqb c AIPlanner.leftBrace then 1 else 0)
      - (if Ascii.eqb c AIPlanner.rightBrace then 1 else 0) + depth s'
  end.

Fixpoint occurs (c : Ascii.ascii) (s : string) : bool :=
  match s with
  | EmptyString => false
  | String c' s' => Ascii.eqb c' c || occurs c s'
  end.

(** [r] is the first object of [text]: it begins at the first left brace,
    its braces are balanced, and those of no shorter beginning of it are. *)
Definition firstObject (text r : string) : Prop :=
  exists before inner after,
    text = before +:+ r +:+ after
    /\ occurs AIPlanner.leftBrace before = false
    /\ r = String AIPlanner.leftBrace inner
    /\ depth r = 0
    /\ forall p q, r = p +:+ q -> p <> "" -> q <> "" -> depth p <> 0.

#[local] Arguments String.append !_ _ / : simpl nomatch.
#[local] Arguments AIPlanner.leftBrace : simpl never.
#[local] Arguments AIPlanner.rightBrace : simpl never.

Section Texts.

Lemma app_empty_r (s : string) : s +:+ "" = s.
Proof. induction s as [|c s IH]; [done|]. simpl. by rewrite IH. Qed.

Lemma app_assoc_str (a b c : string) : (a +:+ b) +:+ c = a +:+ b +:+ c.
Proof. induction a as [|x a IH]; [done|]. simpl. by rewrite IH. Qed.

Lemma length_app_str (a b : string) :
  String.length (a +:+ b) = (String.length a + String.length b)%nat.
Proof. induction a as [|x a IH]; [done|]. simpl. by rewrite IH. Qed.

Lemma depth_app (p q : string) : depth (p +:+ q) = depth p + depth q.
Proof. induction p as [|c p IH]; [done|]. simpl. rewrite IH. lia. Qed.

Lemma skipChars_app (before rest : string) :
  AIPlanner.skipChars (String.length before) (before +:+ rest) = rest.
Proof. induction before as [|c before IH]; [by destruct rest|]. exact IH. Qed.

Lemma substring_prefix (r after : string) :
  String.substring 0 (String.length r) (r +:+ after) = r.
Proof.
  induction r as [|c r IH]; [by destruct after|]. simpl. by rewrite IH.
Qed.

Lemma substring_app (before r after : string) :
  String.substring (String.length before) (String.length r)
    (before +:+ r +:+ after) = r.
Proof.
  induction before as [|c before IH]; [exact (substring_prefix r after)|]. exact IH.
Qed.

Lemma skipChars_suffix n : forall s, exists a, s = a +:+ AIPlanner.skipChars n s.
Proof.
  induction n as [|n IH]; intros s; [by exists ""|].
  destruct s as [|c s]; [by exists ""|].
  destruct (IH s) as [a Ha]. exists (String c a). simpl. by rewrite <- Ha.
Qed.

Lemma substring_is_prefix n : forall s, exists b, s = String.substring 0 n s +:+ b.
Proof.
  induction n as [|n IH]; intros s.
  - exists s. by destruct s.
  - destruct s as [|c s]; [by exists ""|].
    destruct (IH s) as [b Hb]. exists b. simpl. by rewrite <- Hb.
Qed.

Lemma last_char (s : string) :
  s <> "" -> exists body c, s = body +:+ String c "".
Proof.
  induction s as [|c s IH]; [done|]. intros _.
  destruct s as [|d s]; [by exists "", c|].
  destruct IH as (body & e & He); [done|].
  exists (String c body), e. simpl. by rewrite <- He.
Qed.

Lemma app_last_inj (a b : string) c d :
  a +:+ String c "" = b +:+ String d "" -> a = b /\ c = d.
Proof.
  revert b. induction a as [|x a IH]; intros [|y b]; simpl.
  - by intros [= ->].
  - intros [= -> H]. by destruct b.
  - intros [= -> H]. by destruct a.
  - intros [= -> H]. destruct (IH _ H) as [-> ->]. done.
Qed.

End Texts.

Section Braces.

Lemma indexOfBrace_Some s : forall i,
  AIPlanner.indexOfBrace s = Some i ->
  exists before rest,
    s = before +:+ String AIPlanner.leftBrace rest
    /\ String.length before = i
    /\ occurs AIPlanner.leftBrace before = false.
Proof.
  induction s as [|c s IH]; intros i; [done|]. simpl.
  destruct (Ascii.eqb_spec c AIPlanner.leftBrace) as [->|Hc].
  - intros [= <-]. by exists "", s.
  - destruct (AIPlanner.indexOfBrace s) as [j|]; [|done]. intros [= <-].
    destruct (IH j eq_refl) as (before & rest & -> & <- & Hno).
    exists (String c before), rest. repeat split. simpl.
    rewrite Hno. by destruct (Ascii.eqb_spec c AIPlanner.leftBrace).
Qed.

Lemma indexOfBrace_first before rest :
  occurs AIPlanner.leftBrace before = false ->
  AIPlanner.indexOfBrace (before +:+ String AIPlanner.leftBrace rest)
  = Some (String.length before).
Proof.
  induction before as [|c before IH]; simpl.
  - done.
  - intros [Hc Hno]%orb_false_iff. rewrite Hc, (IH Hno). done.
Qed.

Lemma indexOfBrace_None s :
  AIPlanner.indexOfBrace s = None <-> occurs AIPlanner.leftBrace s = false.
Proof.
  induction s as [|c s IH]; [done|]. simpl.
  destruct (Ascii.eqb c AIPlanner.leftBrace); [done|]. simpl.
  rewrite <- IH. by destruct (AIPlanner.indexOfBrace s).
Qed.

(** What the loop over the characters finds. *)
Lemma matchBraces_Some s : forall open n,
  AIPlanner.matchBraces s open = Some n ->
  exists r after,
    s = r +:+ after /\ String.length r = n /\ r <> ""
    /\ open + depth r = 0
    /\ forall p q, r = p +:+ q -> p <> "" -> q <> "" -> open + depth p <> 0.
Proof.
  induction s as [|c s IH]; intros open n; [done|]. simpl.
  set (d := (if Ascii.eqb c AIPlanner.leftBrace then 1 else 0)
            - (if Ascii.eqb c AIPlanner.rightBrace then 1 else 0)).
  assert (Hopen :
    (if Ascii.eqb c AIPlanner.rightBrace
     then (if Ascii.eqb c AIPlanner.leftBrace then open + 1 else open) - 1
     else (if Ascii.eqb c AIPlanner.leftBrace then open + 1 else open))
    = open + d).
  { unfold d. destruct (Ascii.eqb c AIPlanner.leftBrace),
      (Ascii.eqb c AIPlanner.rightBrace); lia. }
  rewrite Hopen. destruct (Z.eqb_spec (open + d) 0) as [H0|H0].
  - intros [= <-]. exists (String c ""), s. repeat split; [done|simpl; lia|].
    intros [|x [|y p]] [|z q]; simpl; done.
  - destruct (AIPlanner.matchBraces s (open + d)) as [m|] eqn:Hm; [|done].
    intros [= <-].
    destruct (IH _ _ Hm) as (r & after & -> & <- & Hne & Hz & Hmin).
    exists (String c r), after. repeat split; [done|simpl; fold d; lia|].
    intros [|x p] q; [done|]. simpl. intros [= <- Hr] _ Hq. fold d.
    destruct p as [|y p]; [simpl; lia|].
    specialize (Hmin (String y p) q Hr ltac:(done) Hq). lia.
Qed.

Lemma matchBraces_complete r after : forall open,
  r <> "" -> open + depth r = 0 ->
  (forall p q, r = p +:+ q -> p <> "" -> q <> "" -> open + depth p <> 0) ->
  AIPlanner.matchBraces (r +:+ after) open = Some (String.length r).
Proof.
  induction r as [|c r IH]; intros open Hne Hz Hmin; [done|]. simpl.
  set (d := (if Ascii.eqb c AIPlanner.leftBrace then 1 else 0)
            - (if Ascii.eqb c AIPlanner.rightBrace then 1 else 0)).
  assert (Hopen :
    (if Ascii.eqb c AIPlanner.rightBrace
     then (if Ascii.eqb c AIPlanner.leftBrace then open + 1 else open) - 1
     else (if Ascii.eqb c AIPlanner.leftBrace then open + 1 else open))
    = open + d).
  { unfold d. destruct (Ascii.eqb c AIPlanner.leftBrace),
      (Ascii.eqb c AIPlanner.rightBrace); lia. }
  rewrite Hopen. simpl in Hz. fold d in Hz.
  destruct r as [|y r].
  - simpl in Hz. by replace (open + d) with 0 by lia.
  - destruct (Z.eqb_spec (open + d) 0) as [H0|H0].
    { specialize (Hmin (String c "") (String y r) eq_refl ltac:(done)
                       ltac:(done)).
      simpl in Hmin. fold d in Hmin. lia. }
    rewrite IH; [done|done|lia|].
    intros p q Hr Hp Hq.
    assert (Hcp : String c (String y r) = String c p +:+ q)
      by (simpl; by rewrite Hr).
    specialize (Hmin (String c p) q Hcp ltac:(done) Hq).
    simpl in Hmin. fold d in Hmin. lia.
Qed.

(** Between the first brace and the last character of the object some
    brace is open all along. *)
Lemma open_all_along s : forall open,
  1 <= open ->
  (forall p q, s = p +:+ q -> p <> "" -> q <> "" -> open + depth p <> 0) ->
  forall p q, s = p +:+ q -> q <> "" -> 0 < open + depth p.
Proof.
  induction s as [|c s IH]; intros open Hopen Hmin p q Hs Hq.
  { destruct p; [by destruct q|done]. }
  destruct p as [|x p]; [simpl; lia|]. simpl in Hs. injection Hs as <- Hs.
  simpl.
  set (d := (if Ascii.eqb c AIPlanner.leftBrace then 1 else 0)
            - (if Ascii.eqb c AIPlanner.rightBrace then 1 else 0)).
  assert (Hd : -1 <= d).
  { unfold d. destruct (Ascii.eqb c AIPlanner.leftBrace),
      (Ascii.eqb c AIPlanner.rightBrace); lia. }
  assert (Hs' : s <> "") by (rewrite Hs; destruct p; [done|done]).
  assert (H1 : open + d <> 0).
  { specialize (Hmin (String c "") s eq_refl ltac:(done) Hs').
    simpl in Hmin. fold d in Hmin. lia. }
  assert (Hmin' : forall p' q', s = p' +:+ q' -> p' <> "" -> q' <> "" ->
                                open + d + depth p' <> 0).
  { intros p' q' Hs'' Hp' Hq'.
    assert (Hcp : String c s = String c p' +:+ q') by (simpl; by rewrite Hs'').
    specialize (Hmin (String c p') q' Hcp ltac:(done) Hq').
    simpl in Hmin. fold d in Hmin. lia. }
  specialize (IH (open + d) ltac:(lia) Hmin' p q Hs Hq). lia.
Qed.

Lemma depth_object inner :
  depth (String AIPlanner.leftBrace inner) = 1 + depth inner.
Proof. reflexivity. Qed.

Lemma object_open_inside inner :
  (forall p q, String AIPlanner.leftBrace inner = p +:+ q ->
               p <> "" -> q <> "" -> depth p <> 0) ->
  forall p q, inner = p +:+ q -> q <> "" -> 0 < 1 + depth p.
Proof.
  intros Hmin. apply open_all_along; [lia|]. intros p q Hi Hp Hq.
  assert (Hr : String AIPlanner.leftBrace inner
               = String AIPlanner.leftBrace p +:+ q) by (simpl; by rewrite Hi).
  specialize (Hmin _ _ Hr ltac:(done) Hq). rewrite depth_object in Hmin. lia.
Qed.

Lemma object_closes_last inner :
  depth (String AIPlanner.leftBrace inner) = 0 ->
  (forall p q, inner = p +:+ q -> q <> "" -> 0 < 1 + depth p) ->
  exists body,
    String AIPlanner.leftBrace inner = body +:+ String AIPlanner.rightBrace "".
Proof.
  rewrite depth_object. intros Hz Hopen.
  destruct inner as [|y inner]; [simpl in Hz; lia|].
  destruct (last_char (String y inner)) as (body & c & Hbody); [done|].
  specialize (Hopen body (String c "") Hbody ltac:(done)).
  rewrite Hbody, depth_app in Hz. rewrite Hbody.
  exists (String AIPlanner.leftBrace body). simpl. do 3 f_equal.
  simpl in Hz.
  destruct (Ascii.eqb_spec c AIPlanner.rightBrace) as [Hc|Hc]; [done|].
  destruct (Ascii.eqb c AIPlanner.leftBrace); lia.
Qed.

End Braces.

Lemma extract_firstObject text r :
  AIPlanner.extractFirstJSONObject text = Some r
  <-> firstObject (AIPlanner.trim (AIPlanner.dropFences text)) r.
Proof.
  unfold AIPlanner.extractFirstJSONObject.
  set (cleaned := AIPlanner.trim (AIPlanner.dropFences text)). split.
  - destruct (AIPlanner.indexOfBrace cleaned) as [start|] eqn:Hstart; [|done].
    destruct (indexOfBrace_Some _ _ Hstart) as (before & rest & Hc & <- & Hno).
    rewrite Hc, skipChars_app.
    destruct (AIPlanner.matchBraces _ 0) as [len|] eqn:Hlen; [|done].
    destruct (matchBraces_Some _ _ _ Hlen) as (r' & after & Hr & <- & Hne & Hz & Hmin).
    rewrite Hr, substring_app. intros [= <-].
    destruct r' as [|c inner]; [done|]. injection Hr as <- Hr.
    exists before, inner, after. repeat split; [done|lia|].
    intros p q Hpq Hp Hq. specialize (Hmin p q Hpq Hp Hq). lia.
  - intros (before & inner & after & Hc & Hno & -> & Hz & Hmin).
    rewrite Hc. simpl. rewrite (indexOfBrace_first _ _ Hno).
    change (before +:+ String AIPlanner.leftBrace (inner +:+ after))
      with (before +:+ String AIPlanner.leftBrace inner +:+ after).
    rewrite skipChars_app, (matchBraces_complete _ after 0), substring_app;
      [done|done|lia|].
    intros p q Hpq Hp Hq. specialize (Hmin p q Hpq Hp Hq). lia.
Qed.

(** X20: what [extractFirstJSONObject] returns is the first object of the
    reply once its fences are dropped and its ends trimmed: the piece that
    begins at the first left brace and ends where the braces are balanced for
    the first time; and it returns [null] exactly when there is no such
    piece. *)
Theorem extractFirstJSONObject_first_balanced text :
  (forall r, AIPlanner.extractFirstJSONObject text = Some r
             <-> firstObject (AIPlanner.trim (AIPlanner.dropFences text)) r)
  /\ (AIPlanner.extractFirstJSONObject text = None
      <-> forall r,
            ~ firstObject (AIPlanner.trim (AIPlanner.dropFences text)) r).
Proof.
  split; [intros r; apply extract_firstObject|]. split.
  - intros Hnone r Hr%extract_firstObject. congruence.
  - intros Hno. destruct (AIPlanner.extractFirstJSONObject text) as [r|] eqn:He;
      [|done].
    by apply extract_firstObject, Hno in He.
Qed.

(** X21: the object that [extractFirstJSONObject] returns ends with a right
    brace, and before its last character some brace of it is open all
    along. *)
Theorem extractFirstJSONObject_closes_last text r :
  AIPlanner.extractFirstJSONObject text = Some r ->
  (exists body, r = body +:+ String AIPlanner.rightBrace "")
  /\ forall p q, r = p +:+ q -> p <> "" -> q <> "" -> 0 < depth p.
Proof.
  intros (before & inner & after & _ & _ & -> & Hz & Hmin)%extract_firstObject.
  pose proof (object_open_inside _ Hmin) as Hopen. split.
  - by apply object_closes_last.
  - intros [|x p] q Hr Hp Hq; [done|]. simpl in Hr. injection Hr as <- Hi.
    specialize (Hopen p q Hi Hq). rewrite depth_object. lia.
Qed.

Lemma extractFirstJSONObject_closes_last_witness :
  AIPlanner.extractFirstJSONObject "see ```json {{}{}} ``` {}" = Some "{{}{}}"
  /\ (exists body, "{{}{}}" = body +:+ String AIPlanner.rightBrace "")
  /\ forall p q, "{{}{}}" = p +:+ q -> p <> "" -> q <> "" -> 0 < depth p.
Proof.
  split; [vm_compute; reflexivity|].
  apply (extractFirstJSONObject_closes_last "see ```json {{}{}} ``` {}").
  vm_compute. reflexivity.
Defined.

(** ** Fences and white space *)

Section Fences.

Definition tick : Ascii.ascii := Ascii.ascii_of_N 96.

Lemma lowerChar_tick c :
  Ascii.eqb (AIPlanner.lowerChar c) tick = Ascii.eqb c tick.
Proof. by destruct c as [[] [] [] [] [] [] [] []]. Qed.

Lemma startsWith_app_l a c p :
  AIPlanner.startsWith a p = true -> AIPlanner.startsWith (a +:+ c) p = true.
Proof.
  revert p. induction a as [|x a IH]; intros [|y p];
    [by destruct c|done|done|].
  simpl. intros [-> Hp]%andb_true_iff. by rewrite IH.
Qed.

Lemma includesStr_app_l a c p :
  AIPlanner.includesStr a p = true -> AIPlanner.includesStr (a +:+ c) p = true.
Proof.
  induction a as [|x a IH].
  - destruct p; [by destruct c|done].
  - change (String x a +:+ c) with (String x (a +:+ c)).
    cbn [AIPlanner.includesStr]. intros [H|H]%orb_true_iff.
    + apply (startsWith_app_l _ c) in H.
      change (String x a +:+ c) with (String x (a +:+ c)) in H. by rewrite H.
    + rewrite (IH H). apply orb_true_r.
Qed.

(** A piece of a text without the word [p] is without it. *)
Lemma includesStr_piece a b c p :
  AIPlanner.includesStr (a +:+ b +:+ c) p = false ->
  AIPlanner.includesStr b p = false.
Proof.
  intros H. destruct (AIPlanner.includesStr b p) eqn:Hb; [|done].
  by rewrite (includesStr_app_r a _ p (includesStr_app_l b c p Hb)) in H.
Qed.

Lemma dropFencesFrom_skip s : forall k,
  AIPlanner.dropFencesFrom k s
  = AIPlanner.dropFences (AIPlanner.skipChars k s).
Proof.
  induction s as [|c s IH]; intros [|k]; try done. exact (IH k).
Qed.

Lemma skipChars_length k : forall s,
  (String.length (AIPlanner.skipChars k s) <= String.length s)%nat.
Proof.
  induction k as [|k IH]; intros [|c s]; simpl; try lia.
  specialize (IH s). lia.
Qed.

(** One step of [dropFences]. *)
Lemma dropFences_cons c s :
  AIPlanner.dropFences (String c s)
  = if AIPlanner.startsWith (AIPlanner.toLowerCase (String c s)) "```json"
    then AIPlanner.dropFences (AIPlanner.skipChars 6 s)
    else if AIPlanner.startsWith (String c s) "```"
         then AIPlanner.dropFences (AIPlanner.skipChars 2 s)
         else String c (AIPlanner.dropFences s).
Proof.
  unfold AIPlanner.dropFences at 1. cbn [AIPlanner.dropFencesFrom].
  by rewrite !dropFencesFrom_skip.
Qed.

Lemma startsWith_tick c s p :
  AIPlanner.startsWith (String c s) (String tick p)
  = Ascii.eqb c tick && AIPlanner.startsWith s p.
Proof. by destruct p. Qed.

Lemma json_fence_is_fence s :
  AIPlanner.startsWith (AIPlanner.toLowerCase s) "```json" = true ->
  AIPlanner.startsWith s "```" = true.
Proof.
  change "```json"
    with (String tick (String tick (String tick "json"))).
  change "```" with (String tick (String tick (String tick ""))).
  destruct s as [|a [|b [|c s]]]; try done;
    cbn [AIPlanner.toLowerCase]; rewrite ?startsWith_tick, ?lowerChar_tick.
  - by rewrite andb_false_r.
  - by rewrite !andb_false_r.
  - intros [-> [-> [-> _]%andb_true_iff]%andb_true_iff]%andb_true_iff.
    by destruct s.
Qed.

(** A text that does not begin with a tick keeps its first character. *)
Lemma dropFences_keeps_first c s :
  Ascii.eqb c tick = false ->
  AIPlanner.dropFences (String c s) = String c (AIPlanner.dropFences s).
Proof.
  intros Hc. rewrite dropFences_cons.
  assert (H3 : AIPlanner.startsWith (String c s) "```" = false).
  { change "```" with (String tick (String tick (String tick ""))).
    by rewrite startsWith_tick, Hc. }
  rewrite H3.
  destruct (AIPlanner.startsWith _ "```json") eqn:H7; [|done].
  apply json_fence_is_fence in H7. congruence.
Qed.

Lemma two_ticks_were_there s :
  AIPlanner.startsWith (AIPlanner.dropFences s) (String tick (String tick ""))
  = true ->
  AIPlanner.startsWith s (String tick (String tick "")) = true.
Proof.
  destruct s as [|d s]; [done|].
  destruct (Ascii.eqb d tick) eqn:Hd.
  - destruct s as [|e s].
    + clear Hd. destruct d as [[] [] [] [] [] [] [] []]; vm_compute; done.
    + destruct (Ascii.eqb e tick) eqn:He.
      * intros _. rewrite !startsWith_tick, Hd, He. by destruct s.
      * rewrite dropFences_cons.
        assert (H3 : AIPlanner.startsWith (String d (String e s)) "```" = false).
        { change "```" with (String tick (String tick (String tick ""))).
          by rewrite !startsWith_tick, He, andb_false_r. }
        rewrite H3.
        destruct (AIPlanner.startsWith _ "```json") eqn:H7;
          [apply json_fence_is_fence in H7; congruence|].
        rewrite (dropFences_keeps_first _ _ He), !startsWith_tick, He.
        by rewrite andb_false_r.
  - rewrite (dropFences_keeps_first _ _ Hd), startsWith_tick, Hd. done.
Qed.

(** What [dropFences] leaves holds no fence. *)
Lemma dropFences_no_fence n : forall s,
  (String.length s <= n)%nat ->
  AIPlanner.includesStr (AIPlanner.dropFences s) "```" = false.
Proof.
  induction n as [|n IH]; intros [|c s] Hn; try done; [simpl in Hn; lia|].
  simpl in Hn. rewrite dropFences_cons.
  destruct (AIPlanner.startsWith _ "```json") eqn:H7.
  { apply IH. pose proof (skipChars_length 6 s). lia. }
  destruct (AIPlanner.startsWith (String c s) "```") eqn:H3.
  { apply IH. pose proof (skipChars_length 2 s). lia. }
  cbn [AIPlanner.includesStr]. rewrite (IH s) by lia. rewrite orb_false_r.
  change "```" with (String tick (String tick (String tick ""))) in *.
  rewrite startsWith_tick in *.
  destruct (Ascii.eqb c tick); [|done]. simpl in *.
  destruct (AIPlanner.startsWith (AIPlanner.dropFences s) _) eqn:H2; [|done].
  apply two_ticks_were_there in H2. congruence.
Qed.

(** A text without a fence is left as it is. *)
Lemma dropFences_id s :
  AIPlanner.includesStr s "```" = false -> AIPlanner.dropFences s = s.
Proof.
  induction s as [|c s IH]; [done|]. cbn [AIPlanner.includesStr].
  intros [H3 Hs]%orb_false_iff. rewrite dropFences_cons, H3, (IH Hs).
  destruct (AIPlanner.startsWith _ "```json") eqn:H7; [|done].
  apply json_fence_is_fence in H7. congruence.
Qed.

End Fences.

Section Trim.

Lemma trimStartWith_suffix fuel : forall s,
  exists a, s = a +:+ AIPlanner.trimStartWith fuel s.
Proof.
  induction fuel as [|fuel IH]; intros s; [by exists ""|].
  cbn [AIPlanner.trimStartWith].
  destruct (List.find (AIPlanner.startsWith s) AIPlanner.whiteSpace) as [w|];
    [|by exists ""].
  destruct (skipChars_suffix (String.length w) s) as [a Ha].
  destruct (IH (AIPlanner.skipChars (String.length w) s)) as [b Hb].
  exists (a +:+ b). by rewrite app_assoc_str, <- Hb.
Qed.

Lemma trimEndWith_prefix fuel : forall s,
  exists b, s = AIPlanner.trimEndWith fuel s +:+ b.
Proof.
  induction fuel as [|fuel IH]; intros s.
  { exists "". by rewrite app_empty_r. }
  cbn [AIPlanner.trimEndWith].
  destruct (List.find (AIPlanner.endsWith s) AIPlanner.whiteSpace) as [w|];
    [|exists ""; by rewrite app_empty_r].
  destruct (substring_is_prefix (String.length s - String.length w) s)
    as [b Hb].
  destruct (IH (String.substring 0 (String.length s - String.length w) s))
    as [a Ha].
  exists (a +:+ b). by rewrite <- app_assoc_str, <- Ha.
Qed.

(** [trim] returns a piece of the text. *)
Lemma trim_piece s : exists a b, s = a +:+ AIPlanner.trim s +:+ b.
Proof.
  unfold AIPlanner.trim, AIPlanner.trimEnd, AIPlanner.trimStart.
  destruct (trimStartWith_suffix (String.length s) s) as [a Ha].
  set (t := AIPlanner.trimStartWith (String.length s) s) in *.
  destruct (trimEndWith_prefix (String.length t) t) as [b Hb].
  exists a, b. by rewrite <- Hb.
Qed.

Lemma find_nothing {A : Type} (f : A -> bool) (l : list A) :
  Forall (fun x => f x = false) l -> List.find f l = None.
Proof. induction 1 as [|x l Hx _ IH]; [done|]. simpl. by rewrite Hx. Qed.

Definition lastIs (c : Ascii.ascii) (s : string) : Prop :=
  exists body, s = body +:+ String c "".

Lemma endsWith_last s : forall w c d,
  lastIs c s -> lastIs d w -> c <> d -> AIPlanner.endsWith s w = false.
Proof.
  induction s as [|x s IH]; intros w c d [body Hs] [wbody ->] Hcd.
  { by destruct body. }
  cbn [AIPlanner.endsWith]. apply orb_false_iff. split.
  - apply String.eqb_neq. intros Heq. rewrite Heq in Hs.
    symmetry in Hs. apply app_last_inj in Hs as [_ ->]. done.
  - destruct s as [|y s].
    + by destruct wbody as [|? []].
    + apply (IH _ c d); [|by exists wbody|done].
      destruct body as [|z body]; [done|].
      simpl in Hs. injection Hs as -> Hs. by exists body.
Qed.

(** A text between braces has no white space to trim. *)
Lemma trim_braced inner body :
  String AIPlanner.leftBrace inner = body +:+ String AIPlanner.rightBrace "" ->
  AIPlanner.trim (String AIPlanner.leftBrace inner)
  = String AIPlanner.leftBrace inner.
Proof.
  intros Hr. unfold AIPlanner.trim.
  assert (Hs : AIPlanner.trimStart (String AIPlanner.leftBrace inner)
               = String AIPlanner.leftBrace inner).
  { unfold AIPlanner.trimStart. cbn [String.length AIPlanner.trimStartWith].
    rewrite find_nothing; [done|].
    unfold AIPlanner.whiteSpace. repeat constructor. }
  rewrite Hs. unfold AIPlanner.trimEnd.
  cbn [String.length AIPlanner.trimEndWith].
  rewrite find_nothing; [done|].
  assert (Hws : Forall (fun w => exists d, lastIs d w
                                /\ AIPlanner.rightBrace <> d)
                  AIPlanner.whiteSpace).
  { unfold AIPlanner.whiteSpace.
    repeat constructor;
      (eexists; split;
       [ (by exists "") || (by eexists (String _ ""))
         || (by eexists (String _ (String _ "")))
       | done ]). }
  eapply Forall_impl; [exact Hws|]. intros w (d & Hw & Hd).
  apply (endsWith_last _ _ AIPlanner.rightBrace d); [by exists body|done..].
Qed.

End Trim.

(** X22: extracting is idempotent: the object taken out of a reply holds no
    fence, no white space at its ends and nothing after its closing brace,
    so that [extractFirstJSONObject] returns it unchanged. *)
Theorem extractFirstJSONObject_idempotent text r :
  AIPlanner.extractFirstJSONObject text = Some r ->
  AIPlanner.extractFirstJSONObject r = Some r.
Proof.
  intros He.
  pose proof (proj1 (extract_firstObject _ _) He)
    as (before & inner & after & Hc & _ & -> & Hz & Hmin).
  assert (Hfence : AIPlanner.dropFences (String AIPlanner.leftBrace inner)
                   = String AIPlanner.leftBrace inner).
  { apply dropFences_id.
    pose proof (dropFences_no_fence _ text (Nat.le_refl _)) as Hno.
    destruct (trim_piece (AIPlanner.dropFences text)) as (a & b & Ht).
    rewrite Ht in Hno. apply includesStr_piece in Hno. rewrite Hc in Hno.
    by apply includesStr_piece in Hno. }
  destruct (object_closes_last inner Hz (object_open_inside _ Hmin))
    as [body Hbody].
  apply extract_firstObject. rewrite Hfence, (trim_braced _ _ Hbody).
  exists "", inner, "". repeat split; [by rewrite app_empty_r|done..].
Qed.

Lemma extractFirstJSONObject_idempotent_witness :
  AIPlanner.extractFirstJSONObject "see ```json {{}{}} ``` {}" = Some "{{}{}}"
  /\ AIPlanner.extractFirstJSONObject "{{}{}}" = Some "{{}{}}".
Proof.
  split; [vm_compute; reflexivity|].
  apply (extractFirstJSONObject_idempotent "see ```json {{}{}} ``` {}").
  vm_compute. reflexivity.
Defined.

(** ** A reply without an object *)

Section NoBrace.

Variable c : Ascii.ascii.

Lemma occurs_app a b : occurs c (a +:+ b) = occurs c a || occurs c b.
Proof.
  induction a as [|x a IH]; [done|]. simpl. by rewrite IH, orb_assoc.
Qed.

Lemma occurs_skipChars k : forall s,
  occurs c (AIPlanner.skipChars k s) = true -> occurs c s = true.
Proof.
  induction k as [|k IH]; intros [|x s]; try done. simpl.
  intros H%IH. rewrite H. apply orb_true_r.
Qed.

(** [dropFences] only takes characters away. *)
Lemma occurs_dropFences n : forall s,
  (String.length s <= n)%nat ->
  occurs c (AIPlanner.dropFences s) = true -> occurs c s = true.
Proof.
  induction n as [|n IH]; intros [|x s] Hn; try done; [simpl in Hn; lia|].
  simpl in Hn. rewrite dropFences_cons.
  destruct (AIPlanner.startsWith _ "```json").
  { intros H%IH; [|pose proof (skipChars_length 6 s); lia].
    apply occurs_skipChars in H. simpl. rewrite H. apply orb_true_r. }
  destruct (AIPlanner.startsWith (String x s) "```").
  { intros H%IH; [|pose proof (skipChars_length 2 s); lia].
    apply occurs_skipChars in H. simpl. rewrite H. apply orb_true_r. }
  simpl. intros [->|H]%orb_true_iff; [done|].
  apply IH in H; [|lia]. rewrite H. apply orb_true_r.
Qed.

Lemma occurs_cleaned text :
  occurs c text = false ->
  occurs c (AIPlanner.trim (AIPlanner.dropFences text)) = false.
Proof.
  intros Hno.
  destruct (occurs c (AIPlanner.trim (AIPlanner.dropFences text))) eqn:H;
    [|done].
  destruct (trim_piece (AIPlanner.dropFences text)) as (a & b & Ht).
  assert (Hd : occurs c (AIPlanner.dropFences text) = true).
  { rewrite Ht, !occurs_app, H. by rewrite orb_true_r. }
  apply (occurs_dropFences _ _ (Nat.le_refl _)) in Hd. congruence.
Qed.

End NoBrace.

Lemma extract_no_brace text :
  occurs AIPlanner.leftBrace text = false ->
  AIPlanner.extractFirstJSONObject text = None.
Proof.
  intros Hno%occurs_cleaned%indexOfBrace_None.
  unfold AIPlanner.extractFirstJSONObject. by rewrite Hno.
Qed.

(** X23: a reply without a left brace holds no object: dropping fences and
    trimming only take characters away, and [extractFirstJSONObject] returns
    [null]. *)
Theorem extractFirstJSONObject_needs_brace text :
  occurs AIPlanner.leftBrace text = false ->
  AIPlanner.extractFirstJSONObject text = None.
Proof. exact (extract_no_brace text). Qed.

Lemma extractFirstJSONObject_needs_brace_witness :
  AIPlanner.extractFirstJSONObject "```json I cannot plan this. ```" = None.
Proof.
  apply (extractFirstJSONObject_needs_brace "```json I cannot plan this. ```").
  vm_compute. reflexivity.
Defined.

(** ** Planning with the provider *)

Section GeneratePlan.

Variable jsonParse : string -> option AIPlanner.RawPlanResponse.
Variable parseDate : string -> option Z.


(** X25: without a key, when the request fails, or when the reply holds no
    left brace, [generatePlan] is the fallback decomposition. *)
Theorem generatePlan_falls_back apiKey reply now input fuel :
  apiKey = ""
  \/ (exists e, reply = Throws e)
  \/ (exists content,
        reply = Done content /\ occurs AIPlanner.leftBrace content = false) ->
  AIPlanner.generatePlan jsonParse parseDate apiKey reply now input fuel
  = AIPlanner.generateFallbackPlan now input fuel.
Proof.
  unfold AIPlanner.generatePlan, truthyStr.
  destruct (String.eqb_spec apiKey "") as [->|Hkey]; [done|]. cbn [negb].
  intros [Hk|[[e ->]|(content & -> & Hno)]]; [done|done|].
  - unfold AIPlanner.readContent.
    destruct (negb (truthyStr content)); [done|].
    by rewrite (extract_no_brace _ Hno).
Qed.

End GeneratePlan.


Lemma generatePlan_falls_back_witness :
  AIPlanner.generatePlan (fun _ => None) (fun _ => None) "key"
    (Done "Sorry, I cannot help with that.") 0 threeParts 72%nat
  = AIPlanner.generateFallbackPlan 0 threeParts 72%nat.
Proof.
  apply (generatePlan_falls_back (fun _ => None) (fun _ => None) "key"
           (Done "Sorry, I cannot help with that.") 0 threeParts 72%nat).
  right. right. eexists. split; [reflexivity|]. vm_compute. reflexivity.
Defined.

(** ** The constraints and the answers of the routes *)

(** X26: a working window that starts at midnight cannot be asked for: the
    route reads the hour 0 as missing and starts the window at 9; when the
    window asked for ends at 9 or before, the scheduler is given a window
    that ends before it starts. *)
Theorem midnight_start_becomes_nine raw e :
  Routes.rStartHour raw = Some 0 -> Routes.rEndHour raw = Some e ->
  0 < e <= 9 ->
  let c := Routes.withDefaults (Some raw) in
  startHour c = 9 /\ endHour c = e /\ ~ validConstraints c.
Proof.
  intros Hs He Hrange c. subst c. unfold Routes.withDefaults. simpl.
  rewrite Hs, He. simpl. unfold orZ.
  destruct (Z.eqb_spec e 0) as [?|_]; [lia|]. simpl.
  repeat split. intros (_ & Hlt & _). simpl in Hlt. unfold orZ in Hlt.
  simpl in Hlt. destruct (Z.eqb_spec e 0); lia.
Qed.

Lemma midnight_start_becomes_nine_witness :
  let c := Routes.withDefaults
             (Some {| Routes.rWorkHoursPerDay := Some 6;
                      Routes.rStartHour := Some 0;
                      Routes.rEndHour := Some 8;
                      Routes.rDaysOfWeek := Some [1; 2; 3; 4; 5] |}) in
  startHour c = 9 /\ endHour c = 8 /\ ~ validConstraints c.
Proof.
  apply (midnight_start_becomes_nine
           {| Routes.rWorkHoursPerDay := Some 6; Routes.rStartHour := Some 0;
              Routes.rEndHour := Some 8;
              Routes.rDaysOfWeek := Some [1; 2; 3; 4; 5] |} 8).
  - reflexivity.
  - reflexivity.
  - lia.
Defined.

Lemma withDefaults_none_valid : validConstraints (Routes.withDefaults None).
Proof.
  change (Routes.withDefaults None)
    with {| workHoursPerDay := 6; startHour := 9; endHour := 18;
            daysOfWeek := [1; 2; 3; 4; 5] |}.
  unfold validConstraints. simpl. split; [lia|]. split; [done|].
  split; [lia|]. split; [done|]. repeat constructor; lia.
Qed.


